(** * Agentic Wallet Guard: authorization engine and integrity layer

    A shallow embedding of [integrity.mjs] (sign / verify over tracked
    files) and [guard.mjs] (the request / confirm state machine, the kill
    switch and the status query), with the properties claimed for them.

    Conventions of the embedding:
    - JavaScript numbers are IEEE 754 doubles. Counts, seconds and
      millisecond clock readings are integers far below 2^53, on which the
      source's [+], [>], [<] and [>=] are exact: they are integers of [Z].
      Amounts and limits are integers of [Z] in [Guard], which runs the
      engine on whole amounts with exact sums, and doubles in [Double],
      which runs the confirm phase with the sum the machine computes;
      [confirmSend_on_exact_sum] relates the two.
    - One call reads the clock once: [Date.now()] and the [new Date()]
      readings inside one operation are the same instant [now], in
      milliseconds since the epoch.
    - Time stamps the source persists as ISO strings and reads back with
      [new Date(str).getTime()] (lastTransaction, expiresAt, ...) are kept as
      their millisecond value; the ISO text is produced where the source
      writes text that is never parsed again (dailyDate, the log). *)

From Stdlib Require Import ZArith List Ascii String Bool Lia.
From Stdlib Require PrimFloat Uint63Axioms.
From stdpp Require Import base decidable option list strings pretty gmap.

#[local] Set Warnings "-register-all".

Local Open Scope string_scope.
Local Open Scope Z_scope.

(** ** Characters and strings *)

Module Str.

(** The double quote and the control characters, by code point. *)
Definition dquote : ascii := ascii_of_nat 34.
Definition backslash : ascii := ascii_of_nat 92.
Definition newline : ascii := ascii_of_nat 10.

Definition str1 (c : ascii) : string := String c EmptyString.

Definition is_digit (c : ascii) : bool :=
  let n := nat_of_ascii c in (48 <=? n)%nat && (n <=? 57)%nat.

Fixpoint all_digits (s : string) : bool :=
  match s with
  | EmptyString => true
  | String c r => is_digit c && all_digits r
  end.

Fixpoint no_digit (s : string) : bool :=
  match s with
  | EmptyString => true
  | String c r => negb (is_digit c) && no_digit r
  end.

(** [String.prototype.toLowerCase] on ASCII text (addresses are hex). *)
Definition lower_char (c : ascii) : ascii :=
  let n := nat_of_ascii c in
  if (65 <=? n)%nat && (n <=? 90)%nat then ascii_of_nat (n + 32) else c.

Fixpoint toLowerCase (s : string) : string :=
  match s with
  | EmptyString => EmptyString
  | String c r => String (lower_char c) (toLowerCase r)
  end.

(** [s.includes(c)]: [c] occurs in [s] as a contiguous substring. *)
Fixpoint includes (c s : string) : bool :=
  String.prefix c s ||
  match s with
  | EmptyString => false
  | String _ r => includes c r
  end.

(** The same, as a proposition. *)
Definition occurs (c s : string) : Prop :=
  exists pre post, s = pre +:+ c +:+ post.

(** Left padding with zeros to [n] characters ([padStart(n, '0')]). *)
Fixpoint zeros (n : nat) : string :=
  match n with
  | O => EmptyString
  | S k => String "0" (zeros k)
  end.

Definition pad (n : nat) (z : Z) : string :=
  let s := pretty z in zeros (n - String.length s) +:+ s.

End Str.

(** ** JSON values and [JSON.stringify] *)

Module Json.

Inductive json : Type :=
  | JNull
  | JNum (z : Z)
  | JStr (s : string)
  | JObj (fields : list (string * json)).

Definition hex_digit (n : nat) : ascii :=
  if (n <? 10)%nat then ascii_of_nat (48 + n) else ascii_of_nat (87 + n).

(** QuoteJSONString: the two-character escapes, [\u00xx] for the other
    control characters, everything else verbatim. *)
Definition escape_char (c : ascii) : string :=
  let n := nat_of_ascii c in
  if (n =? 34)%nat then String Str.backslash (Str.str1 Str.dquote)
  else if (n =? 92)%nat then String Str.backslash (Str.str1 Str.backslash)
  else if (n =? 8)%nat then String Str.backslash "b"
  else if (n =? 9)%nat then String Str.backslash "t"
  else if (n =? 10)%nat then String Str.backslash "n"
  else if (n =? 12)%nat then String Str.backslash "f"
  else if (n =? 13)%nat then String Str.backslash "r"
  else if (n <? 32)%nat then
    String Str.backslash
      ("u00" +:+ String (hex_digit (n / 16)) (Str.str1 (hex_digit (n mod 16))))
  else Str.str1 c.

Fixpoint escape (s : string) : string :=
  match s with
  | EmptyString => EmptyString
  | String c r => escape_char c +:+ escape r
  end.

Definition quote (s : string) : string :=
  String Str.dquote (escape s +:+ Str.str1 Str.dquote).

(** Members are written in insertion order, separated by commas. *)
Fixpoint stringify (j : json) : string :=
  match j with
  | JNull => "null"
  | JNum z => pretty z
  | JStr s => quote s
  | JObj fields =>
      let fix members (fs : list (string * json)) : string :=
        match fs with
        | [] => EmptyString
        | (k, v) :: rest =>
            quote k +:+ ":" +:+ stringify v +:+
            match rest with
            | [] => EmptyString
            | _ :: _ => "," +:+ members rest
            end
        end in
      "{" +:+ members fields +:+ "}"
  end.

(** Property access [obj.key]: the last binding of a key wins in an object
    literal; the engine's literals bind each key once. *)
Fixpoint get (k : string) (fields : list (string * json)) : option json :=
  match fields with
  | [] => None
  | (k', v) :: rest => if bool_decide (k' = k) then Some v else get k rest
  end.

End Json.

(** ** Clock readings as ISO-8601 text *)

Module Iso.

Definition ms_per_day : Z := 86400000.

(** Civil date of a day count since 1970-01-01 (proleptic Gregorian). *)
Definition civil (days : Z) : Z * Z * Z :=
  let z := days + 719468 in
  let era := z / 146097 in
  let doe := z - era * 146097 in
  let yoe := (doe - doe / 1460 + doe / 36524 - doe / 146096) / 365 in
  let doy := doe - (365 * yoe + yoe / 4 - yoe / 100) in
  let mp := (5 * doy + 2) / 153 in
  let d := doy - (153 * mp + 2) / 5 + 1 in
  let m := if mp <? 10 then mp + 3 else mp - 9 in
  let y := yoe + era * 400 + (if m <=? 2 then 1 else 0) in
  (y, m, d).

Definition year_text (y : Z) : string :=
  if (0 <=? y) && (y <=? 9999) then Str.pad 4 y
  else (if y <? 0 then "-" else "+") +:+ Str.pad 6 (Z.abs y).

(** [new Date(ms).toISOString()]. *)
Definition toISOString (ms : Z) : string :=
  let '(y, m, d) := civil (ms / ms_per_day) in
  let r := ms mod ms_per_day in
  year_text y +:+ "-" +:+ Str.pad 2 m +:+ "-" +:+ Str.pad 2 d +:+ "T" +:+
  Str.pad 2 (r / 3600000) +:+ ":" +:+ Str.pad 2 ((r / 60000) mod 60) +:+ ":" +:+
  Str.pad 2 ((r / 1000) mod 60) +:+ "." +:+ Str.pad 3 (r mod 1000) +:+ "Z".

(** [new Date().toISOString().slice(0, 10)]. *)
Definition today (now : Z) : string := String.substring 0 10 (toISOString now).

End Iso.

(** ** Integrity layer ([integrity.mjs]) *)

Module Integrity.

Definition SIGNATURES_FILE : string := ".signatures".
Definition TRACKED_FILES : list string :=
  ["config.json"; "allowlist.json"; "state.json"].

(** A wallet directory: the text files by name and, when the signatures
    file exists, its decoded filename -> hex tag mapping. *)
Record Dir : Type := mkDir {
  files : gmap string string;
  signatures : option (gmap string string)
}.

(** JavaScript truthiness of a string. *)
Definition truthy (s : string) : bool := negb (bool_decide (s = EmptyString)).

(** [process.env.AWG_INTEGRITY_SECRET || null]: an unset and an empty
    variable both give no secret. *)
Definition getSecret (env : option string) : option string :=
  match env with
  | Some s => if truthy s then Some s else None
  | None => None
  end.

Definition loadSignatures (d : Dir) : gmap string string :=
  match signatures d with
  | None => ∅
  | Some sigs => sigs
  end.

Definition saveSignatures (d : Dir) (sigs : gmap string string) : Dir :=
  mkDir (files d) (Some sigs).

(** Bytes are numbers below 256. *)
Definition unhex (c : ascii) : option N :=
  let n := N_of_ascii c in
  if (48 <=? n)%N && (n <=? 57)%N then Some (n - 48)%N
  else if (97 <=? n)%N && (n <=? 102)%N then Some (n - 87)%N
  else if (65 <=? n)%N && (n <=? 70)%N then Some (n - 55)%N
  else None.

(** [Buffer.from(s, 'hex')]: whole pairs of hex digits, cut at the first
    pair that is not hexadecimal. *)
Fixpoint hex_decode (s : string) : list N :=
  match s with
  | String a (String b rest) =>
      match unhex a, unhex b with
      | Some x, Some y => (16 * x + y)%N :: hex_decode rest
      | _, _ => []
      end
  | _ => []
  end.

Definition hex_char (n : N) : ascii :=
  ascii_of_N (if (n <? 10)%N then 48 + n else 87 + n)%N.

(** [digest('hex')]: two lower-case digits per byte. *)
Fixpoint hex_encode (bs : list N) : string :=
  match bs with
  | [] => EmptyString
  | b :: rest =>
      String (hex_char (b / 16)%N) (String (hex_char (b mod 16)%N) (hex_encode rest))
  end.

(** [crypto.timingSafeEqual] on buffers of equal length. *)
Definition timingSafeEqual (a b : list N) : bool := bool_decide (a = b).

Section WithHmac.

(** [createHmac('sha256', secret).update(content).digest()], the keyed
    hash of Node's crypto module. *)
Variable hmac_sha256 : string -> string -> list N.

Definition sign (env : option string) (d : Dir) (filename : string)
  : Dir * option string :=
  match getSecret env with
  | None => (d, None)
  | Some secret =>
      match files d !! filename with
      | None => (d, None)
      | Some content =>
          let hmac := hex_encode (hmac_sha256 secret content) in
          let sigs := loadSignatures d in
          (saveSignatures d (<[filename := hmac]> sigs), Some hmac)
      end
  end.

Definition verify (env : option string) (d : Dir) (filename : string) : bool :=
  match getSecret env with
  | None => true
  | Some secret =>
      match files d !! filename with
      | None => true
      | Some content =>
          let sigs := loadSignatures d in
          match sigs !! filename with
          | None => false
          | Some tag =>
              if negb (truthy tag) then false
              else
                let expected := hmac_sha256 secret content in
                let stored := hex_decode tag in
                if negb (bool_decide (length expected = length stored)) then false
                else timingSafeEqual expected stored
          end
      end
  end.

Definition verifyAll (env : option string) (d : Dir) : list (string * bool) :=
  map (fun f => (f, verify env d f)) TRACKED_FILES.

End WithHmac.

(** A stand-in keyed hash for the worked examples: 32 bytes folded from the
    key and the content. It only has to be a function; the examples do not
    rely on any cryptographic property. *)
Definition example_hmac (key content : string) : list N :=
  let sum := fix sum (s : string) : N :=
    match s with
    | EmptyString => 0%N
    | String c r => (N_of_ascii c + 31 * sum r)%N
    end in
  let seed := (sum key * 131 + sum content)%N in
  map (fun i => ((seed + 7 * N.of_nat i) mod 256)%N) (seq 0 32).

End Integrity.

(** ** Configuration and allowlist ([config.mjs], [allowlist.mjs]) *)

Module Guard.

Import Json.

Record Sender : Type := mkSender { platform : string; id : string }.

Record Limits : Type := mkLimits {
  perTransaction : Z;
  dailyMax : Z;
  highValueThreshold : Z
}.

Record Cooldown : Type := mkCooldown {
  betweenTransactions : Z;
  afterRejection : Z
}.

Record Confirmation : Type := mkConfirmation {
  codeExpiry : Z;
  codeLength : Z;
  requiredForAllSends : bool
}.

Record FreezeOnAnomalies : Type := mkFreezeOnAnomalies {
  rapidRequests : Z;
  windowSeconds : Z
}.

Record Config : Type := mkConfig {
  version : Z;
  limits : Limits;
  cooldown : Cooldown;
  confirmation : Confirmation;
  freezeOnAnomalies : FreezeOnAnomalies;
  authorizedSenders : list Sender
}.

Definition DEFAULT_CONFIG : Config := {|
  version := 1;
  limits := {| perTransaction := 50; dailyMax := 200; highValueThreshold := 100 |};
  cooldown := {| betweenTransactions := 30; afterRejection := 300 |};
  confirmation := {| codeExpiry := 300; codeLength := 6; requiredForAllSends := true |};
  freezeOnAnomalies := {| rapidRequests := 3; windowSeconds := 60 |};
  authorizedSenders := []
|}.

Record AllowEntry : Type := mkAllowEntry {
  address : string;
  label : string;
  addedAt : Z
}.

(** The [addresses] array of allowlist.json. *)
Definition Allowlist : Type := list AllowEntry.

Definition isAllowed (allowlist : Allowlist) (addr : string) : bool :=
  let normalized := Str.toLowerCase addr in
  existsb (fun a => bool_decide (Str.toLowerCase (address a) = normalized)) allowlist.

(** ** Persisted state ([guard.mjs]) *)

(** [amount] and [dailyTotal] are whole amounts here, added and compared
    exactly; [Double] below has them as the doubles they are in the source. *)

Definition MAX_CONFIRM_ATTEMPTS : Z := 3.

Record PendingTx : Type := mkPendingTx {
  code : string;
  to : string;
  amount : Z;
  token : string;
  sender : option Sender;
  attempts : Z;
  createdAt : Z;
  expiresAt : Z
}.

Record GuardState : Type := mkGuardState {
  frozen : bool;
  frozenAt : option Z;
  frozenReason : option string;
  dailyTotal : Z;
  dailyDate : string;
  lastTransaction : option Z;
  pendingConfirmation : option PendingTx;
  recentRequests : list Z
}.

(** Assignments to one field of the state object. *)
Definition set_frozen (b : bool) (at_ : option Z) (reason : option string)
  (s : GuardState) : GuardState :=
  mkGuardState b at_ reason (dailyTotal s) (dailyDate s) (lastTransaction s)
    (pendingConfirmation s) (recentRequests s).

Definition set_daily (total : Z) (date : string) (s : GuardState) : GuardState :=
  mkGuardState (frozen s) (frozenAt s) (frozenReason s) total date
    (lastTransaction s) (pendingConfirmation s) (recentRequests s).

Definition set_lastTransaction (t : option Z) (s : GuardState) : GuardState :=
  mkGuardState (frozen s) (frozenAt s) (frozenReason s) (dailyTotal s)
    (dailyDate s) t (pendingConfirmation s) (recentRequests s).

Definition set_pendingConfirmation (p : option PendingTx) (s : GuardState)
  : GuardState :=
  mkGuardState (frozen s) (frozenAt s) (frozenReason s) (dailyTotal s)
    (dailyDate s) (lastTransaction s) p (recentRequests s).

Definition set_recentRequests (l : list Z) (s : GuardState) : GuardState :=
  mkGuardState (frozen s) (frozenAt s) (frozenReason s) (dailyTotal s)
    (dailyDate s) (lastTransaction s) (pendingConfirmation s) l.

Definition set_attempts (n : Z) (p : PendingTx) : PendingTx :=
  mkPendingTx (code p) (to p) (amount p) (token p) (sender p) n
    (createdAt p) (expiresAt p).

(** What the operations read and write on disk: state.json (absent until
    the first save) and the lines of transactions.log. Reads are the ones
    that pass the integrity check; a failed check throws before anything
    is decided. *)
Record World : Type := mkWorld {
  persisted : option GuardState;
  log : list string
}.

Definition loadState (w : World) (now : Z) : GuardState :=
  match persisted w with
  | None =>
      {| frozen := false; frozenAt := None; frozenReason := None;
         dailyTotal := 0; dailyDate := Iso.today now; lastTransaction := None;
         pendingConfirmation := None; recentRequests := [] |}
  | Some s => s
  end.

Definition saveState (w : World) (state : GuardState) : World :=
  mkWorld (Some state) (log w).

(** One line per entry: the entry's members, then the time stamp. *)
Definition logLine (now : Z) (entry : list (string * json)) : string :=
  stringify (JObj (entry ++ [("timestamp", JStr (Iso.toISOString now))]))
  +:+ Str.str1 Str.newline.

Definition logTransaction (w : World) (now : Z) (entry : list (string * json))
  : World :=
  mkWorld (persisted w) (log w ++ [logLine now entry]).

(** The whole file, as [readFileSync] returns it. *)
Definition logFile (w : World) : string :=
  fold_right (fun l acc => l +:+ acc) EmptyString (log w).

Definition jsender (s : Sender) : json :=
  JObj [("platform", JStr (platform s)); ("id", JStr (id s))].

(** ** Outcomes *)

(** The [reason] texts of the source, with the values they interpolate. *)
Inductive Reason : Type :=
  | WalletFrozen            (* Wallet is FROZEN. Unfreeze before sending. *)
  | UnauthorizedSender      (* Unauthorized sender. *)
  | NotAllowlisted (addr : string)
                            (* Address not in allowlist. Add it first: ... *)
  | OverPerTxLimit (amt limit : Z)
                            (* Amount $a exceeds per-transaction limit of $l. *)
  | OverDailyLimit (spent max : Z)
                            (* Would exceed daily limit. Spent: $s/$m. *)
  | CooldownActive (wait : Z)
                            (* Cooldown active. Wait {wait}s. *)
  | AutoFrozen              (* WALLET AUTO-FROZEN: Too many rapid requests detected. *)
  | NoPending               (* No pending transaction to confirm. *)
  | CodeExpired             (* Confirmation code expired. Request a new transaction. *)
  | SenderMismatch          (* Sender mismatch. Only the original requester can confirm. *)
  | WrongCode (remaining : Z)
                            (* Wrong confirmation code. {remaining} attempt(s) remaining. *)
  | AutoCancelled.          (* Transaction auto-cancelled: too many wrong confirmation codes. *)

Inductive Outcome : Type :=
  | Rejected (reason : Reason)
      (* { approved: false, reason } *)
  | NeedsConfirmation (amt : Z) (tok addr confirmationCode : string) (expiry : Z)
      (* { approved: false, needsConfirmation: true, message }: the message
         shows amount, token, destination, the code and the expiry *)
  | Approved (addr : string) (amt : Z) (tok : string).
      (* { approved: true, to, amount, token, message } *)

Definition approved (o : Outcome) : bool :=
  match o with
  | Approved _ _ _ => true
  | _ => false
  end.

Record Status : Type := mkStatus {
  st_frozen : bool;
  st_frozenReason : option string;
  st_dailyTotal : Z;
  st_dailyMax : Z;
  st_dailyRemaining : Z;
  st_pendingConfirmation : bool
}.

(** ** Kill switch and status *)

Definition freeze (now : Z) (w : World) (reason : string)
  : World * (bool * string) :=
  let state := loadState w now in
  let state := set_frozen true (Some now) (Some reason) state in
  let w := saveState w state in
  let w := logTransaction w now [("action", JStr "freeze"); ("reason", JStr reason)] in
  (w, (true, reason)).

Definition unfreeze (now : Z) (w : World) : World * bool :=
  let state := loadState w now in
  let state := set_frozen false None None state in
  let w := saveState w state in
  let w := logTransaction w now [("action", JStr "unfreeze")] in
  (w, false).

Definition getStatus (config : Config) (now : Z) (w : World) : World * Status :=
  let state := loadState w now in
  let today := Iso.today now in
  let '(w, state) :=
    if bool_decide (dailyDate state <> today) then
      let state := set_daily 0 today state in
      (saveState w state, state)
    else (w, state) in
  (w, {| st_frozen := frozen state;
         st_frozenReason := frozenReason state;
         st_dailyTotal := dailyTotal state;
         st_dailyMax := dailyMax (limits config);
         st_dailyRemaining := dailyMax (limits config) - dailyTotal state;
         st_pendingConfirmation :=
           match pendingConfirmation state with Some _ => true | None => false end |}).

(** ** Request phase *)

Record Request : Type := mkRequest {
  req_to : string;
  req_amount : Z;
  req_token : option string;       (* absent: the default 'USDC' *)
  req_sender : option Sender       (* absent: the default null *)
}.

(** [crypto.randomInt(min, max)] of Node: an integer [n] with
    [min <= n < max], the upper bound excluded. [r] is the raw draw of the
    random source, reduced to the width [max - min] of the range. *)
Definition randomInt (min max : Z) (r : Z) : Z := min + r mod (max - min).

(** [config.authorizedSenders.some(s => s.platform === sender.platform
    && s.id === sender.id)]. *)
Definition isAuthorized (config : Config) (s : Sender) : bool :=
  existsb (fun a => bool_decide (platform a = platform s) && bool_decide (id a = id s))
    (authorizedSenders config).

(** The sender check applies when the list is non-empty and a sender is given. *)
Definition senderRejected (config : Config) (sender : option Sender) : bool :=
  match sender with
  | Some s => (0 <? Z.of_nat (length (authorizedSenders config))) && negb (isAuthorized config s)
  | None => false
  end.

Definition jsender_opt (sender : option Sender) : json :=
  match sender with
  | Some s => jsender s
  | None => JNull
  end.

(** [elapsed = (now - last) / 1000] seconds; [elapsed < cooldown] is
    compared on milliseconds, and [Math.ceil(cooldown - elapsed)] is the
    remaining wait. *)
Definition cooldownWait (config : Config) (state : GuardState) (now : Z) : option Z :=
  match lastTransaction state with
  | Some last =>
      let cd := betweenTransactions (cooldown config) in
      if now - last <? 1000 * cd then Some (- ((- (1000 * cd - (now - last))) / 1000))
      else None
  | None => None
  end.

(** [recentRequests.filter(ts => (now - ts) / 1000 < windowSeconds)]. *)
Definition pruneRecent (config : Config) (now : Z) (l : list Z) : list Z :=
  List.filter (fun ts => now - ts <? 1000 * windowSeconds (freezeOnAnomalies config)) l.

(** The day's total starts again when the stored date is not today. *)
Definition rollover (now : Z) (state : GuardState) : GuardState :=
  if bool_decide (dailyDate state <> Iso.today now) then set_daily 0 (Iso.today now) state
  else state.

Definition requestSend (config : Config) (allowlist : Allowlist) (now r : Z)
  (w : World) (req : Request) : World * Outcome :=
  let to := req_to req in
  let amount := req_amount req in
  let token := default "USDC" (req_token req) in
  let sender := req_sender req in
  let state := loadState w now in
  let state := rollover now state in
  if frozen state then
    (logTransaction w now
       [("action", JStr "rejected"); ("reason", JStr "wallet_frozen");
        ("to", JStr to); ("amount", JNum amount); ("token", JStr token)],
     Rejected WalletFrozen)
  else if senderRejected config sender then
    (logTransaction w now
       [("action", JStr "rejected"); ("reason", JStr "unauthorized_sender");
        ("sender", jsender_opt sender); ("to", JStr to); ("amount", JNum amount)],
     Rejected UnauthorizedSender)
  else if negb (isAllowed allowlist to) then
    (logTransaction w now
       [("action", JStr "rejected"); ("reason", JStr "address_not_allowlisted");
        ("to", JStr to); ("amount", JNum amount)],
     Rejected (NotAllowlisted to))
  else if perTransaction (limits config) <? amount then
    (logTransaction w now
       [("action", JStr "rejected"); ("reason", JStr "over_per_tx_limit");
        ("to", JStr to); ("amount", JNum amount)],
     Rejected (OverPerTxLimit amount (perTransaction (limits config))))
  else if dailyMax (limits config) <? dailyTotal state + amount then
    (logTransaction w now
       [("action", JStr "rejected"); ("reason", JStr "over_daily_limit");
        ("to", JStr to); ("amount", JNum amount)],
     Rejected (OverDailyLimit (dailyTotal state) (dailyMax (limits config))))
  else
    match cooldownWait config state now with
    | Some wait => (w, Rejected (CooldownActive wait))
    | None =>
        let recent := (pruneRecent config now (recentRequests state) ++ [now])%list in
        let state := set_recentRequests recent state in
        if rapidRequests (freezeOnAnomalies config) <=? Z.of_nat (length recent) then
          let state := set_frozen true (Some now) (Some "anomaly_rapid_requests") state in
          let w := saveState w state in
          let w := logTransaction w now
            [("action", JStr "auto_freeze"); ("reason", JStr "rapid_requests");
             ("count", JNum (Z.of_nat (length recent)))] in
          (w, Rejected AutoFrozen)
        else
          let code := pretty (randomInt 100000 999999 r) in
          let state := set_pendingConfirmation
            (Some {| code := code; to := to; amount := amount; token := token;
                     sender := sender; attempts := 0; createdAt := now;
                     expiresAt := now + codeExpiry (confirmation config) * 1000 |})
            state in
          let w := saveState w state in
          let w := logTransaction w now
            [("action", JStr "confirmation_requested"); ("to", JStr to);
             ("amount", JNum amount); ("token", JStr token)] in
          (w, NeedsConfirmation amount token to code (codeExpiry (confirmation config)))
    end.

(** ** Confirm phase *)

(** [pending.attempts || 0]. *)
Definition or_zero (n : Z) : Z := if n =? 0 then 0 else n.

(** Both identities present and different in platform or id. *)
Definition senderMismatch (original confirmer : option Sender) : bool :=
  match original, confirmer with
  | Some p, Some s =>
      bool_decide (platform p <> platform s) || bool_decide (id p <> id s)
  | _, _ => false
  end.

Definition confirmSend (now : Z) (w : World) (code_ : string)
  (sender_ : option Sender) : World * Outcome :=
  let state := loadState w now in
  match pendingConfirmation state with
  | None => (w, Rejected NoPending)
  | Some pending =>
      if expiresAt pending <? now then
        let state := set_pendingConfirmation None state in
        let w := saveState w state in
        let w := logTransaction w now
          [("action", JStr "confirmation_expired"); ("to", JStr (to pending));
           ("amount", JNum (amount pending))] in
        (w, Rejected CodeExpired)
      else if senderMismatch (sender pending) sender_ then
        (logTransaction w now
           [("action", JStr "sender_mismatch"); ("to", JStr (to pending));
            ("amount", JNum (amount pending))],
         Rejected SenderMismatch)
      else if bool_decide (code_ <> code pending) then
        (* [pending] aliases [state.pendingConfirmation]: the increment is
           part of the state that is saved *)
        let pending := set_attempts (or_zero (attempts pending) + 1) pending in
        let state := set_pendingConfirmation (Some pending) state in
        if MAX_CONFIRM_ATTEMPTS <=? attempts pending then
          let state := set_pendingConfirmation None state in
          let w := saveState w state in
          let w := logTransaction w now
            [("action", JStr "brute_force_cancel"); ("to", JStr (to pending));
             ("amount", JNum (amount pending)); ("attempts", JNum (attempts pending))] in
          (w, Rejected AutoCancelled)
        else
          let w := saveState w state in
          let remaining := MAX_CONFIRM_ATTEMPTS - attempts pending in
          let w := logTransaction w now
            [("action", JStr "wrong_code"); ("to", JStr (to pending));
             ("amount", JNum (amount pending))] in
          (w, Rejected (WrongCode remaining))
      else
        let state := set_daily (dailyTotal state + amount pending) (dailyDate state) state in
        let state := set_lastTransaction (Some now) state in
        let state := set_pendingConfirmation None state in
        let w := saveState w state in
        let w := logTransaction w now
          [("action", JStr "approved"); ("to", JStr (to pending));
           ("amount", JNum (amount pending)); ("token", JStr (token pending))] in
        (w, Approved (to pending) (amount pending) (token pending))
  end.

(** ** The public operations, as one step function *)

Inductive Op : Type :=
  | OpRequestSend (req : Request) (r : Z)
  | OpConfirmSend (code_ : string) (sender_ : option Sender)
  | OpFreeze (reason : string)
  | OpUnfreeze
  | OpGetStatus.

Inductive OpResult : Type :=
  | ROutcome (o : Outcome)
  | RFrozen (b : bool)
  | RStatus (s : Status).

Definition step (config : Config) (allowlist : Allowlist) (now : Z)
  (op : Op) (w : World) : World * OpResult :=
  match op with
  | OpRequestSend req r =>
      let '(w', o) := requestSend config allowlist now r w req in (w', ROutcome o)
  | OpConfirmSend c s =>
      let '(w', o) := confirmSend now w c s in (w', ROutcome o)
  | OpFreeze reason =>
      let '(w', (b, _)) := freeze now w reason in (w', RFrozen b)
  | OpUnfreeze =>
      let '(w', b) := unfreeze now w in (w', RFrozen b)
  | OpGetStatus =>
      let '(w', s) := getStatus config now w in (w', RStatus s)
  end.

(** A call that does not end in [approved: true]. *)
Definition notApproved (r : OpResult) : bool :=
  match r with
  | ROutcome o => negb (approved o)
  | _ => true
  end.

End Guard.

(** * The confirm phase on JavaScript numbers

    [amount] and [dailyTotal] are JS numbers: the command line hands
    [parseFloat] of its argument to [requestSend], and the commit is
    [state.dailyTotal += pending.amount], an addition of doubles. Here the
    confirm phase of [guard.mjs] runs on the kernel's binary64 numbers, whose
    [PrimFloat.add] is the source's [+] (round to nearest, ties to even).
    The attempt count and the clock readings stay integers. *)

Module Double.

Import Guard.

Record PendingTx : Type := mkPendingTx {
  code : string;
  to : string;
  amount : PrimFloat.float;
  token : string;
  sender : option Sender;
  attempts : Z;
  createdAt : Z;
  expiresAt : Z
}.

Record GuardState : Type := mkGuardState {
  frozen : bool;
  frozenAt : option Z;
  frozenReason : option string;
  dailyTotal : PrimFloat.float;
  dailyDate : string;
  lastTransaction : option Z;
  pendingConfirmation : option PendingTx;
  recentRequests : list Z
}.

Definition set_daily (total : PrimFloat.float) (date : string) (s : GuardState)
  : GuardState :=
  mkGuardState (frozen s) (frozenAt s) (frozenReason s) total date
    (lastTransaction s) (pendingConfirmation s) (recentRequests s).

Definition set_lastTransaction (t : option Z) (s : GuardState) : GuardState :=
  mkGuardState (frozen s) (frozenAt s) (frozenReason s) (dailyTotal s)
    (dailyDate s) t (pendingConfirmation s) (recentRequests s).

Definition set_pendingConfirmation (p : option PendingTx) (s : GuardState)
  : GuardState :=
  mkGuardState (frozen s) (frozenAt s) (frozenReason s) (dailyTotal s)
    (dailyDate s) (lastTransaction s) p (recentRequests s).

Definition set_attempts (n : Z) (p : PendingTx) : PendingTx :=
  mkPendingTx (code p) (to p) (amount p) (token p) (sender p) n
    (createdAt p) (expiresAt p).

(** The members of a log entry. The digits [JSON.stringify] writes for a
    double are not modelled: the log keeps each entry as the object handed
    to [logTransaction], with the time stamp it adds. *)
Inductive value : Type :=
  | VStr (s : string)
  | VNum (x : PrimFloat.float)
  | VCount (n : Z).

Definition Entry : Type := list (string * value).

Record World : Type := mkWorld {
  persisted : option GuardState;
  log : list Entry
}.

Definition loadState (w : World) (now : Z) : GuardState :=
  match persisted w with
  | None =>
      {| frozen := false; frozenAt := None; frozenReason := None;
         dailyTotal := PrimFloat.zero; dailyDate := Iso.today now;
         lastTransaction := None; pendingConfirmation := None;
         recentRequests := [] |}
  | Some s => s
  end.

Definition saveState (w : World) (state : GuardState) : World :=
  mkWorld (Some state) (log w).

Definition logTransaction (w : World) (now : Z) (entry : Entry) : World :=
  mkWorld (persisted w)
    (log w ++ [(entry ++ [("timestamp", VStr (Iso.toISOString now))])%list]).

Inductive Outcome : Type :=
  | Rejected (reason : Reason)
  | NeedsConfirmation (amt : PrimFloat.float) (tok addr confirmationCode : string)
      (expiry : Z)
  | Approved (addr : string) (amt : PrimFloat.float) (tok : string).

Definition approved (o : Outcome) : bool :=
  match o with
  | Approved _ _ _ => true
  | _ => false
  end.

Definition confirmSend (now : Z) (w : World) (code_ : string)
  (sender_ : option Sender) : World * Outcome :=
  let state := loadState w now in
  match pendingConfirmation state with
  | None => (w, Rejected NoPending)
  | Some pending =>
      if expiresAt pending <? now then
        let state := set_pendingConfirmation None state in
        let w := saveState w state in
        let w := logTransaction w now
          [("action", VStr "confirmation_expired"); ("to", VStr (to pending));
           ("amount", VNum (amount pending))] in
        (w, Rejected CodeExpired)
      else if senderMismatch (sender pending) sender_ then
        (logTransaction w now
           [("action", VStr "sender_mismatch"); ("to", VStr (to pending));
            ("amount", VNum (amount pending))],
         Rejected SenderMismatch)
      else if bool_decide (code_ <> code pending) then
        let pending := set_attempts (or_zero (attempts pending) + 1) pending in
        let state := set_pendingConfirmation (Some pending) state in
        if MAX_CONFIRM_ATTEMPTS <=? attempts pending then
          let state := set_pendingConfirmation None state in
          let w := saveState w state in
          let w := logTransaction w now
            [("action", VStr "brute_force_cancel"); ("to", VStr (to pending));
             ("amount", VNum (amount pending));
             ("attempts", VCount (attempts pending))] in
          (w, Rejected AutoCancelled)
        else
          let w := saveState w state in
          let remaining := MAX_CONFIRM_ATTEMPTS - attempts pending in
          let w := logTransaction w now
            [("action", VStr "wrong_code"); ("to", VStr (to pending));
             ("amount", VNum (amount pending))] in
          (w, Rejected (WrongCode remaining))
      else
        (* state.dailyTotal += pending.amount *)
        let state :=
          set_daily (PrimFloat.add (dailyTotal state) (amount pending))
            (dailyDate state) state in
        let state := set_lastTransaction (Some now) state in
        let state := set_pendingConfirmation None state in
        let w := saveState w state in
        let w := logTransaction w now
          [("action", VStr "approved"); ("to", VStr (to pending));
           ("amount", VNum (amount pending)); ("token", VStr (token pending))] in
        (w, Approved (to pending) (amount pending) (token pending))
  end.

(** The double nearest to an integer of magnitude below 2^63: what the
    source holds for a whole amount. *)
Definition of_Z (z : Z) : PrimFloat.float :=
  if z <? 0 then PrimFloat.opp (PrimFloat.of_uint63 (Uint63Axioms.of_Z (- z)))
  else PrimFloat.of_uint63 (Uint63Axioms.of_Z z).

(** A state of [Guard] read as a state on doubles, each amount through
    [inj]. *)
Section Embedding.

Variable inj : Z -> PrimFloat.float.

Definition embedPending (p : Guard.PendingTx) : PendingTx :=
  {| code := Guard.code p; to := Guard.to p; amount := inj (Guard.amount p);
     token := Guard.token p; sender := Guard.sender p;
     attempts := Guard.attempts p; createdAt := Guard.createdAt p;
     expiresAt := Guard.expiresAt p |}.

Definition embedState (s : Guard.GuardState) : GuardState :=
  {| frozen := Guard.frozen s; frozenAt := Guard.frozenAt s;
     frozenReason := Guard.frozenReason s;
     dailyTotal := inj (Guard.dailyTotal s); dailyDate := Guard.dailyDate s;
     lastTransaction := Guard.lastTransaction s;
     pendingConfirmation := option_map embedPending (Guard.pendingConfirmation s);
     recentRequests := Guard.recentRequests s |}.

Definition embedOutcome (o : Guard.Outcome) : Outcome :=
  match o with
  | Guard.Rejected r => Rejected r
  | Guard.NeedsConfirmation a tok addr c e => NeedsConfirmation (inj a) tok addr c e
  | Guard.Approved addr a tok => Approved addr (inj a) tok
  end.

End Embedding.

End Double.

(** * The files behind the engine ([integrity.mjs], [config.mjs],
      [allowlist.mjs], and the load/save pair of [guard.mjs]) *)

Module Store.

Import Integrity Guard.

(** What a load can throw: the integrity error of the source, or the
    failure of [JSON.parse] (or of the first use of a value of the wrong
    shape) on a file that is not the JSON text of the expected value. *)
Inductive Error : Type :=
  | IntegrityFailed (file : string)
      (* Integrity check failed for {file} — file may have been tampered with. *)
  | Malformed (file : string).

Inductive Res (A : Type) : Type :=
  | Ok (a : A)
  | Err (e : Error).

Arguments Ok {A} a.
Arguments Err {A} e.

(** [writeFileSync(join(baseDir, name), content)]. *)
Definition writeFile (d : Dir) (name content : string) : Dir :=
  mkDir (<[name := content]> (files d)) (signatures d).

(** A file removed from the directory by other means ([rm]); its tag, if
    any, stays in the signatures file. *)
Definition removeFile (d : Dir) (name : string) : Dir :=
  mkDir (delete name (files d)) (signatures d).

(** The keys a config.json may bind at its top level; [loadConfig] spreads
    them over the defaults, so a key that is present replaces the whole
    default value of that key. *)
Record ConfigPatch : Type := mkConfigPatch {
  p_version : option Z;
  p_limits : option Limits;
  p_cooldown : option Cooldown;
  p_confirmation : option Confirmation;
  p_freezeOnAnomalies : option FreezeOnAnomalies;
  p_authorizedSenders : option (list Sender)
}.

(** [{ ...base, ...patch }]. *)
Definition spread (base : Config) (patch : ConfigPatch) : Config :=
  {| version := default (version base) (p_version patch);
     limits := default (limits base) (p_limits patch);
     cooldown := default (cooldown base) (p_cooldown patch);
     confirmation := default (confirmation base) (p_confirmation patch);
     freezeOnAnomalies := default (freezeOnAnomalies base) (p_freezeOnAnomalies patch);
     authorizedSenders := default (authorizedSenders base) (p_authorizedSenders patch) |}.

(** The object a complete configuration parses back to. *)
Definition full_patch (c : Config) : ConfigPatch :=
  {| p_version := Some (version c);
     p_limits := Some (limits c);
     p_cooldown := Some (cooldown c);
     p_confirmation := Some (confirmation c);
     p_freezeOnAnomalies := Some (freezeOnAnomalies c);
     p_authorizedSenders := Some (authorizedSenders c) |}.

Section WithFiles.

(** The keyed hash, the process environment's secret, and, for each kind of
    file, [JSON.parse] on its text and [JSON.stringify(v, null, 2) + '\n']. *)
Variable hmac_sha256 : string -> string -> list N.
Variable env : option string.
Variable parse_config : string -> option ConfigPatch.
Variable print_config : Config -> string.
Variable parse_allowlist : string -> option Allowlist.
Variable print_allowlist : Allowlist -> string.
Variable parse_state : string -> option GuardState.
Variable print_state : GuardState -> string.

(** [signAll]: the tracked files signed in order, with each result. *)
Definition signAll (d : Dir) : Dir * list (string * option string) :=
  fold_left
    (fun (acc : Dir * list (string * option string)) (f : string) =>
       let '(d', tag) := sign hmac_sha256 env (fst acc) f in
       (d', (snd acc ++ [(f, tag)])%list))
    TRACKED_FILES (d, []).

(** *** config.mjs *)

Definition loadConfig (d : Dir) : Res Config :=
  match files d !! "config.json" with
  | None => Ok DEFAULT_CONFIG
  | Some raw =>
      if negb (verify hmac_sha256 env d "config.json") then
        Err (IntegrityFailed "config.json")
      else
        match parse_config raw with
        | Some patch => Ok (spread DEFAULT_CONFIG patch)
        | None => Err (Malformed "config.json")
        end
  end.

Definition saveConfig (d : Dir) (config : Config) : Dir :=
  fst (sign hmac_sha256 env (writeFile d "config.json" (print_config config))
         "config.json").

Definition initConfig (d : Dir) : Res (Dir * Config) :=
  match files d !! "config.json" with
  | Some _ =>
      match loadConfig d with
      | Ok c => Ok (d, c)
      | Err e => Err e
      end
  | None => Ok (saveConfig d DEFAULT_CONFIG, DEFAULT_CONFIG)
  end.

(** *** allowlist.mjs *)

Definition loadAllowlist (d : Dir) : Res Allowlist :=
  match files d !! "allowlist.json" with
  | None => Ok []
  | Some raw =>
      if negb (verify hmac_sha256 env d "allowlist.json") then
        Err (IntegrityFailed "allowlist.json")
      else
        match parse_allowlist raw with
        | Some a => Ok a
        | None => Err (Malformed "allowlist.json")
        end
  end.

Definition saveAllowlist (d : Dir) (allowlist : Allowlist) : Dir :=
  fst (sign hmac_sha256 env (writeFile d "allowlist.json" (print_allowlist allowlist))
         "allowlist.json").

(** [a => a.address.toLowerCase() === normalized]. *)
Definition sameAddress (normalized : string) (a : AllowEntry) : bool :=
  bool_decide (Str.toLowerCase (address a) = normalized).

Definition addAddress (d : Dir) (now : Z) (addr label_ : string) : Res (Dir * bool) :=
  match loadAllowlist d with
  | Err e => Err e
  | Ok allowlist =>
      let normalized := Str.toLowerCase addr in
      match List.find (sameAddress normalized) allowlist with
      | Some existing => Ok (d, false)
      | None =>
          let allowlist :=
            (allowlist ++ [{| address := normalized; label := label_; addedAt := now |}])%list in
          Ok (saveAllowlist d allowlist, true)
      end
  end.

Definition removeAddress (d : Dir) (addr : string) : Res (Dir * bool) :=
  match loadAllowlist d with
  | Err e => Err e
  | Ok allowlist =>
      let normalized := Str.toLowerCase addr in
      let before := length allowlist in
      let allowlist := List.filter (fun a => negb (sameAddress normalized a)) allowlist in
      if bool_decide (length allowlist = before) then Ok (d, false)
      else Ok (saveAllowlist d allowlist, true)
  end.

Definition isAllowed (d : Dir) (addr : string) : Res bool :=
  match loadAllowlist d with
  | Err e => Err e
  | Ok allowlist => Ok (Guard.isAllowed allowlist addr)
  end.

Definition listAddresses (d : Dir) : Res Allowlist := loadAllowlist d.

(** *** guard.mjs: state.json *)

Definition loadState (d : Dir) (now : Z) : Res GuardState :=
  match files d !! "state.json" with
  | None =>
      Ok {| frozen := false; frozenAt := None; frozenReason := None;
            dailyTotal := 0; dailyDate := Iso.today now; lastTransaction := None;
            pendingConfirmation := None; recentRequests := [] |}
  | Some raw =>
      if negb (verify hmac_sha256 env d "state.json") then
        Err (IntegrityFailed "state.json")
      else
        match parse_state raw with
        | Some s => Ok s
        | None => Err (Malformed "state.json")
        end
  end.

Definition saveState (d : Dir) (state : GuardState) : Dir :=
  fst (sign hmac_sha256 env (writeFile d "state.json" (print_state state))
         "state.json").

(** The state file as the engine's [World] sees it. *)
Definition persistedState (d : Dir) : option GuardState :=
  match files d !! "state.json" with
  | None => None
  | Some raw => parse_state raw
  end.

End WithFiles.

(** The keyed hash gives 32 bytes. *)
Definition hmac_ok (hmac : string -> string -> list N) : Prop :=
  forall key content,
    length (hmac key content) = 32%nat /\
    Forall (fun b => (b < 256)%N) (hmac key content).

End Store.

(** * Definitions used by the statements *)

Import Json Guard.

(** ** The request gate in the specification's words *)

(** The gate as the specification words it: the checks in their fixed
    order, each with the reason it rejects with. [st] is the state after
    step 1, the daily rollover. *)
Module SpecGate.

(** Step 1: the total that counts is zero when the stored date is not today's. *)
Definition rolled_total (now : Z) (s : GuardState) : Z :=
  if bool_decide (dailyDate s = Iso.today now) then dailyTotal s else 0.

(** Step 7: the whole seconds still to wait, rounded up. *)
Definition remaining_wait (config : Config) (st : GuardState) (now : Z) : Z :=
  match lastTransaction st with
  | Some last => (1000 * betweenTransactions (cooldown config) - (now - last) + 999) / 1000
  | None => 0
  end.

(** Step 8: the time stamps still inside the window, and this request. *)
Definition window_count (config : Config) (st : GuardState) (now : Z) : Z :=
  Z.of_nat (length (pruneRecent config now (recentRequests st))) + 1.

Definition gate (config : Config) (allowlist : Allowlist) (now : Z)
  (st : GuardState) (req : Request) : list (Prop * Reason) :=
  [ (* 2 *) (frozen st = true, WalletFrozen);
    (* 3 *) (authorizedSenders config <> [] /\
             exists s, req_sender req = Some s /\ ~ In s (authorizedSenders config),
             UnauthorizedSender);
    (* 4 *) (~ exists a, In a allowlist /\
                         Str.toLowerCase (address a) = Str.toLowerCase (req_to req),
             NotAllowlisted (req_to req));
    (* 5 *) (req_amount req > perTransaction (limits config),
             OverPerTxLimit (req_amount req) (perTransaction (limits config)));
    (* 6 *) (dailyTotal st + req_amount req > dailyMax (limits config),
             OverDailyLimit (dailyTotal st) (dailyMax (limits config)));
    (* 7 *) (exists last, lastTransaction st = Some last /\
                          now - last < 1000 * betweenTransactions (cooldown config),
             CooldownActive (remaining_wait config st now));
    (* 8 *) (window_count config st now >= rapidRequests (freezeOnAnomalies config),
             AutoFrozen) ].

(** The reason of the first check that fails, if one does. *)
Inductive first_failing : list (Prop * Reason) -> option Reason -> Prop :=
  | ff_none : first_failing [] None
  | ff_here (P : Prop) (r : Reason) (rest : list (Prop * Reason)) :
      P -> first_failing ((P, r) :: rest) (Some r)
  | ff_later (P : Prop) (r : Reason) (rest : list (Prop * Reason))
      (o : option Reason) :
      ~ P -> first_failing rest o -> first_failing ((P, r) :: rest) o.

End SpecGate.

(** ** Observations on worlds, outcomes and log lines *)

(** The day's total read back after a call is the one read before it, or
    the stored date was not today's and the total was reset to zero. *)
Definition total_kept_or_rolled (now : Z) (w w' : World) : Prop :=
  dailyTotal (loadState w' now) = dailyTotal (loadState w now) \/
  (dailyDate (loadState w now) <> Iso.today now /\
   dailyTotal (loadState w' now) = 0 /\
   dailyDate (loadState w' now) = Iso.today now).

(** The worlds the operations can produce from an empty wallet directory;
    configuration, allowlist and clock are read anew at every call. *)
Inductive reachable : World -> Prop :=
  | reach_empty : reachable (mkWorld None [])
  | reach_step (config : Config) (allowlist : Allowlist) (now : Z) (op : Op)
      (w : World) :
      reachable w -> reachable (fst (step config allowlist now op w)).

(** The same under one configuration, the allowlist and the clock varying. *)
Inductive reachableWith (config : Config) : World -> Prop :=
  | reachW_empty : reachableWith config (mkWorld None [])
  | reachW_step (allowlist : Allowlist) (now : Z) (op : Op) (w : World) :
      reachableWith config w ->
      reachableWith config (fst (step config allowlist now op w)).

(** The day's total is within the daily maximum, and so it stays if the
    pending transfer is confirmed, today or after the total has restarted. *)
Definition stateWithinMax (config : Config) (s : GuardState) : Prop :=
  dailyTotal s <= dailyMax (limits config) /\
  forall p, pendingConfirmation s = Some p ->
    amount p <= perTransaction (limits config) /\
    dailyTotal s + amount p <= dailyMax (limits config).

Definition withinDailyMax (config : Config) (w : World) : Prop :=
  forall s, persisted w = Some s -> stateWithinMax config s.

(** The wrong-code count of a pending confirmation is below the maximum. *)
Definition attempts_ok (w : World) : Prop :=
  forall s p, persisted w = Some s -> pendingConfirmation s = Some p ->
    0 <= attempts p < MAX_CONFIRM_ATTEMPTS.

(** No two entries of an allowlist have the same address up to letter case. *)
Definition uniqueAddresses (l : Allowlist) : Prop :=
  NoDup (map (fun a => Str.toLowerCase (address a)) l).

(** The code a call of [requestSend] hands to its caller, if it does. *)
Definition issuedCode (o : Outcome) : option string :=
  match o with
  | NeedsConfirmation _ _ _ c _ => Some c
  | _ => None
  end.

(** The texts of the scalar values of a JSON value, as written. *)
Fixpoint leaves (j : json) : list string :=
  match j with
  | JNull => []
  | JNum z => [pretty z]
  | JStr s => [escape s]
  | JObj fields => flat_map (fun kv => leaves (snd kv)) fields
  end.

(** No key, at any depth, has a digit in it. *)
Fixpoint keys_plain (j : json) : bool :=
  match j with
  | JObj fields =>
      forallb (fun kv => Str.no_digit (escape (fst kv)) && keys_plain (snd kv)) fields
  | _ => true
  end.

(** The members of an object, as [stringify] writes them between the braces. *)
Fixpoint members (fs : list (string * json)) : string :=
  match fs with
  | [] => EmptyString
  | (k, v) :: rest =>
      quote k +:+ ":" +:+ stringify v +:+
      match rest with
      | [] => EmptyString
      | _ :: _ => "," +:+ members rest
      end
  end.

(** The texts of the values an operation may put in its log line: the time
    stamp, and what the caller supplied with this request or the one that
    is pending. The stored code is not among them. *)
Definition loggedValues (config : Config) (now : Z) (op : Op) (w : World)
  : list string :=
  escape (Iso.toISOString now) ::
  match op with
  | OpRequestSend req _ =>
      [escape (req_to req); pretty (req_amount req);
       escape (default "USDC" (req_token req));
       pretty (Z.of_nat (length (pruneRecent config now
                 (recentRequests (rollover now (loadState w now))) ++ [now])%list))]
      ++ match req_sender req with
         | Some s => [escape (platform s); escape (id s)]
         | None => []
         end
  | OpConfirmSend _ _ =>
      match pendingConfirmation (loadState w now) with
      | Some p => [escape (to p); pretty (amount p); escape (token p);
                   pretty (or_zero (attempts p) + 1)]
      | None => []
      end
  | OpFreeze reason => [escape reason]
  | OpUnfreeze => []
  | OpGetStatus => []
  end.

(** The world with another code in its pending confirmation. *)
Definition with_code (c : string) (w : World) : World :=
  mkWorld
    (match persisted w with
     | Some s =>
         Some (set_pendingConfirmation
                 (match pendingConfirmation s with
                  | Some p => Some (mkPendingTx c (to p) (amount p) (token p)
                                      (sender p) (attempts p) (createdAt p) (expiresAt p))
                  | None => None
                  end) s)
     | None => None
     end)
    (log w).

(** The lines an operation appends are [new]; a digit run in one of them
    lies in one of the values [vals]. *)
Definition appends_only (c : string) (vals : list string) (w w' : World) : Prop :=
  exists new : list string,
    log w' = (log w ++ new)%list /\
    (length new <= 1)%nat /\
    forall line, In line new -> Str.occurs c line ->
      exists v, In v vals /\ Str.occurs c v.

(** ** Worked inputs *)

Module Ex.

Definition t0 : Z := 1700000000000.      (* 2023-11-14T22:13:20.000Z *)

Definition alice : Sender := mkSender "imessage" "+1234".
Definition bob : Sender := mkSender "imessage" "+9999".

Definition allow : Allowlist := [mkAllowEntry "0xabcd" "Test" 0].

Definition allow2 : Allowlist :=
  [mkAllowEntry "0xabcd" "Test" 0; mkAllowEntry "0xbeef" "Cold" 0].

Definition pending5 : PendingTx :=
  {| code := "483920"; to := "0xABCD"; amount := 5; token := "USDC";
     sender := Some alice; attempts := 0; createdAt := t0;
     expiresAt := t0 + 300000 |}.

Definition state5 (frz : bool) : GuardState :=
  {| frozen := frz; frozenAt := None; frozenReason := None;
     dailyTotal := 40; dailyDate := "2023-11-14"; lastTransaction := None;
     pendingConfirmation := Some pending5; recentRequests := [t0] |}.

Definition world5 (frz : bool) : World := mkWorld (Some (state5 frz)) [].

End Ex.

Module ExDouble.

Import PrimFloat.

(** The doubles that [parseFloat] gives for 0.1 and 0.2. *)
Definition tenth : float := 0x1.999999999999ap-4%float.
Definition fifth : float := 0x1.999999999999ap-3%float.

(** The double that [parseFloat] gives for 0.3, and its successor, which
    prints as 0.30000000000000004. *)
Definition threeTenths : float := 0x1.3333333333333p-2%float.
Definition aboveThreeTenths : float := 0x1.3333333333334p-2%float.

Definition one : float := 1%float.
Definition two53 : float := 9007199254740992%float.

(** 0.1 approved earlier in the day, a transfer of 0.2 pending. *)
Definition pending : Double.PendingTx :=
  {| Double.code := "483920"; Double.to := "0xABCD"; Double.amount := fifth;
     Double.token := "USDC"; Double.sender := Some Ex.alice;
     Double.attempts := 0; Double.createdAt := Ex.t0;
     Double.expiresAt := Ex.t0 + 300000 |}.

Definition state : Double.GuardState :=
  {| Double.frozen := false; Double.frozenAt := None; Double.frozenReason := None;
     Double.dailyTotal := tenth; Double.dailyDate := "2023-11-14";
     Double.lastTransaction := Some (Ex.t0 - 60000);
     Double.pendingConfirmation := Some pending;
     Double.recentRequests := [Ex.t0] |}.

Definition world : Double.World := Double.mkWorld (Some state) [].

(** A day's total of 2^53 and a transfer of 1 pending. *)
Definition pendingOne : Double.PendingTx :=
  {| Double.code := "483920"; Double.to := "0xABCD"; Double.amount := one;
     Double.token := "USDC"; Double.sender := None;
     Double.attempts := 0; Double.createdAt := Ex.t0;
     Double.expiresAt := Ex.t0 + 300000 |}.

Definition stateBig : Double.GuardState :=
  {| Double.frozen := false; Double.frozenAt := None; Double.frozenReason := None;
     Double.dailyTotal := two53; Double.dailyDate := "2023-11-14";
     Double.lastTransaction := None;
     Double.pendingConfirmation := Some pendingOne;
     Double.recentRequests := [Ex.t0] |}.

Definition worldBig : Double.World := Double.mkWorld (Some stateBig) [].

End ExDouble.

Module ExCooldown.

(** A wallet whose last approved transfer was one second ago. *)
Definition state : GuardState :=
  {| frozen := false; frozenAt := None; frozenReason := None;
     dailyTotal := 40; dailyDate := "2023-11-14";
     lastTransaction := Some (Ex.t0 - 1000);
     pendingConfirmation := None; recentRequests := [] |}.

Definition world : World :=
  mkWorld (Some state)
    [logLine (Ex.t0 - 1000)
       [("action", JStr "approved"); ("to", JStr "0xABCD");
        ("amount", JNum 40); ("token", JStr "USDC")]].

Definition request : Request := mkRequest "0xABCD" 5 None None.

End ExCooldown.

Module ExIntegrity.

Import Integrity.

Definition secret : option string := Some "test-secret-key-123".

(** state.json written and signed. *)
Definition signed : Dir :=
  fst (sign example_hmac secret
         (mkDir {[ "state.json" := "{}" ]} None) "state.json").

(** The same directory after state.json was deleted behind the guard's
    back; its tag is still in the signatures file. *)
Definition deleted : Dir :=
  mkDir (delete "state.json" (files signed)) (signatures signed).

(** The same directory after state.json was edited behind the guard's back. *)
Definition edited : Dir :=
  mkDir (<["state.json" := "{ }"]> (files signed)) (signatures signed).

(** The edited directory with a config.json that was written by hand and
    has no tag yet. *)
Definition unsigned_config : Dir :=
  mkDir (<["config.json" := "{}"]> (files edited)) (signatures edited).

End ExIntegrity.

Module ExCode.

(** An allowlisted destination whose text holds six decimal digits. *)
Definition allow : Allowlist := [mkAllowEntry "0x100000" "Savings" 0].
Definition request : Request := mkRequest "0x100000" 5 None None.
Definition fresh : World := mkWorld None [].

End ExCode.

(** A stand-in for the JSON codec in the worked examples: a value is
    written as the binary digits of its code number and read back from
    them. Like [example_hmac] it only has to be a function with the round
    trip that [JSON.parse] and [JSON.stringify] have on these values. *)
Module ExCodec.

Fixpoint pos_to_bits (p : positive) : string :=
  match p with
  | xH => EmptyString
  | xO q => String "0" (pos_to_bits q)
  | xI q => String "1" (pos_to_bits q)
  end.

Fixpoint bits_to_pos (s : string) : option positive :=
  match s with
  | EmptyString => Some xH
  | String c r =>
      match bits_to_pos r with
      | Some q =>
          if bool_decide (c = "0"%char) then Some (xO q)
          else if bool_decide (c = "1"%char) then Some (xI q)
          else None
      | None => None
      end
  end.

#[global] Instance sender_eq_dec : EqDecision Sender.
Proof. solve_decision. Defined.
#[global] Instance limits_eq_dec : EqDecision Limits.
Proof. solve_decision. Defined.
#[global] Instance cooldown_eq_dec : EqDecision Cooldown.
Proof. solve_decision. Defined.
#[global] Instance confirmation_eq_dec : EqDecision Confirmation.
Proof. solve_decision. Defined.
#[global] Instance freezeOnAnomalies_eq_dec : EqDecision FreezeOnAnomalies.
Proof. solve_decision. Defined.
#[global] Instance config_eq_dec : EqDecision Config.
Proof. solve_decision. Defined.
#[global] Instance allowEntry_eq_dec : EqDecision AllowEntry.
Proof. solve_decision. Defined.
#[global] Instance pendingTx_eq_dec : EqDecision PendingTx.
Proof. solve_decision. Defined.
#[global] Instance guardState_eq_dec : EqDecision GuardState.
Proof. solve_decision. Defined.

#[global] Instance sender_countable : Countable Sender.
Proof.
  refine (inj_countable' (fun s => (platform s, id s))
            (fun t => mkSender t.1 t.2) _).
  intros []. reflexivity.
Defined.
#[global] Instance limits_countable : Countable Limits.
Proof.
  refine (inj_countable' (fun l => (perTransaction l, dailyMax l, highValueThreshold l))
            (fun t => mkLimits t.1.1 t.1.2 t.2) _).
  intros []. reflexivity.
Defined.
#[global] Instance cooldown_countable : Countable Cooldown.
Proof.
  refine (inj_countable' (fun c => (betweenTransactions c, afterRejection c))
            (fun t => mkCooldown t.1 t.2) _).
  intros []. reflexivity.
Defined.
#[global] Instance confirmation_countable : Countable Confirmation.
Proof.
  refine (inj_countable' (fun c => (codeExpiry c, codeLength c, requiredForAllSends c))
            (fun t => mkConfirmation t.1.1 t.1.2 t.2) _).
  intros []. reflexivity.
Defined.
#[global] Instance freezeOnAnomalies_countable : Countable FreezeOnAnomalies.
Proof.
  refine (inj_countable' (fun f => (rapidRequests f, windowSeconds f))
            (fun t => mkFreezeOnAnomalies t.1 t.2) _).
  intros []. reflexivity.
Defined.
#[global] Instance config_countable : Countable Config.
Proof.
  refine (inj_countable'
            (fun c => (version c, limits c, cooldown c, confirmation c,
                       freezeOnAnomalies c, authorizedSenders c))
            (fun t => mkConfig t.1.1.1.1.1 t.1.1.1.1.2 t.1.1.1.2 t.1.1.2 t.1.2 t.2) _).
  intros []. reflexivity.
Defined.
#[global] Instance allowEntry_countable : Countable AllowEntry.
Proof.
  refine (inj_countable' (fun a => (address a, label a, addedAt a))
            (fun t => mkAllowEntry t.1.1 t.1.2 t.2) _).
  intros []. reflexivity.
Defined.
#[global] Instance pendingTx_countable : Countable PendingTx.
Proof.
  refine (inj_countable'
            (fun p => (code p, to p, amount p, token p, sender p, attempts p,
                       createdAt p, expiresAt p))
            (fun t => mkPendingTx t.1.1.1.1.1.1.1 t.1.1.1.1.1.1.2 t.1.1.1.1.1.2
                        t.1.1.1.1.2 t.1.1.1.2 t.1.1.2 t.1.2 t.2) _).
  intros []. reflexivity.
Defined.
#[global] Instance guardState_countable : Countable GuardState.
Proof.
  refine (inj_countable'
            (fun s => (frozen s, frozenAt s, frozenReason s, dailyTotal s, dailyDate s,
                       lastTransaction s, pendingConfirmation s, recentRequests s))
            (fun t => mkGuardState t.1.1.1.1.1.1.1 t.1.1.1.1.1.1.2 t.1.1.1.1.1.2
                        t.1.1.1.1.2 t.1.1.1.2 t.1.1.2 t.1.2 t.2) _).
  intros []. reflexivity.
Defined.

Definition print {A : Type} `{Countable A} (a : A) : string :=
  pos_to_bits (encode a).

Definition parse {A : Type} `{Countable A} (s : string) : option A :=
  match bits_to_pos s with
  | Some p => decode p
  | None => None
  end.

Definition parse_config (s : string) : option Store.ConfigPatch :=
  match parse s with
  | Some c => Some (Store.full_patch c)
  | None => None
  end.

End ExCodec.

(** * Properties *)

(** ** Confirm phase: the branches of [confirmSend] *)

Section ConfirmBranches.

Variables (now : Z) (w : World) (s : GuardState) (p : PendingTx).
Hypothesis Hs : persisted w = Some s.
Hypothesis Hp : pendingConfirmation s = Some p.

Lemma confirmSend_expired (c : string) (sd : option Sender) :
  expiresAt p < now ->
  confirmSend now w c sd =
    (mkWorld (Some (set_pendingConfirmation None s))
       (log w ++ [logLine now [("action", JStr "confirmation_expired");
                               ("to", JStr (to p)); ("amount", JNum (amount p))]]),
     Rejected CodeExpired).
Proof.
  intros Hexp. unfold confirmSend, loadState. rewrite Hs, Hp.
  destruct (Z.ltb_spec (expiresAt p) now); [reflexivity | lia].
Qed.

Lemma confirmSend_mismatch (c : string) (sd : option Sender) :
  now <= expiresAt p ->
  senderMismatch (sender p) sd = true ->
  confirmSend now w c sd =
    (mkWorld (persisted w)
       (log w ++ [logLine now [("action", JStr "sender_mismatch");
                               ("to", JStr (to p)); ("amount", JNum (amount p))]]),
     Rejected SenderMismatch).
Proof.
  intros Hexp Hmis. unfold confirmSend, loadState. rewrite Hs, Hp.
  destruct (Z.ltb_spec (expiresAt p) now); [lia |].
  rewrite Hmis. unfold logTransaction. rewrite Hs. reflexivity.
Qed.

Lemma confirmSend_wrong (c : string) (sd : option Sender) :
  now <= expiresAt p ->
  senderMismatch (sender p) sd = false ->
  c <> code p ->
  confirmSend now w c sd =
    let n := or_zero (attempts p) + 1 in
    if MAX_CONFIRM_ATTEMPTS <=? n then
      (mkWorld (Some (set_pendingConfirmation None s))
         (log w ++ [logLine now [("action", JStr "brute_force_cancel");
                                 ("to", JStr (to p)); ("amount", JNum (amount p));
                                 ("attempts", JNum n)]]),
       Rejected AutoCancelled)
    else
      (mkWorld (Some (set_pendingConfirmation (Some (set_attempts n p)) s))
         (log w ++ [logLine now [("action", JStr "wrong_code");
                                 ("to", JStr (to p)); ("amount", JNum (amount p))]]),
       Rejected (WrongCode (MAX_CONFIRM_ATTEMPTS - n))).
Proof.
  intros Hexp Hmis Hc. unfold confirmSend, loadState. rewrite Hs, Hp.
  destruct (Z.ltb_spec (expiresAt p) now); [lia |].
  rewrite Hmis. rewrite bool_decide_eq_true_2 by assumption.
  cbn [attempts set_attempts to amount]. cbv zeta.
  destruct (MAX_CONFIRM_ATTEMPTS <=? or_zero (attempts p) + 1); reflexivity.
Qed.


End ConfirmBranches.

Lemma confirmSend_nothing_pending (now : Z) (w : World) (c : string)
  (sd : option Sender) :
  pendingConfirmation (loadState w now) = None ->
  confirmSend now w c sd = (w, Rejected NoPending).
Proof. intros H. unfold confirmSend. rewrite H. reflexivity. Qed.

Lemma or_zero_id (n : Z) : or_zero n = n.
Proof. unfold or_zero. destruct (Z.eqb_spec n 0); congruence. Qed.

(** After a save the state read back is the state saved. *)
Lemma loadState_persisted (w : World) (s : GuardState) (now : Z) :
  persisted w = Some s -> loadState w now = s.
Proof. intros H. unfold loadState. rewrite H. reflexivity. Qed.

(** ** C1: counting wrong codes *)

(** C1. A wrong code on an unexpired pending confirmation, with no sender
    mismatch, adds exactly one to [attempts]; the confirmation is kept
    while the new count is below three and destroyed when it reaches
    three. Starting from the count 0 that [requestSend] writes, the first
    and second wrong codes leave the confirmation pending with counts 1 and
    2, the third destroys it, and a fourth call finds nothing pending. *)
Theorem wrong_code_counting :
  (forall (now : Z) (w : World) (s : GuardState) (p : PendingTx)
          (c : string) (sd : option Sender),
      persisted w = Some s ->
      pendingConfirmation s = Some p ->
      now <= expiresAt p ->
      senderMismatch (sender p) sd = false ->
      c <> code p ->
      persisted (fst (confirmSend now w c sd)) =
        Some (set_pendingConfirmation
                (if 3 <=? attempts p + 1 then None
                 else Some (set_attempts (attempts p + 1) p)) s))
  /\
  (forall (w : World) (s : GuardState) (p : PendingTx)
          (t1 t2 t3 t4 : Z) (c1 c2 c3 c4 : string)
          (sd1 sd2 sd3 sd4 : option Sender),
      persisted w = Some s ->
      pendingConfirmation s = Some p ->
      attempts p = 0 ->
      t1 <= expiresAt p -> t2 <= expiresAt p -> t3 <= expiresAt p ->
      senderMismatch (sender p) sd1 = false ->
      senderMismatch (sender p) sd2 = false ->
      senderMismatch (sender p) sd3 = false ->
      c1 <> code p -> c2 <> code p -> c3 <> code p ->
      let r1 := confirmSend t1 w c1 sd1 in
      let r2 := confirmSend t2 (fst r1) c2 sd2 in
      let r3 := confirmSend t3 (fst r2) c3 sd3 in
      let r4 := confirmSend t4 (fst r3) c4 sd4 in
      persisted (fst r1) = Some (set_pendingConfirmation (Some (set_attempts 1 p)) s) /\
      snd r1 = Rejected (WrongCode 2) /\
      persisted (fst r2) = Some (set_pendingConfirmation (Some (set_attempts 2 p)) s) /\
      snd r2 = Rejected (WrongCode 1) /\
      persisted (fst r3) = Some (set_pendingConfirmation None s) /\
      snd r3 = Rejected AutoCancelled /\
      r4 = (fst r3, Rejected NoPending)).
Proof.
  split.
  - intros now w s p c sd Hs Hp Ht Hm Hc.
    rewrite (confirmSend_wrong now w s p Hs Hp c sd Ht Hm Hc).
    cbv zeta. rewrite or_zero_id. unfold MAX_CONFIRM_ATTEMPTS.
    destruct (3 <=? attempts p + 1); reflexivity.
  - intros w s p t1 t2 t3 t4 c1 c2 c3 c4 sd1 sd2 sd3 sd4
      Hs Hp Ha Ht1 Ht2 Ht3 Hm1 Hm2 Hm3 Hc1 Hc2 Hc3 r1 r2 r3 r4.
    assert (E1 : r1 =
      (mkWorld (Some (set_pendingConfirmation (Some (set_attempts 1 p)) s))
         (log w ++ [logLine t1 [("action", JStr "wrong_code");
                                ("to", JStr (to p)); ("amount", JNum (amount p))]]),
       Rejected (WrongCode 2))).
    { unfold r1. rewrite (confirmSend_wrong t1 w s p Hs Hp c1 sd1 Ht1 Hm1 Hc1).
      rewrite Ha. reflexivity. }
    assert (E2 : r2 =
      (mkWorld (Some (set_pendingConfirmation (Some (set_attempts 2 p)) s))
         (log (fst r1) ++ [logLine t2 [("action", JStr "wrong_code");
                                ("to", JStr (to p)); ("amount", JNum (amount p))]]),
       Rejected (WrongCode 1))).
    { unfold r2.
      rewrite (confirmSend_wrong t2 (fst r1)
                 (set_pendingConfirmation (Some (set_attempts 1 p)) s)
                 (set_attempts 1 p)); try assumption; try reflexivity.
      rewrite E1. reflexivity. }
    assert (E3 : r3 =
      (mkWorld (Some (set_pendingConfirmation None s))
         (log (fst r2) ++ [logLine t3 [("action", JStr "brute_force_cancel");
                                ("to", JStr (to p)); ("amount", JNum (amount p));
                                ("attempts", JNum 3)]]),
       Rejected AutoCancelled)).
    { unfold r3.
      rewrite (confirmSend_wrong t3 (fst r2)
                 (set_pendingConfirmation (Some (set_attempts 2 p)) s)
                 (set_attempts 2 p)); try assumption; try reflexivity.
      rewrite E2. reflexivity. }
    repeat split.
    + rewrite E1. reflexivity.
    + rewrite E1. reflexivity.
    + rewrite E2. reflexivity.
    + rewrite E2. reflexivity.
    + rewrite E3. reflexivity.
    + rewrite E3. reflexivity.
    + unfold r4. apply confirmSend_nothing_pending.
      rewrite E3. reflexivity.
Qed.

Lemma wrong_code_counting_witness :
  let w := Ex.world5 false in
  let r1 := confirmSend (Ex.t0 + 1) w "000001" None in
  let r2 := confirmSend (Ex.t0 + 2) (fst r1) "000002" None in
  let r3 := confirmSend (Ex.t0 + 3) (fst r2) "000003" None in
  let r4 := confirmSend (Ex.t0 + 4) (fst r3) "483920" None in
  persisted (fst r1) =
    Some (set_pendingConfirmation (Some (set_attempts 1 Ex.pending5)) (Ex.state5 false)) /\
  snd r1 = Rejected (WrongCode 2) /\
  persisted (fst r2) =
    Some (set_pendingConfirmation (Some (set_attempts 2 Ex.pending5)) (Ex.state5 false)) /\
  snd r2 = Rejected (WrongCode 1) /\
  persisted (fst r3) = Some (set_pendingConfirmation None (Ex.state5 false)) /\
  snd r3 = Rejected AutoCancelled /\
  r4 = (fst r3, Rejected NoPending).
Proof.
  apply (proj2 wrong_code_counting (Ex.world5 false) (Ex.state5 false) Ex.pending5);
    try reflexivity; try (vm_compute; discriminate).
Defined.

(** The pending confirmation that [requestSend] writes starts at count 0
    and holds the code handed to the caller. *)
Lemma requestSend_pending_fresh (config : Config) (allowlist : Allowlist)
  (now r : Z) (w : World) (req : Request) (c : string) :
  issuedCode (snd (requestSend config allowlist now r w req)) = Some c ->
  exists s p,
    persisted (fst (requestSend config allowlist now r w req)) = Some s /\
    pendingConfirmation s = Some p /\
    attempts p = 0 /\ code p = c /\
    expiresAt p = now + codeExpiry (confirmation config) * 1000.
Proof.
  unfold requestSend. cbv zeta.
  destruct (frozen _); [discriminate |].
  destruct (senderRejected _ _); [discriminate |].
  destruct (negb _); [discriminate |].
  destruct (_ <? _); [discriminate |].
  destruct (_ <? _); [discriminate |].
  destruct (cooldownWait _ _ _); [discriminate |].
  destruct (_ <=? _); [discriminate |].
  cbn [fst snd issuedCode]. intros [= <-].
  eexists; eexists. repeat split.
Qed.

Lemma rollover_pending (now : Z) (s : GuardState) :
  pendingConfirmation (rollover now s) = pendingConfirmation s.
Proof. unfold rollover. case_bool_decide; reflexivity. Qed.

Lemma loadState_attempts_ok (w : World) (now : Z) (p : PendingTx) :
  attempts_ok w ->
  pendingConfirmation (loadState w now) = Some p ->
  0 <= attempts p < MAX_CONFIRM_ATTEMPTS.
Proof.
  unfold loadState. intros Hok. destruct (persisted w) as [s |] eqn:Hs.
  - intros Hp. exact (Hok s p Hs Hp).
  - discriminate.
Qed.

Lemma requestSend_attempts_ok (config : Config) (allowlist : Allowlist)
  (now r : Z) (w : World) (req : Request) :
  attempts_ok w -> attempts_ok (fst (requestSend config allowlist now r w req)).
Proof.
  intros Hok. unfold requestSend. cbv zeta.
  destruct (frozen _); [exact Hok |].
  destruct (senderRejected _ _); [exact Hok |].
  destruct (negb _); [exact Hok |].
  destruct (_ <? _); [exact Hok |].
  destruct (_ <? _); [exact Hok |].
  destruct (cooldownWait _ _ _); [exact Hok |].
  destruct (_ <=? _); cbn [fst logTransaction saveState persisted];
    intros s p [= <-]; cbn [pendingConfirmation set_frozen set_recentRequests
                             set_pendingConfirmation].
  - rewrite rollover_pending. apply loadState_attempts_ok. exact Hok.
  - intros [= <-]. cbn [attempts]. unfold MAX_CONFIRM_ATTEMPTS. lia.
Qed.

Lemma confirmSend_attempts_ok (now : Z) (w : World) (c : string)
  (sd : option Sender) :
  attempts_ok w -> attempts_ok (fst (confirmSend now w c sd)).
Proof.
  intros Hok. unfold confirmSend. cbv zeta.
  destruct (pendingConfirmation (loadState w now)) as [p |] eqn:Hp; [| exact Hok].
  pose proof (loadState_attempts_ok w now p Hok Hp) as Ha.
  unfold MAX_CONFIRM_ATTEMPTS in *.
  destruct (_ <? _).
  { intros s q [= <-]. discriminate. }
  destruct (senderMismatch _ _); [exact Hok |].
  destruct (bool_decide _).
  - cbn [attempts set_attempts]. rewrite or_zero_id.
    destruct (Z.leb_spec 3 (attempts p + 1)).
    + intros s q [= <-]. discriminate.
    + intros s q [= <-] [= <-]. cbn [attempts set_attempts].
      unfold MAX_CONFIRM_ATTEMPTS. lia.
  - intros s q [= <-]. discriminate.
Qed.

Lemma step_attempts_ok (config : Config) (allowlist : Allowlist) (now : Z)
  (op : Op) (w : World) :
  attempts_ok w -> attempts_ok (fst (step config allowlist now op w)).
Proof.
  intros Hok. destruct op as [req r | c sd | reason | |]; cbn [step].
  - pose proof (requestSend_attempts_ok config allowlist now r w req Hok) as H.
    destruct (requestSend config allowlist now r w req). exact H.
  - pose proof (confirmSend_attempts_ok now w c sd Hok) as H.
    destruct (confirmSend now w c sd). exact H.
  - cbn. intros s p [= <-]. cbn. apply loadState_attempts_ok. exact Hok.
  - cbn. intros s p [= <-]. cbn. apply loadState_attempts_ok. exact Hok.
  - unfold getStatus. cbv zeta. case_bool_decide; cbn [fst]; [| exact Hok].
    intros s p [= <-]. cbn. apply loadState_attempts_ok. exact Hok.
Qed.

(** In every world the operations can reach, a pending confirmation has
    seen 0, 1 or 2 wrong codes. *)
Lemma reachable_attempts_ok (w : World) : reachable w -> attempts_ok w.
Proof.
  induction 1 as [| config allowlist now op w _ IH].
  - intros s p [=].
  - apply step_attempts_ok. exact IH.
Qed.

(** The run of the test "should auto-cancel after 3 wrong codes", from an
    empty wallet directory. *)
Example brute_force_run :
  let r0 := requestSend DEFAULT_CONFIG Ex.allow Ex.t0 383920
              (mkWorld None []) (mkRequest "0xABCD" 5 None None) in
  let r1 := confirmSend (Ex.t0 + 1) (fst r0) "000001" None in
  let r2 := confirmSend (Ex.t0 + 2) (fst r1) "000002" None in
  let r3 := confirmSend (Ex.t0 + 3) (fst r2) "000003" None in
  let r4 := confirmSend (Ex.t0 + 4) (fst r3) "000004" None in
  snd r1 = Rejected (WrongCode 2) /\
  snd r2 = Rejected (WrongCode 1) /\
  snd r3 = Rejected AutoCancelled /\
  snd r4 = Rejected NoPending /\
  Str.includes "brute_force_cancel" (logFile (fst r4)) = true.
Proof. vm_compute. auto 6. Qed.

(** ** C3: the commit on a matching code *)

(** The match branch on doubles. *)
Lemma confirmSend_match_double (now : Z) (w : Double.World) (s : Double.GuardState)
  (p : Double.PendingTx) (sd : option Sender) :
  Double.persisted w = Some s ->
  Double.pendingConfirmation s = Some p ->
  now <= Double.expiresAt p ->
  senderMismatch (Double.sender p) sd = false ->
  Double.confirmSend now w (Double.code p) sd =
    (Double.mkWorld
       (Some (Double.mkGuardState (Double.frozen s) (Double.frozenAt s)
                (Double.frozenReason s)
                (PrimFloat.add (Double.dailyTotal s) (Double.amount p))
                (Double.dailyDate s) (Some now) None (Double.recentRequests s)))
       (Double.log w ++
          [[("action", Double.VStr "approved"); ("to", Double.VStr (Double.to p));
            ("amount", Double.VNum (Double.amount p));
            ("token", Double.VStr (Double.token p));
            ("timestamp", Double.VStr (Iso.toISOString now))]]),
     Double.Approved (Double.to p) (Double.amount p) (Double.token p)).
Proof.
  intros Hs Hp Hexp Hmis. unfold Double.confirmSend, Double.loadState.
  rewrite Hs, Hp.
  destruct (Z.ltb_spec (Double.expiresAt p) now); [lia |].
  rewrite Hmis. rewrite bool_decide_eq_false_2 by (intros H'; apply H'; reflexivity).
  reflexivity.
Qed.

(** C3. With a pending confirmation that exists and has not expired, and no
    sender mismatch, the matching code commits: the day's total becomes the
    double-precision sum of the stored total and the pending amount (the
    result of [+=] on JS numbers), the last transaction time is the current
    time, nothing is pending afterwards, the other fields of the state are
    kept, one approval entry is appended to the log, and the call returns
    approved with the pending destination, amount and token. *)
Theorem confirmSend_commit (now : Z) (w : Double.World) (s : Double.GuardState)
  (p : Double.PendingTx) (c : string) (sd : option Sender) :
  Double.persisted w = Some s ->
  Double.pendingConfirmation s = Some p ->
  now <= Double.expiresAt p ->
  senderMismatch (Double.sender p) sd = false ->
  c = Double.code p ->
  exists (w' : Double.World) (s' : Double.GuardState),
    Double.confirmSend now w c sd =
      (w', Double.Approved (Double.to p) (Double.amount p) (Double.token p)) /\
    Double.approved (snd (Double.confirmSend now w c sd)) = true /\
    Double.persisted w' = Some s' /\
    Double.dailyTotal s' = PrimFloat.add (Double.dailyTotal s) (Double.amount p) /\
    Double.lastTransaction s' = Some now /\
    Double.pendingConfirmation s' = None /\
    (Double.frozen s' = Double.frozen s /\
     Double.frozenAt s' = Double.frozenAt s /\
     Double.frozenReason s' = Double.frozenReason s /\
     Double.dailyDate s' = Double.dailyDate s /\
     Double.recentRequests s' = Double.recentRequests s) /\
    Double.log w' = (Double.log w ++
      [[("action", Double.VStr "approved"); ("to", Double.VStr (Double.to p));
        ("amount", Double.VNum (Double.amount p));
        ("token", Double.VStr (Double.token p));
        ("timestamp", Double.VStr (Iso.toISOString now))]])%list /\
    length (Double.log w') = S (length (Double.log w)).
Proof.
  intros Hs Hp Ht Hm ->.
  rewrite (confirmSend_match_double now w s p sd Hs Hp Ht Hm).
  eexists; eexists. split; [reflexivity |].
  cbn [snd Double.persisted Double.log Double.approved Double.dailyTotal
       Double.lastTransaction Double.pendingConfirmation Double.frozen
       Double.frozenAt Double.frozenReason Double.dailyDate Double.recentRequests].
  split; [reflexivity |]. split; [reflexivity |]. split; [reflexivity |].
  split; [reflexivity |]. split; [reflexivity |].
  split; [repeat split |]. split; [reflexivity |].
  rewrite length_app. cbn [length]. lia.
Qed.

Lemma confirmSend_commit_witness :
  exists (w' : Double.World) (s' : Double.GuardState),
    Double.confirmSend (Ex.t0 + 1000) ExDouble.world "483920" (Some Ex.alice) =
      (w', Double.Approved "0xABCD" ExDouble.fifth "USDC") /\
    Double.approved
      (snd (Double.confirmSend (Ex.t0 + 1000) ExDouble.world "483920"
              (Some Ex.alice))) = true /\
    Double.persisted w' = Some s' /\
    Double.dailyTotal s' = PrimFloat.add ExDouble.tenth ExDouble.fifth /\
    Double.lastTransaction s' = Some (Ex.t0 + 1000) /\
    Double.pendingConfirmation s' = None /\
    (Double.frozen s' = false /\
     Double.frozenAt s' = None /\
     Double.frozenReason s' = None /\
     Double.dailyDate s' = "2023-11-14" /\
     Double.recentRequests s' = [Ex.t0]) /\
    Double.log w' = ([] ++
      [[("action", Double.VStr "approved"); ("to", Double.VStr "0xABCD");
        ("amount", Double.VNum ExDouble.fifth); ("token", Double.VStr "USDC");
        ("timestamp", Double.VStr (Iso.toISOString (Ex.t0 + 1000)))]])%list /\
    length (Double.log w') = 1%nat.
Proof.
  apply (confirmSend_commit (Ex.t0 + 1000) ExDouble.world ExDouble.state
           ExDouble.pending "483920" (Some Ex.alice));
    try reflexivity; vm_compute; discriminate.
Defined.

(** C3 as claimed fails here: the day's total does not always grow by
    exactly the amount. With 0.1 on the total and 0.2 pending (the doubles
    [parseFloat] gives for them), the total after the commit is
    0.30000000000000004: not the double of 0.3, and the total after less
    the total before is not the amount. With 2^53 on the total and 1
    pending, the transfer is approved and the total stays where it was. *)
Lemma commit_total_not_increased_by_amount :
  (exists (w' : Double.World) (s' : Double.GuardState),
      Double.confirmSend (Ex.t0 + 1000) ExDouble.world "483920" None =
        (w', Double.Approved "0xABCD" ExDouble.fifth "USDC") /\
      Double.persisted w' = Some s' /\
      Double.dailyTotal s' = ExDouble.aboveThreeTenths /\
      Double.dailyTotal s' <> ExDouble.threeTenths /\
      PrimFloat.sub (Double.dailyTotal s') (Double.dailyTotal ExDouble.state) <>
        Double.amount ExDouble.pending) /\
  (exists (w' : Double.World) (s' : Double.GuardState),
      Double.confirmSend (Ex.t0 + 1000) ExDouble.worldBig "483920" None =
        (w', Double.Approved "0xABCD" ExDouble.one "USDC") /\
      Double.persisted w' = Some s' /\
      Double.dailyTotal ExDouble.stateBig = ExDouble.two53 /\
      Double.dailyTotal s' = Double.dailyTotal ExDouble.stateBig).
Proof.
  split.
  - eexists; eexists. split; [vm_compute; reflexivity |].
    split; [reflexivity |].
    split; [vm_compute; reflexivity |].
    split; vm_compute; discriminate.
  - eexists; eexists. split; [vm_compute; reflexivity |].
    split; [reflexivity |]. split; vm_compute; reflexivity.
Qed.

(** [Guard.confirmSend] and [Double.confirmSend] agree wherever the one sum
    the commit computes is exact: if the amounts of a state are read as
    doubles through [inj], and adding the doubles of the stored total and
    of the pending amount gives the double of their sum, both return the
    same outcome and leave the same state. *)
Lemma confirmSend_on_exact_sum (inj : Z -> PrimFloat.float) (now : Z)
  (w : World) (wd : Double.World) (c : string) (sd : option Sender) :
  Double.persisted wd = option_map (Double.embedState inj) (persisted w) ->
  (forall s p, persisted w = Some s -> pendingConfirmation s = Some p ->
     PrimFloat.add (inj (dailyTotal s)) (inj (amount p)) =
     inj (dailyTotal s + amount p)) ->
  Double.persisted (fst (Double.confirmSend now wd c sd)) =
    option_map (Double.embedState inj) (persisted (fst (confirmSend now w c sd))) /\
  snd (Double.confirmSend now wd c sd) =
    Double.embedOutcome inj (snd (confirmSend now w c sd)).
Proof.
  intros Hrel Hexact.
  unfold Double.confirmSend, confirmSend, Double.loadState, loadState.
  rewrite Hrel. destruct (persisted w) as [s |] eqn:Hs; cbn [option_map].
  - cbn [Double.embedState Double.pendingConfirmation].
    destruct (pendingConfirmation s) as [p |] eqn:Hp; cbn [option_map].
    + cbn [Double.embedPending Double.expiresAt Double.sender Double.code
           Double.attempts].
      destruct (expiresAt p <? now); [split; reflexivity |].
      destruct (senderMismatch (sender p) sd).
      { cbn [fst snd Double.logTransaction logTransaction Double.persisted persisted].
        rewrite Hrel, Hs. split; reflexivity. }
      destruct (bool_decide (c <> code p)).
      * cbn [Double.set_attempts Double.attempts set_attempts attempts].
        destruct (MAX_CONFIRM_ATTEMPTS <=? or_zero (attempts p) + 1);
          split; reflexivity.
      * cbn. rewrite (Hexact s p eq_refl Hp). split; reflexivity.
    + cbn [fst snd]. rewrite Hrel, Hs. split; reflexivity.
  - cbn [Double.pendingConfirmation pendingConfirmation fst snd].
    rewrite Hrel, Hs. split; reflexivity.
Qed.

(** On the whole amounts of the running example, 40 on the total and 5
    pending, the sum is exact and the two agree. *)
Example whole_amounts_commit_alike :
  let wd := Double.mkWorld (Some (Double.embedState Double.of_Z (Ex.state5 false))) [] in
  PrimFloat.add (Double.of_Z 40) (Double.of_Z 5) = Double.of_Z 45 /\
  Double.persisted (fst (Double.confirmSend (Ex.t0 + 1000) wd "483920" None)) =
    option_map (Double.embedState Double.of_Z)
      (persisted (fst (confirmSend (Ex.t0 + 1000) (Ex.world5 false) "483920" None))) /\
  snd (Double.confirmSend (Ex.t0 + 1000) wd "483920" None) =
    Double.Approved "0xABCD" (Double.of_Z 5) "USDC".
Proof.
  intros wd. split; [reflexivity |].
  destruct (confirmSend_on_exact_sum Double.of_Z (Ex.t0 + 1000) (Ex.world5 false)
              wd "483920" None) as [H1 H2].
  - reflexivity.
  - intros s p [= <-] [= <-]. reflexivity.
  - split; [exact H1 |]. rewrite H2. reflexivity.
Qed.

(** ** C9: a frozen wallet still confirms *)



(** ** C10: what [getStatus] may change *)

(** C10. [getStatus] writes nothing to the log and changes no field of the
    persisted state, except that a stored date other than today's makes it
    reset the day's total to zero and store today's date; frozen,
    frozenAt, frozenReason, lastTransaction, pendingConfirmation and
    recentRequests are the same after every call. *)
Theorem getStatus_frame (config : Config) (now : Z) (w : World) :
  let w' := fst (getStatus config now w) in
  log w' = log w /\
  (persisted w = None -> persisted w' = None) /\
  (forall s : GuardState, persisted w = Some s ->
     exists s' : GuardState,
       persisted w' = Some s' /\
       frozen s' = frozen s /\
       frozenAt s' = frozenAt s /\
       frozenReason s' = frozenReason s /\
       lastTransaction s' = lastTransaction s /\
       pendingConfirmation s' = pendingConfirmation s /\
       recentRequests s' = recentRequests s /\
       (dailyDate s = Iso.today now ->
          dailyTotal s' = dailyTotal s /\ dailyDate s' = dailyDate s) /\
       (dailyDate s <> Iso.today now ->
          dailyTotal s' = 0 /\ dailyDate s' = Iso.today now)).
Proof.
  unfold getStatus, loadState. cbv zeta.
  destruct (persisted w) as [s |] eqn:Hs.
  - case_bool_decide as Hd; cbn [fst log saveState persisted].
    + split; [reflexivity |]. split; [discriminate |].
      intros s0 [= <-]. exists (set_daily 0 (Iso.today now) s).
      cbn. repeat split; try reflexivity; intros; contradiction.
    + split; [reflexivity |]. split; [discriminate |].
      intros s0 [= <-]. exists s. rewrite Hs.
      repeat split; try reflexivity; intros; contradiction.
  - cbn [dailyDate]. rewrite bool_decide_eq_false_2 by (intros H; apply H; reflexivity).
    cbn [fst]. rewrite Hs. repeat split; [discriminate].
Qed.

(** ** C8: only approvals add to the day's total *)

Lemma rollover_total (now : Z) (s : GuardState) :
  (dailyTotal (rollover now s) = dailyTotal s /\ dailyDate (rollover now s) = dailyDate s) \/
  (dailyDate s <> Iso.today now /\
   dailyTotal (rollover now s) = 0 /\ dailyDate (rollover now s) = Iso.today now).
Proof.
  unfold rollover. case_bool_decide; cbn; auto.
Qed.

Lemma requestSend_total (config : Config) (allowlist : Allowlist) (now r : Z)
  (w : World) (req : Request) :
  total_kept_or_rolled now w (fst (requestSend config allowlist now r w req)).
Proof.
  unfold total_kept_or_rolled, requestSend. cbv zeta.
  destruct (rollover_total now (loadState w now)) as [[Ht Hd] | (Hne & Ht & Hd)];
    repeat case_match; cbn [fst logTransaction saveState loadState persisted
      set_pendingConfirmation set_frozen set_recentRequests dailyTotal dailyDate];
    try (left; reflexivity); try (left; exact Ht); right; auto.
Qed.

Lemma confirmSend_total (now : Z) (w : World) (c : string) (sd : option Sender) :
  approved (snd (confirmSend now w c sd)) = false ->
  dailyTotal (loadState (fst (confirmSend now w c sd)) now) =
  dailyTotal (loadState w now).
Proof.
  unfold confirmSend. cbv zeta.
  repeat case_match; cbn; intros; try reflexivity; discriminate.
Qed.

Lemma freeze_total (now : Z) (w : World) (reason : string) :
  dailyTotal (loadState (fst (freeze now w reason)) now) = dailyTotal (loadState w now).
Proof. reflexivity. Qed.

Lemma unfreeze_total (now : Z) (w : World) :
  dailyTotal (loadState (fst (unfreeze now w)) now) = dailyTotal (loadState w now).
Proof. reflexivity. Qed.

Lemma getStatus_total (config : Config) (now : Z) (w : World) :
  total_kept_or_rolled now w (fst (getStatus config now w)).
Proof.
  unfold total_kept_or_rolled, getStatus. cbv zeta.
  case_bool_decide; cbn; auto.
Qed.

(** C8. Whatever the operation (requestSend, confirmSend, freeze, unfreeze,
    getStatus), a call that does not end in an approval leaves the day's
    total as it was, or resets it to zero because the stored date was not
    today's; and a confirmation refused for a sender mismatch leaves the
    whole persisted state, the day's total included, untouched. *)
Theorem rejections_never_add_to_dailyTotal :
  (forall (config : Config) (allowlist : Allowlist) (now : Z) (op : Op)
          (w : World),
      notApproved (snd (step config allowlist now op w)) = true ->
      total_kept_or_rolled now w (fst (step config allowlist now op w)))
  /\
  (forall (now : Z) (w : World) (s : GuardState) (p : PendingTx) (c : string)
          (sd : option Sender),
      persisted w = Some s ->
      pendingConfirmation s = Some p ->
      now <= expiresAt p ->
      senderMismatch (sender p) sd = true ->
      snd (confirmSend now w c sd) = Rejected SenderMismatch /\
      persisted (fst (confirmSend now w c sd)) = persisted w /\
      dailyTotal (loadState (fst (confirmSend now w c sd)) now) = dailyTotal s).
Proof.
  split.
  - intros config allowlist now op w. destruct op as [req r | c sd | reason | |];
      cbn [step].
    + destruct (requestSend config allowlist now r w req) as [w' o] eqn:E.
      intros _. cbn [fst].
      change w' with (fst (w', o)). rewrite <- E. apply requestSend_total.
    + destruct (confirmSend now w c sd) as [w' o] eqn:E.
      cbn [fst snd notApproved]. intros H. left.
      change w' with (fst (w', o)). rewrite <- E. apply confirmSend_total.
      rewrite E. cbn [snd]. destruct (approved o); [discriminate | reflexivity].
    + intros _. left. reflexivity.
    + intros _. left. reflexivity.
    + intros _. destruct (getStatus config now w) as [w' st] eqn:E. cbn [fst].
      change w' with (fst (w', st)). rewrite <- E. apply getStatus_total.
  - intros now w s p c sd Hs Hp Ht Hm.
    rewrite (confirmSend_mismatch now w s p Hs Hp c sd Ht Hm).
    cbn [fst snd persisted]. unfold loadState. cbn [persisted]. rewrite Hs. auto.
Qed.

Lemma rejections_never_add_to_dailyTotal_witness :
  snd (confirmSend (Ex.t0 + 1000) (Ex.world5 false) "483920" (Some Ex.bob)) =
    Rejected SenderMismatch /\
  persisted (fst (confirmSend (Ex.t0 + 1000) (Ex.world5 false) "483920" (Some Ex.bob))) =
    persisted (Ex.world5 false) /\
  dailyTotal (loadState (fst (confirmSend (Ex.t0 + 1000) (Ex.world5 false) "483920"
                                (Some Ex.bob))) (Ex.t0 + 1000)) = 40.
Proof.
  apply (proj2 rejections_never_add_to_dailyTotal (Ex.t0 + 1000) (Ex.world5 false)
           (Ex.state5 false) Ex.pending5 "483920" (Some Ex.bob));
    try reflexivity; vm_compute; discriminate.
Defined.

(** The scenario of the test "should reject amount over daily limit": five
    confirmed sends of 40 with the daily maximum 200, then any further
    request fails on the daily limit and the total stays 200. *)
Example daily_limit_scenario :
  let cfg := mkConfig 1 (mkLimits 50 200 100) (mkCooldown 0 0)
               (mkConfirmation 300 6 true) (mkFreezeOnAnomalies 100 1) [] in
  let send (i : Z) (w : World) : World :=
    let t := Ex.t0 + 2000 * i in
    let r := requestSend cfg Ex.allow t i w (mkRequest "0xABCD" 40 None None) in
    match issuedCode (snd r) with
    | Some c => fst (confirmSend (t + 1) (fst r) c None)
    | None => fst r
    end in
  let w5 := send 5 (send 4 (send 3 (send 2 (send 1 (mkWorld None []))))) in
  let r6 := requestSend cfg Ex.allow (Ex.t0 + 12000) 6 w5
              (mkRequest "0xABCD" 10 None None) in
  dailyTotal (loadState w5 (Ex.t0 + 12000)) = 200 /\
  snd r6 = Rejected (OverDailyLimit 200 200) /\
  dailyTotal (loadState (fst r6) (Ex.t0 + 12000)) = 200.
Proof. vm_compute. auto. Qed.

(** ** C2: the order of the checks of [requestSend] *)

Lemma isAuthorized_In (config : Config) (s : Sender) :
  isAuthorized config s = true <-> In s (authorizedSenders config).
Proof.
  unfold isAuthorized. rewrite existsb_exists. split.
  - intros (a & Ha & Hb). apply andb_true_iff in Hb as [H1 H2].
    apply bool_decide_eq_true_1 in H1. apply bool_decide_eq_true_1 in H2.
    destruct a, s; cbn in *; subst; assumption.
  - intros H. exists s. split; [assumption |].
    rewrite !bool_decide_eq_true_2; reflexivity.
Qed.

Lemma senderRejected_spec (config : Config) (sd : option Sender) :
  senderRejected config sd = true <->
  authorizedSenders config <> [] /\
  exists s, sd = Some s /\ ~ In s (authorizedSenders config).
Proof.
  unfold senderRejected. destruct sd as [s |].
  - rewrite andb_true_iff, negb_true_iff, Z.ltb_lt.
    rewrite <- not_true_iff_false, isAuthorized_In. split.
    + intros [Hl Hn]. split.
      * intros E. rewrite E in Hl. cbn in Hl. lia.
      * exists s. auto.
    + intros [Hl (s' & [= <-] & Hn)]. split; [| assumption].
      destruct (authorizedSenders config); [congruence | cbn; lia].
  - split; [discriminate |]. intros [_ (s & Hs & _)]. discriminate.
Qed.

Lemma isAllowed_spec (allowlist : Allowlist) (addr : string) :
  isAllowed allowlist addr = true <->
  exists a, In a allowlist /\ Str.toLowerCase (address a) = Str.toLowerCase addr.
Proof.
  unfold isAllowed. rewrite existsb_exists. split.
  - intros (a & Ha & Hb). exists a. split; [assumption |].
    apply bool_decide_eq_true_1 in Hb. assumption.
  - intros (a & Ha & Hb). exists a. split; [assumption |].
    apply bool_decide_eq_true_2. assumption.
Qed.

(** [Math.ceil] of a quotient by 1000, two ways. *)
Lemma ceil_div_1000 (x : Z) : - ((- x) / 1000) = (x + 999) / 1000.
Proof.
  pose proof (Z.div_mod (- x) 1000 ltac:(lia)) as H1.
  pose proof (Z.mod_pos_bound (- x) 1000 ltac:(lia)) as H2.
  pose proof (Z.div_mod (x + 999) 1000 ltac:(lia)) as H3.
  pose proof (Z.mod_pos_bound (x + 999) 1000 ltac:(lia)) as H4.
  lia.
Qed.

Lemma cooldownWait_spec (config : Config) (st : GuardState) (now : Z) :
  match cooldownWait config st now with
  | Some wait =>
      (exists last, lastTransaction st = Some last /\
                    now - last < 1000 * betweenTransactions (cooldown config)) /\
      wait = SpecGate.remaining_wait config st now
  | None =>
      ~ exists last, lastTransaction st = Some last /\
                     now - last < 1000 * betweenTransactions (cooldown config)
  end.
Proof.
  unfold cooldownWait, SpecGate.remaining_wait.
  destruct (lastTransaction st) as [last |].
  - destruct (Z.ltb_spec (now - last) (1000 * betweenTransactions (cooldown config))).
    + split; [eauto |]. apply ceil_div_1000.
    + intros (l & [= <-] & Hl). lia.
  - intros (l & Hl & _). discriminate.
Qed.

Lemma rollover_frozen (now : Z) (s : GuardState) :
  frozen (rollover now s) = frozen s.
Proof. unfold rollover. case_bool_decide; reflexivity. Qed.

Lemma rollover_rolled_total (now : Z) (s : GuardState) :
  dailyTotal (rollover now s) = SpecGate.rolled_total now s.
Proof.
  unfold rollover, SpecGate.rolled_total.
  repeat case_bool_decide; try reflexivity; contradiction.
Qed.

(** C2. [requestSend] is a sequential gate that stops at the first failing
    check, in the order: daily rollover, frozen, sender authorization,
    allowlist, per-transaction limit, daily limit, cooldown, anomaly window.
    The reason returned is that of the first check of this list that fails,
    and the request is granted a code only when none fails. On a frozen
    wallet the rejection is immediate: the persisted state, with its recent
    request time stamps, is not touched. *)
Theorem requestSend_first_failing_check (config : Config) (allowlist : Allowlist)
  (now r : Z) (w : World) (req : Request) :
  let st := rollover now (loadState w now) in
  let res := requestSend config allowlist now r w req in
  dailyTotal st = SpecGate.rolled_total now (loadState w now) /\
  (exists o : option Reason,
      SpecGate.first_failing (SpecGate.gate config allowlist now st req) o /\
      snd res =
        match o with
        | Some reason => Rejected reason
        | None =>
            NeedsConfirmation (req_amount req) (default "USDC" (req_token req))
              (req_to req) (pretty (randomInt 100000 999999 r))
              (codeExpiry (confirmation config))
        end) /\
  (frozen (loadState w now) = true ->
     snd res = Rejected WalletFrozen /\
     persisted (fst res) = persisted w /\
     recentRequests (loadState (fst res) now) = recentRequests (loadState w now) /\
     length (log (fst res)) = S (length (log w))).
Proof.
  intros st res. split; [apply rollover_rolled_total |]. split.
  - unfold res, requestSend. cbv zeta. fold st. unfold SpecGate.gate.
    destruct (frozen st) eqn:Hf.
    { exists (Some WalletFrozen). split; [constructor; reflexivity | reflexivity]. }
    destruct (senderRejected config (req_sender req)) eqn:Hsd.
    { exists (Some UnauthorizedSender). split; [| reflexivity].
      apply SpecGate.ff_later; [congruence |].
      constructor. apply senderRejected_spec. assumption. }
    assert (Hsd' : ~ (authorizedSenders config <> [] /\
              exists s, req_sender req = Some s /\ ~ In s (authorizedSenders config))).
    { rewrite <- senderRejected_spec. congruence. }
    destruct (isAllowed allowlist (req_to req)) eqn:Hal; cbn [negb].
    2:{ exists (Some (NotAllowlisted (req_to req))). split; [| reflexivity].
        do 2 (apply SpecGate.ff_later; [congruence || assumption |]).
        constructor. rewrite <- isAllowed_spec. congruence. }
    assert (Hal' : ~ ~ exists a, In a allowlist /\
              Str.toLowerCase (address a) = Str.toLowerCase (req_to req)).
    { rewrite <- isAllowed_spec. intros H. apply H. assumption. }
    destruct (Z.ltb_spec (perTransaction (limits config)) (req_amount req)) as [Hpt | Hpt].
    { eexists (Some _). split; [| reflexivity].
      do 3 (apply SpecGate.ff_later; [congruence || assumption |]).
      constructor. lia. }
    destruct (Z.ltb_spec (dailyMax (limits config)) (dailyTotal st + req_amount req))
      as [Hdm | Hdm].
    { eexists (Some _). split; [| reflexivity].
      do 3 (apply SpecGate.ff_later; [congruence || assumption |]).
      apply SpecGate.ff_later; [lia |].
      constructor. lia. }
    pose proof (cooldownWait_spec config st now) as Hcd.
    destruct (cooldownWait config st now) as [wait |].
    { destruct Hcd as [Hcd ->]. eexists (Some _). split; [| reflexivity].
      do 3 (apply SpecGate.ff_later; [congruence || assumption |]).
      do 2 (apply SpecGate.ff_later; [lia |]).
      constructor. assumption. }
    assert (Hcount : Z.of_nat (length (pruneRecent config now (recentRequests st) ++ [now])) =
                     SpecGate.window_count config st now).
    { unfold SpecGate.window_count. rewrite length_app. cbn [length]. lia. }
    rewrite Hcount.
    destruct (Z.leb_spec (rapidRequests (freezeOnAnomalies config))
                (SpecGate.window_count config st now)) as [Hrr | Hrr].
    { eexists (Some _). split; [| reflexivity].
      do 3 (apply SpecGate.ff_later; [congruence || assumption |]).
      do 2 (apply SpecGate.ff_later; [lia |]).
      apply SpecGate.ff_later; [assumption |].
      constructor. lia. }
    exists None. split; [| reflexivity].
    do 3 (apply SpecGate.ff_later; [congruence || assumption |]).
    do 2 (apply SpecGate.ff_later; [lia |]).
    apply SpecGate.ff_later; [assumption |].
    apply SpecGate.ff_later; [lia |].
    constructor.
  - intros Hf. unfold res, requestSend. cbv zeta.
    rewrite rollover_frozen, Hf. cbn [fst snd logTransaction persisted log].
    repeat split. rewrite length_app. cbn [length]. lia.
Qed.

(** Two checks failing at once: the earlier one gives the reason. A frozen
    wallet asked to pay an address off the allowlist, over every limit,
    answers "frozen"; unfrozen, it answers "not allowlisted". *)
Example requestSend_frozen_before_allowlist :
  snd (requestSend DEFAULT_CONFIG Ex.allow Ex.t0 7 (Ex.world5 true)
         (mkRequest "0xdead" 999 None None)) = Rejected WalletFrozen /\
  snd (requestSend DEFAULT_CONFIG Ex.allow Ex.t0 7 (Ex.world5 false)
         (mkRequest "0xdead" 999 None None)) = Rejected (NotAllowlisted "0xdead") /\
  snd (requestSend DEFAULT_CONFIG Ex.allow Ex.t0 7 (Ex.world5 false)
         (mkRequest "0xABCD" 999 None None)) = Rejected (OverPerTxLimit 999 50).
Proof. vm_compute. auto. Qed.

(** ** C4: which rejections of [requestSend] reach the audit log *)

(** Closes a branch that appends one line: the entry is read off the goal. *)
Ltac logged_once :=
  cbn [fst snd logTransaction saveState log];
  repeat eexists.

(** The audit trail of one [requestSend], by outcome: the five policy
    rejections that come before the cooldown append one line with the
    destination, the amount and a reason; the auto-freeze appends one line
    with a reason and the request count; the cooldown rejection appends
    nothing and writes nothing. *)
Lemma requestSend_audit (config : Config) (allowlist : Allowlist) (now r : Z)
  (w : World) (req : Request) :
  let res := requestSend config allowlist now r w req in
  match snd res with
  | Rejected (CooldownActive _) => fst res = w
  | Rejected AutoFrozen =>
      exists entry, log (fst res) = (log w ++ [logLine now entry])%list /\
        get "action" entry = Some (JStr "auto_freeze") /\
        get "reason" entry = Some (JStr "rapid_requests") /\
        get "to" entry = None /\ get "amount" entry = None
  | Rejected _ =>
      exists entry reason, log (fst res) = (log w ++ [logLine now entry])%list /\
        get "action" entry = Some (JStr "rejected") /\
        get "reason" entry = Some (JStr reason) /\
        get "to" entry = Some (JStr (req_to req)) /\
        get "amount" entry = Some (JNum (req_amount req))
  | NeedsConfirmation _ _ _ _ _ =>
      exists entry, log (fst res) = (log w ++ [logLine now entry])%list /\
        get "action" entry = Some (JStr "confirmation_requested") /\
        get "to" entry = Some (JStr (req_to req)) /\
        get "amount" entry = Some (JNum (req_amount req))
  | Approved _ _ _ => False
  end.
Proof.
  unfold requestSend. cbv zeta.
  destruct (frozen _); [logged_once |].
  destruct (senderRejected _ _); [logged_once |].
  destruct (negb _); [logged_once |].
  destruct (_ <? _); [logged_once |].
  destruct (_ <? _); [logged_once |].
  destruct (cooldownWait _ _ _); [reflexivity |].
  destruct (_ <=? _); logged_once.
Qed.

(** C4, on the source as it is. A rejection at the cooldown check leaves
    the world exactly as it was: nothing is appended to the log and nothing
    is saved. It happens: a request that passes every check up to the daily
    limit and arrives one second after the last transfer, with the default
    30 s cooldown, is rejected with 29 s to wait, and the log after the call
    is the log before it. *)
Theorem requestSend_cooldown_rejection_not_logged :
  (forall (config : Config) (allowlist : Allowlist) (now r : Z) (w : World)
          (req : Request) (wait : Z),
      snd (requestSend config allowlist now r w req) = Rejected (CooldownActive wait) ->
      fst (requestSend config allowlist now r w req) = w) /\
  requestSend DEFAULT_CONFIG Ex.allow Ex.t0 7 ExCooldown.world ExCooldown.request =
    (ExCooldown.world, Rejected (CooldownActive 29)) /\
  length (log (fst (requestSend DEFAULT_CONFIG Ex.allow Ex.t0 7 ExCooldown.world
                      ExCooldown.request))) = length (log ExCooldown.world).
Proof.
  split.
  - intros config allowlist now r w req wait H.
    pose proof (requestSend_audit config allowlist now r w req) as Ha.
    cbv zeta in Ha. rewrite H in Ha. exact Ha.
  - vm_compute. auto.
Qed.

(** ** C7: the range of the confirmation code *)

Lemma randomInt_range (r : Z) : 100000 <= randomInt 100000 999999 r <= 999998.
Proof.
  unfold randomInt.
  pose proof (Z.mod_pos_bound r (999999 - 100000) ltac:(lia)). lia.
Qed.

Lemma requestSend_issuedCode (config : Config) (allowlist : Allowlist) (now r : Z)
  (w : World) (req : Request) (c : string) :
  issuedCode (snd (requestSend config allowlist now r w req)) = Some c ->
  c = pretty (randomInt 100000 999999 r).
Proof.
  unfold requestSend. cbv zeta.
  destruct (frozen _); [discriminate |].
  destruct (senderRejected _ _); [discriminate |].
  destruct (negb _); [discriminate |].
  destruct (_ <? _); [discriminate |].
  destruct (_ <? _); [discriminate |].
  destruct (cooldownWait _ _ _); [discriminate |].
  destruct (_ <=? _); [discriminate |].
  cbn. congruence.
Qed.

(** C7, on the source as it is. The code is [randomInt(100000, 999999)],
    whose upper bound is excluded: no call of [requestSend] ever issues the
    code 999999. Every code lies in 100000..999998, and each value of that
    range is issued for some draw of the random source. *)
Theorem requestSend_never_issues_999999 :
  (forall (config : Config) (allowlist : Allowlist) (now r : Z) (w : World)
          (req : Request),
      issuedCode (snd (requestSend config allowlist now r w req)) <> Some "999999") /\
  (forall r : Z, 100000 <= randomInt 100000 999999 r <= 999998) /\
  (forall n : Z, 100000 <= n <= 999998 ->
      exists r : Z, 0 <= r < 899999 /\ randomInt 100000 999999 r = n).
Proof.
  split; [| split].
  - intros config allowlist now r w req H.
    apply requestSend_issuedCode in H.
    change "999999" with (pretty 999999) in H.
    apply (inj pretty) in H.
    pose proof (randomInt_range r). lia.
  - apply randomInt_range.
  - intros n Hn. exists (n - 100000). split; [lia |].
    unfold randomInt. rewrite Z.mod_small by lia. lia.
Qed.

(** The two ends of the range as issued: draw 0 gives 100000, draw 899998
    gives 999998, and draw 899999 wraps to 100000 again. *)
Example requestSend_code_ends :
  issuedCode (snd (requestSend DEFAULT_CONFIG Ex.allow Ex.t0 0
                     (mkWorld None []) ExCooldown.request)) = Some "100000" /\
  issuedCode (snd (requestSend DEFAULT_CONFIG Ex.allow Ex.t0 899998
                     (mkWorld None []) ExCooldown.request)) = Some "999998" /\
  issuedCode (snd (requestSend DEFAULT_CONFIG Ex.allow Ex.t0 899999
                     (mkWorld None []) ExCooldown.request)) = Some "100000".
Proof. vm_compute. auto. Qed.

(** ** C5: when [verify] fails *)

Section Verify.

Import Integrity.

Variable hmac : string -> string -> list N.

Lemma verify_no_secret (env : option string) (d : Dir) (f : string) :
  getSecret env = None -> verify hmac env d f = true.
Proof. intros H. unfold verify. rewrite H. reflexivity. Qed.

Lemma verify_no_file (env : option string) (d : Dir) (f : string) :
  files d !! f = None -> verify hmac env d f = true.
Proof.
  intros H. unfold verify. destruct (getSecret env); [| reflexivity].
  rewrite H. reflexivity.
Qed.

Lemma verify_false_iff (env : option string) (d : Dir) (f : string) :
  verify hmac env d f = false <->
  exists secret content,
    getSecret env = Some secret /\
    files d !! f = Some content /\
    (loadSignatures d !! f = None \/
     loadSignatures d !! f = Some EmptyString \/
     exists tag, loadSignatures d !! f = Some tag /\
                 hex_decode tag <> hmac secret content).
Proof.
  unfold verify.
  destruct (getSecret env) as [secret |].
  2:{ split; [discriminate | intros (? & ? & ? & _); discriminate]. }
  destruct (files d !! f) as [content |].
  2:{ split; [discriminate | intros (? & ? & _ & ? & _); discriminate]. }
  destruct (loadSignatures d !! f) as [tag |].
  2:{ split; [| reflexivity]. intros _. exists secret, content. auto. }
  unfold truthy, timingSafeEqual. rewrite negb_involutive.
  case_bool_decide as Ht.
  { subst tag. split; [| reflexivity]. intros _. exists secret, content. auto. }
  split.
  - intros H. exists secret, content. do 2 (split; [reflexivity |]).
    right. right. exists tag. split; [reflexivity |]. intros E.
    rewrite E in H. rewrite bool_decide_eq_true_2 in H by reflexivity.
    cbn in H. rewrite bool_decide_eq_true_2 in H by reflexivity. discriminate.
  - intros (s' & c' & [= <-] & [= <-] & [H | [H | (t & [= <-] & H)]]);
      try discriminate; [congruence |].
    case_bool_decide; cbn [negb]; [| reflexivity].
    apply bool_decide_eq_false_2. congruence.
Qed.

End Verify.

(** C5, as the source has it. [verify] answers false exactly when a secret
    is set, the tracked file exists, and its tag is missing, empty, or does
    not decode to the HMAC of the file's content; a signatures file that
    is missing altogether is the missing-tag case. Without a secret it
    answers true, and for a file that does not exist it answers true,
    whether or not a tag is recorded for that file. *)
Theorem verify_fails_exactly_on_bad_tag (hmac : string -> string -> list N)
  (env : option string) (d : Integrity.Dir) (f : string) :
  (Integrity.verify hmac env d f = false <->
   exists secret content,
     Integrity.getSecret env = Some secret /\
     Integrity.files d !! f = Some content /\
     (Integrity.loadSignatures d !! f = None \/
      Integrity.loadSignatures d !! f = Some EmptyString \/
      exists tag, Integrity.loadSignatures d !! f = Some tag /\
                  Integrity.hex_decode tag <> hmac secret content)) /\
  (Integrity.getSecret env = None -> Integrity.verify hmac env d f = true) /\
  (Integrity.files d !! f = None -> Integrity.verify hmac env d f = true) /\
  (forall secret content,
      Integrity.getSecret env = Some secret ->
      Integrity.files d !! f = Some content ->
      Integrity.signatures d = None ->
      Integrity.verify hmac env d f = false).
Proof.
  split; [apply verify_false_iff |].
  split; [apply verify_no_secret |].
  split; [apply verify_no_file |].
  intros secret content Hs Hf Hsig. apply verify_false_iff.
  exists secret, content. do 2 (split; [assumption |]).
  left. unfold Integrity.loadSignatures. rewrite Hsig. apply lookup_empty.
Qed.

(** A signed file verifies; edited afterwards, it does not. *)
Example verify_signed_then_edited :
  Integrity.verify Integrity.example_hmac ExIntegrity.secret
    ExIntegrity.signed "state.json" = true /\
  Integrity.verify Integrity.example_hmac ExIntegrity.secret
    ExIntegrity.edited "state.json" = false.
Proof. vm_compute. auto. Qed.

(** C5 as claimed fails here: with the secret set, state.json was signed
    (its tag is on record, so the file should exist) and then deleted; the
    claim has [verify] fail, the source has it succeed. *)
Lemma verify_passes_on_deleted_signed_file :
  Integrity.getSecret ExIntegrity.secret = Some "test-secret-key-123" /\
  is_Some (Integrity.loadSignatures ExIntegrity.deleted !! "state.json") /\
  Integrity.files ExIntegrity.deleted !! "state.json" = None /\
  Integrity.verify Integrity.example_hmac ExIntegrity.secret
    ExIntegrity.deleted "state.json" = true.
Proof.
  split; [reflexivity |]. split; [| split; reflexivity].
  eexists. vm_compute. reflexivity.
Qed.

(** ** C6: the confirmation code and the audit log *)

(** *** Digit runs in concatenated text *)

Section Occurs.

Import Str.

Lemma append_cons (a : ascii) (s t : string) : String a s +:+ t = String a (s +:+ t).
Proof. reflexivity. Qed.

Lemma append_nil_r (s : string) : s +:+ EmptyString = s.
Proof. induction s as [| a s IH]; [reflexivity |]. rewrite append_cons, IH. reflexivity. Qed.

Lemma append_assoc (s t u : string) : (s +:+ t) +:+ u = s +:+ t +:+ u.
Proof.
  induction s as [| a s IH]; [reflexivity |]. rewrite !append_cons, IH. reflexivity.
Qed.

Lemma no_digit_app (s t : string) :
  no_digit (s +:+ t) = no_digit s && no_digit t.
Proof.
  induction s as [| a s IH]; [reflexivity |].
  rewrite append_cons. cbn [no_digit]. rewrite IH, andb_assoc. reflexivity.
Qed.

Lemma occurs_cons (c : string) (a : ascii) (s : string) :
  occurs c s -> occurs c (String a s).
Proof. intros (pre & post & ->). exists (String a pre), post. reflexivity. Qed.

(** [includes] decides [occurs]. *)
Lemma prefix_spec (c s : string) :
  String.prefix c s = true <-> exists post, s = c +:+ post.
Proof.
  revert s. induction c as [| a c IH]; intros s.
  - split; [intros _; exists s; reflexivity | destruct s; reflexivity].
  - destruct s as [| b s]; cbn [String.prefix].
    + split; [discriminate | intros (post & E); discriminate].
    + destruct (ascii_dec a b) as [-> | Hne].
      * rewrite IH. split; intros (post & E); exists post.
        -- rewrite append_cons, E. reflexivity.
        -- rewrite append_cons in E. injection E as E. exact E.
      * split; [discriminate |]. intros (post & E).
        rewrite append_cons in E. injection E as E _. congruence.
Qed.

Lemma includes_occurs (c s : string) : includes c s = true <-> occurs c s.
Proof.
  induction s as [| b s IH]; cbn [includes]; rewrite orb_true_iff, prefix_spec.
  - split.
    + intros [(post & E) | H]; [| discriminate]. exists EmptyString, post. exact E.
    + intros (pre & post & E). left. destruct pre; [| discriminate].
      exists post. exact E.
  - rewrite IH. split.
    + intros [(post & E) | H].
      * exists EmptyString, post. exact E.
      * apply occurs_cons. exact H.
    + intros (pre & post & E). destruct pre as [| a pre].
      * left. exists post. exact E.
      * right. rewrite append_cons in E. injection E as _ E.
        exists pre, post. exact E.
Qed.

Variable c : string.
Hypothesis c_digits : all_digits c = true.

(** A run of digits that starts a text of the form [u x b], [x] not a
    digit, ends before [x]. *)
Lemma digits_prefix_cut (x : ascii) (u b post : string) :
  is_digit x = false ->
  c +:+ post = u +:+ String x b ->
  exists post', u = c +:+ post'.
Proof.
  intros Hx. revert u c_digits. induction c as [| d c' IH]; intros u Hc E.
  - exists u. reflexivity.
  - cbn [all_digits] in Hc. apply andb_true_iff in Hc as [Hd Hc'].
    destruct u as [| y u'].
    + change (String d (c' +:+ post) = String x b) in E.
      injection E as -> _. congruence.
    + rewrite !append_cons in E. injection E as -> E.
      destruct (IH u' Hc' E) as (post' & ->).
      exists post'. reflexivity.
Qed.

(** A digit run inside [a x b], [x] not a digit, lies inside [a] or inside [b]. *)
Lemma occurs_split (x : ascii) (a b : string) :
  is_digit x = false ->
  occurs c (a +:+ String x b) -> occurs c a \/ occurs c b.
Proof.
  intros Hx (pre & post & E). revert a E.
  induction pre as [| y pre IH]; intros a E.
  - left. change (a +:+ String x b = c +:+ post) in E. symmetry in E.
    destruct (digits_prefix_cut x a b post Hx E) as (post' & ->).
    exists EmptyString, post'. reflexivity.
  - destruct a as [| z a'].
    + right. change (String x b = String y (pre +:+ c +:+ post)) in E.
      injection E as _ ->. exists pre, post. reflexivity.
    + rewrite !append_cons in E. injection E as _ E.
      destruct (IH a' E) as [H | H]; [left; apply occurs_cons; assumption | right; assumption].
Qed.

Hypothesis c_nonempty : c <> EmptyString.

Lemma occurs_nil : ~ occurs c EmptyString.
Proof.
  clear c_digits.
  intros (pre & post & E). destruct pre; [| discriminate]. destruct c; [congruence | discriminate].
Qed.

Lemma occurs_skip (x : ascii) (s : string) :
  is_digit x = false -> occurs c (String x s) -> occurs c s.
Proof.
  intros Hx H. change (occurs c (EmptyString +:+ String x s)) in H.
  apply occurs_split in H as [H | H]; [destruct (occurs_nil H) | assumption | assumption].
Qed.

(** Text without digits holds no digit run. *)
Lemma occurs_no_digit (s : string) : no_digit s = true -> ~ occurs c s.
Proof.
  induction s as [| a s IH]; intros Hs H.
  - exact (occurs_nil H).
  - cbn [no_digit] in Hs. apply andb_true_iff in Hs as [Ha Hs].
    apply negb_true_iff in Ha. apply IH; [assumption |].
    apply occurs_skip with a; assumption.
Qed.

End Occurs.

(** *** Digit runs in a stringified entry *)

Lemma stringify_obj (fs : list (string * json)) :
  stringify (JObj fs) = "{" +:+ members fs +:+ "}".
Proof. reflexivity. Qed.

(** Induction on JSON values, with the hypothesis for every member. *)
Lemma json_induction (P : json -> Prop) :
  P JNull ->
  (forall z, P (JNum z)) ->
  (forall s, P (JStr s)) ->
  (forall fs, Forall (fun kv => P (snd kv)) fs -> P (JObj fs)) ->
  forall j, P j.
Proof.
  intros Hnull Hnum Hstr Hobj.
  fix IH 1. intros [| z | s | fs].
  - exact Hnull.
  - apply Hnum.
  - apply Hstr.
  - apply Hobj.
    induction fs as [| kv fs IHfs]; constructor; [apply IH | exact IHfs].
Qed.

Section OccursJson.

Variable c : string.
Hypothesis c_digits : Str.all_digits c = true.
Hypothesis c_nonempty : c <> EmptyString.

Lemma occurs_quote (s : string) :
  Str.occurs c (quote s) -> Str.occurs c (escape s).
Proof.
  unfold quote. intros H.
  apply (occurs_skip c c_digits c_nonempty) in H; [| reflexivity].
  apply (occurs_split c c_digits) in H as [H | H]; [assumption | | reflexivity].
  destruct (occurs_nil c c_nonempty H).
Qed.

Lemma occurs_members (fs : list (string * json)) :
  forallb (fun kv => Str.no_digit (escape (fst kv))) fs = true ->
  Str.occurs c (members fs) ->
  exists kv, In kv fs /\ Str.occurs c (stringify (snd kv)).
Proof.
  induction fs as [| [k v] rest IH]; intros Hk H.
  - destruct (occurs_nil c c_nonempty H).
  - cbn [forallb fst] in Hk. apply andb_true_iff in Hk as [Hk Hrest].
    cbn [members] in H.
    apply (occurs_split c c_digits) in H as [H | H]; [| | reflexivity].
    { apply occurs_quote in H.
      destruct (occurs_no_digit c c_digits c_nonempty _ Hk H). }
    destruct rest as [| kv' rest'].
    + rewrite append_nil_r in H. exists (k, v). split; [left; reflexivity | assumption].
    + apply (occurs_split c c_digits) in H as [H | H]; [| | reflexivity].
      * exists (k, v). split; [left; reflexivity | assumption].
      * destruct (IH Hrest H) as (kv & Hin & Hkv).
        exists kv. split; [right; assumption | assumption].
Qed.

(** A digit run in the text of a value whose keys have no digits lies
    inside the text of one of its scalar values. *)
Lemma occurs_stringify (j : json) :
  keys_plain j = true ->
  Str.occurs c (stringify j) ->
  exists l, In l (leaves j) /\ Str.occurs c l.
Proof.
  induction j as [| z | s | fs IH] using json_induction; intros Hk H.
  - destruct (occurs_no_digit c c_digits c_nonempty "null" eq_refl H).
  - exists (pretty z). split; [left; reflexivity | assumption].
  - exists (escape s). split; [left; reflexivity | apply occurs_quote; assumption].
  - rewrite stringify_obj in H.
    apply (occurs_skip c c_digits c_nonempty) in H; [| reflexivity].
    apply (occurs_split c c_digits) in H as [H | H]; [| | reflexivity].
    2:{ destruct (occurs_nil c c_nonempty H). }
    cbn [keys_plain] in Hk. rewrite forallb_forall in Hk.
    apply occurs_members in H.
    2:{ apply forallb_forall. intros kv Hin.
        specialize (Hk kv Hin). apply andb_true_iff in Hk as [Hk _]. exact Hk. }
    destruct H as (kv & Hin & Hkv).
    rewrite Forall_forall in IH.
    assert (Hin' : kv ∈ fs) by (apply list_elem_of_In; exact Hin).
    specialize (Hk kv Hin). apply andb_true_iff in Hk as [_ Hk].
    destruct (IH kv Hin' Hk Hkv) as (l & Hl & Hocc).
    exists l. split; [| assumption].
    cbn [leaves]. apply in_flat_map. exists kv. split; assumption.
Qed.

(** The same for a line of the log. *)
Lemma occurs_logLine (now : Z) (entry : list (string * json)) :
  keys_plain (JObj entry) = true ->
  Str.occurs c (logLine now entry) ->
  exists l, In l (leaves (JObj entry) ++ [escape (Iso.toISOString now)])%list /\
            Str.occurs c l.
Proof.
  intros Hk H. unfold logLine in H.
  apply (occurs_split c c_digits) in H as [H | H]; [| | reflexivity].
  2:{ destruct (occurs_nil c c_nonempty H). }
  apply occurs_stringify in H.
  - destruct H as (l & Hl & Hocc). exists l. split; [| assumption].
    cbn [leaves] in Hl |- *. rewrite flat_map_app in Hl. exact Hl.
  - cbn [keys_plain] in Hk |- *. rewrite forallb_app, Hk. reflexivity.
Qed.

End OccursJson.

(** *** What an operation writes to the log *)

Lemma loggedValues_with_code (config : Config) (now : Z) (op : Op) (w : World)
  (c : string) :
  loggedValues config now op (with_code c w) = loggedValues config now op w.
Proof.
  unfold loggedValues, with_code, loadState, rollover. cbn [persisted].
  destruct op; try reflexivity; destruct (persisted w) as [s |]; try reflexivity;
    cbn [pendingConfirmation set_pendingConfirmation dailyDate];
    destruct (pendingConfirmation s); try reflexivity;
    case_bool_decide; reflexivity.
Qed.

Section CodeAndLog.

Variable c : string.
Hypothesis c_digits : Str.all_digits c = true.
Hypothesis c_nonempty : c <> EmptyString.

Lemma appends_nothing (vals : list string) (w : World) : appends_only c vals w w.
Proof.
  exists []. split; [symmetry; apply app_nil_r |]. split; [cbn; lia |].
  intros line [].
Qed.

Lemma appends_nothing_saved (vals : list string) (w : World) (s : GuardState) :
  appends_only c vals w (saveState w s).
Proof.
  exists []. split; [symmetry; apply app_nil_r |]. split; [cbn; lia |].
  intros line [].
Qed.

(** One appended line, each of whose scalar texts is a constant without
    digits or one of [vals]. *)
Lemma appends_line (now : Z) (vals : list string) (w w' : World)
  (entry : list (string * json)) :
  log w' = (log w ++ [logLine now entry])%list ->
  keys_plain (JObj entry) = true ->
  (forall l, In l (leaves (JObj entry)) -> Str.no_digit l = true \/ In l vals) ->
  appends_only c (escape (Iso.toISOString now) :: vals) w w'.
Proof.
  intros Hlog Hk Hl. exists [logLine now entry].
  split; [exact Hlog |]. split; [cbn; lia |].
  intros line [<- | []] Hocc.
  apply (occurs_logLine c c_digits c_nonempty) in Hocc; [| exact Hk].
  destruct Hocc as (l & Hin & Hocc).
  apply in_app_iff in Hin as [Hin | [<- | []]].
  - destruct (Hl l Hin) as [Hnd | Hv].
    + destruct (occurs_no_digit c c_digits c_nonempty l Hnd Hocc).
    + exists l. split; [right; exact Hv | exact Hocc].
  - exists (escape (Iso.toISOString now)). split; [left; reflexivity | exact Hocc].
Qed.

End CodeAndLog.

(** Settles the side conditions of [appends_line] for an entry whose keys
    and constant values are literals. *)
Ltac entry_values :=
  let l := fresh "l" in
  let Hl := fresh "Hl" in
  intros l Hl; cbn [leaves flat_map app snd] in Hl;
  repeat (destruct Hl as [<- | Hl]);
  first [ destruct Hl
        | left; reflexivity
        | right; rewrite ?in_app_iff; cbn [In]; tauto ].

Ltac one_line :=
  eapply appends_line;
  [ assumption | assumption
  | cbn [fst snd logTransaction saveState log]; reflexivity
  | reflexivity
  | entry_values ].

Section OperationsAndLog.

Variable c : string.
Hypothesis c_digits : Str.all_digits c = true.
Hypothesis c_nonempty : c <> EmptyString.

Variables (config : Config) (allowlist : Allowlist) (now : Z) (w : World).

Lemma requestSend_appends (req : Request) (r : Z) :
  appends_only c (loggedValues config now (OpRequestSend req r) w) w
    (fst (requestSend config allowlist now r w req)).
Proof.
  unfold requestSend, loggedValues. cbv zeta.
  destruct (req_sender req) as [sd |]; cbn [senderRejected jsender_opt jsender].
  - destruct (frozen _); [one_line |].
    destruct (_ && _); [one_line |].
    destruct (negb _); [one_line |].
    destruct (_ <? _); [one_line |].
    destruct (_ <? _); [one_line |].
    destruct (cooldownWait _ _ _); [apply appends_nothing |].
    destruct (_ <=? _); one_line.
  - destruct (frozen _); [one_line |].
    destruct (negb _); [one_line |].
    destruct (_ <? _); [one_line |].
    destruct (_ <? _); [one_line |].
    destruct (cooldownWait _ _ _); [apply appends_nothing |].
    destruct (_ <=? _); one_line.
Qed.

Lemma confirmSend_appends (code_ : string) (sd : option Sender) :
  appends_only c (loggedValues config now (OpConfirmSend code_ sd) w) w
    (fst (confirmSend now w code_ sd)).
Proof.
  unfold confirmSend, loggedValues. cbv zeta.
  destruct (pendingConfirmation (loadState w now)) as [p |];
    [| apply appends_nothing].
  destruct (_ <? _); [one_line |].
  destruct (senderMismatch _ _); [one_line |].
  destruct (bool_decide _); [| one_line].
  cbn [attempts set_attempts to amount].
  destruct (_ <=? _); one_line.
Qed.

Lemma freeze_appends (reason : string) :
  appends_only c (loggedValues config now (OpFreeze reason) w) w
    (fst (freeze now w reason)).
Proof. unfold freeze, loggedValues. cbv zeta. one_line. Qed.

Lemma unfreeze_appends :
  appends_only c (loggedValues config now OpUnfreeze w) w (fst (unfreeze now w)).
Proof. unfold unfreeze, loggedValues. cbv zeta. one_line. Qed.

Lemma getStatus_appends :
  appends_only c (loggedValues config now OpGetStatus w) w
    (fst (getStatus config now w)).
Proof.
  unfold getStatus. cbv zeta. case_bool_decide; cbn [fst].
  - apply appends_nothing_saved.
  - apply appends_nothing.
Qed.

End OperationsAndLog.

(** C6, as the source has it. Whatever the operation and its outcome, it
    appends at most one line to the log, and a run of digits (a
    confirmation code, say) occurs in that line only if it occurs in the
    text of one of the values the line records: the time stamp, the
    destination, amount and token of the request or of the pending
    transfer, the sender's platform and id, the freeze reason, the count of
    recent requests or of attempts. These values are the same whatever code
    is stored in the pending confirmation. *)
Theorem log_line_digits_come_from_logged_values (config : Config)
  (allowlist : Allowlist) (now : Z) (op : Op) (w : World) (c : string) :
  Str.all_digits c = true ->
  c <> EmptyString ->
  appends_only c (loggedValues config now op w) w
    (fst (step config allowlist now op w)) /\
  (forall c' : string,
      loggedValues config now op (with_code c' w) = loggedValues config now op w).
Proof.
  intros Hd Hn. split; [| intros c'; apply loggedValues_with_code].
  destruct op as [req r | code_ sd | reason | |]; cbn [step].
  - pose proof (requestSend_appends c Hd Hn config allowlist now w req r) as H.
    destruct (requestSend config allowlist now r w req). exact H.
  - pose proof (confirmSend_appends c Hd Hn config now w code_ sd) as H.
    destruct (confirmSend now w code_ sd). exact H.
  - apply (freeze_appends c Hd Hn).
  - apply (unfreeze_appends c Hd Hn).
  - pose proof (getStatus_appends c config now w) as H.
    destruct (getStatus config now w). exact H.
Qed.

Lemma log_line_digits_come_from_logged_values_witness :
  appends_only "483920"
    (loggedValues DEFAULT_CONFIG (Ex.t0 + 1) (OpConfirmSend "000001" None)
       (Ex.world5 false))
    (Ex.world5 false)
    (fst (step DEFAULT_CONFIG Ex.allow (Ex.t0 + 1) (OpConfirmSend "000001" None)
            (Ex.world5 false))) /\
  (forall c' : string,
      loggedValues DEFAULT_CONFIG (Ex.t0 + 1) (OpConfirmSend "000001" None)
        (with_code c' (Ex.world5 false)) =
      loggedValues DEFAULT_CONFIG (Ex.t0 + 1) (OpConfirmSend "000001" None)
        (Ex.world5 false)).
Proof.
  apply (log_line_digits_come_from_logged_values DEFAULT_CONFIG Ex.allow
           (Ex.t0 + 1) (OpConfirmSend "000001" None) (Ex.world5 false) "483920");
    [reflexivity | discriminate].
Defined.

(** The run of the test suite: a request, a wrong code, then the right
    one; the code is in no line of the log. *)
Example code_absent_from_log_of_test_run :
  let r1 := requestSend DEFAULT_CONFIG Ex.allow Ex.t0 383920
              (mkWorld None []) (mkRequest "0xABCD" 5 None None) in
  let r2 := confirmSend (Ex.t0 + 1) (fst r1) "000001" None in
  let r3 := confirmSend (Ex.t0 + 2) (fst r2) "483920" None in
  issuedCode (snd r1) = Some "483920" /\
  snd r3 = Approved "0xABCD" 5 "USDC" /\
  length (log (fst r3)) = 3%nat /\
  Str.includes "483920" (logFile (fst r3)) = false.
Proof. vm_compute. auto. Qed.

(** C6 as claimed fails here: the destination 0x100000 is on the allowlist,
    the random source draws 0, so the code issued is 100000, and the line
    that records the request holds the code as a substring (inside the
    destination). *)
Lemma code_is_substring_of_log_line :
  let res := requestSend DEFAULT_CONFIG ExCode.allow Ex.t0 0 ExCode.fresh
               ExCode.request in
  issuedCode (snd res) = Some "100000" /\
  (exists p, pendingConfirmation (loadState (fst res) Ex.t0) = Some p /\
             code p = "100000") /\
  existsb (Str.includes "100000") (log (fst res)) = true.
Proof.
  vm_compute. split; [reflexivity |]. split; [| reflexivity].
  eexists. split; reflexivity.
Qed.

(** * Further properties of the code *)

(** ** Signing and verifying ([integrity.mjs]) *)

Section SignVerify.

Import Integrity.

Lemma unhex_hex_char (n : N) : (n < 16)%N -> unhex (hex_char n) = Some n.
Proof.
  intros H. destruct n as [| p]; [reflexivity |].
  do 4 (try (destruct p as [p | p |]; [| | reflexivity])); try lia;
    destruct p; try reflexivity; lia.
Qed.

(** Two hex digits per byte decode back to the byte. *)
Lemma hex_decode_encode (bs : list N) :
  Forall (fun b => (b < 256)%N) bs -> hex_decode (hex_encode bs) = bs.
Proof.
  induction 1 as [| b bs Hb _ IH]; [reflexivity |].
  cbn [hex_encode hex_decode].
  rewrite !unhex_hex_char.
  - rewrite IH. f_equal.
    pose proof (N.div_mod b 16 ltac:(lia)). lia.
  - apply N.mod_lt. lia.
  - apply N.Div0.div_lt_upper_bound. lia.
Qed.

Lemma hex_encode_length (bs : list N) :
  String.length (hex_encode bs) = (2 * length bs)%nat.
Proof.
  induction bs as [| b bs IH]; [reflexivity |].
  cbn [hex_encode String.length length]. rewrite IH. lia.
Qed.

Lemma hex_encode_truthy (bs : list N) :
  bs <> [] -> truthy (hex_encode bs) = true.
Proof.
  destruct bs as [| b bs]; [congruence |]. intros _. reflexivity.
Qed.

Variable hmac : string -> string -> list N.
Hypothesis hmac_32 : Store.hmac_ok hmac.

Lemma hmac_nonempty (key content : string) : hmac key content <> [].
Proof.
  destruct (hmac_32 key content) as [Hlen _].
  destruct (hmac key content); [discriminate | congruence].
Qed.

(** A tag that is the hex text of the HMAC of the content verifies. *)
Lemma verify_recorded (env : option string) (d : Dir) (f secret content : string) :
  getSecret env = Some secret ->
  files d !! f = Some content ->
  loadSignatures d !! f = Some (hex_encode (hmac secret content)) ->
  verify hmac env d f = true.
Proof.
  intros Hs Hf Ht. unfold verify. rewrite Hs, Hf, Ht.
  rewrite hex_encode_truthy by apply hmac_nonempty. cbn [negb].
  rewrite hex_decode_encode by apply hmac_32.
  rewrite bool_decide_eq_true_2 by reflexivity. cbn [negb].
  apply bool_decide_eq_true_2. reflexivity.
Qed.

Lemma sign_files (env : option string) (d : Dir) (f : string) :
  files (fst (sign hmac env d f)) = files d.
Proof.
  unfold sign. destruct (getSecret env); [| reflexivity].
  destruct (files d !! f); reflexivity.
Qed.

Lemma sign_other_tag (env : option string) (d : Dir) (f g : string) :
  f <> g ->
  loadSignatures (fst (sign hmac env d f)) !! g = loadSignatures d !! g.
Proof.
  intros Hne. unfold sign. destruct (getSecret env); [| reflexivity].
  destruct (files d !! f); [| reflexivity].
  cbn [fst saveSignatures loadSignatures signatures].
  apply lookup_insert_ne. exact Hne.
Qed.

Lemma verify_depends (env : option string) (d d' : Dir) (g : string) :
  files d' !! g = files d !! g ->
  loadSignatures d' !! g = loadSignatures d !! g ->
  verify hmac env d' g = verify hmac env d g.
Proof.
  intros Hf Hs. unfold verify. rewrite Hf, Hs. reflexivity.
Qed.

End SignVerify.

Lemma example_hmac_ok : Store.hmac_ok Integrity.example_hmac.
Proof.
  intros key content. unfold Integrity.example_hmac. split.
  - rewrite length_map, length_seq. reflexivity.
  - apply Forall_forall. intros b Hb. apply list_elem_of_In, in_map_iff in Hb.
    destruct Hb as (i & <- & _). apply N.mod_lt. lia.
Qed.

Section SignVerifyComposed.

Import Integrity.

Variable hmac : string -> string -> list N.
Hypothesis hmac_32 : Store.hmac_ok hmac.

Lemma sign_result (env : option string) (d : Dir) (f secret content : string) :
  getSecret env = Some secret ->
  files d !! f = Some content ->
  sign hmac env d f =
    (mkDir (files d) (Some (<[f := hex_encode (hmac secret content)]> (loadSignatures d))),
     Some (hex_encode (hmac secret content))).
Proof.
  intros Hs Hf. unfold sign. rewrite Hs, Hf. reflexivity.
Qed.

Lemma verify_after_sign (env : option string) (d : Dir) (f : string) :
  verify hmac env (fst (sign hmac env d f)) f = true.
Proof.
  destruct (getSecret env) as [secret |] eqn:Hs.
  2:{ apply verify_no_secret. exact Hs. }
  destruct (files d !! f) as [content |] eqn:Hf.
  2:{ apply verify_no_file. rewrite sign_files. exact Hf. }
  rewrite (sign_result env d f secret content Hs Hf). cbn [fst].
  apply (verify_recorded hmac hmac_32 env _ f secret content Hs).
  - exact Hf.
  - cbn [loadSignatures signatures]. apply lookup_insert_eq.
Qed.

Lemma verify_after_other_sign (env : option string) (d : Dir) (f g : string) :
  f <> g ->
  verify hmac env (fst (sign hmac env d f)) g = verify hmac env d g.
Proof.
  intros Hne. apply verify_depends.
  - rewrite sign_files. reflexivity.
  - apply sign_other_tag. exact Hne.
Qed.

Lemma signAll_unfold (env : option string) (d : Dir) :
  fst (Store.signAll hmac env d) =
  fst (sign hmac env
         (fst (sign hmac env (fst (sign hmac env d "config.json")) "allowlist.json"))
         "state.json").
Proof.
  unfold Store.signAll, TRACKED_FILES. cbn [fold_left fst snd].
  destruct (sign hmac env d "config.json") as [d1 t1]. cbn [fst snd].
  destruct (sign hmac env d1 "allowlist.json") as [d2 t2]. cbn [fst snd].
  destruct (sign hmac env d2 "state.json") as [d3 t3]. reflexivity.
Qed.

End SignVerifyComposed.

(** X1. Signing a file makes it verify: whatever the directory and whether
    or not a secret is set, [verify] answers true right after [sign]. With
    a secret and the file present, [sign] returns the 64 hex digits of the
    HMAC of the content, and it never touches the files themselves. *)
Theorem sign_then_verify (hmac : string -> string -> list N)
  (env : option string) (d : Integrity.Dir) (f : string) :
  Store.hmac_ok hmac ->
  Integrity.verify hmac env (fst (Integrity.sign hmac env d f)) f = true /\
  Integrity.files (fst (Integrity.sign hmac env d f)) = Integrity.files d /\
  (forall secret content,
      Integrity.getSecret env = Some secret ->
      Integrity.files d !! f = Some content ->
      snd (Integrity.sign hmac env d f) =
        Some (Integrity.hex_encode (hmac secret content)) /\
      String.length (Integrity.hex_encode (hmac secret content)) = 64%nat).
Proof.
  intros Hok. split; [apply verify_after_sign; exact Hok |].
  split; [apply sign_files |].
  intros secret content Hs Hf.
  rewrite (sign_result hmac env d f secret content Hs Hf). split; [reflexivity |].
  rewrite hex_encode_length. destruct (Hok secret content) as [-> _]. reflexivity.
Qed.

Lemma sign_then_verify_witness :
  Integrity.verify Integrity.example_hmac ExIntegrity.secret
    (fst (Integrity.sign Integrity.example_hmac ExIntegrity.secret
            (Integrity.mkDir {[ "state.json" := "{}" ]} None) "state.json"))
    "state.json" = true.
Proof.
  apply (sign_then_verify Integrity.example_hmac ExIntegrity.secret
           (Integrity.mkDir {[ "state.json" := "{}" ]} None) "state.json").
  apply example_hmac_ok.
Defined.

(** X2. An edit behind the guard's back is detected: once a file is signed
    under a secret, writing other content to it, content whose HMAC under
    that secret differs, makes [verify] answer false. *)
Theorem edit_after_sign_detected (hmac : string -> string -> list N)
  (env : option string) (d : Integrity.Dir) (f secret content content' : string) :
  Store.hmac_ok hmac ->
  Integrity.getSecret env = Some secret ->
  Integrity.files d !! f = Some content ->
  hmac secret content' <> hmac secret content ->
  Integrity.verify hmac env
    (Store.writeFile (fst (Integrity.sign hmac env d f)) f content') f = false.
Proof.
  intros Hok Hs Hf Hne. apply verify_false_iff.
  exists secret, content'. split; [exact Hs |].
  rewrite (sign_result hmac env d f secret content Hs Hf).
  cbn [fst Store.writeFile Integrity.files Integrity.signatures Integrity.loadSignatures].
  split; [apply lookup_insert_eq |].
  right. right. eexists. split; [apply lookup_insert_eq |].
  rewrite hex_decode_encode by apply Hok. congruence.
Qed.

Lemma edit_after_sign_detected_witness :
  Integrity.verify Integrity.example_hmac ExIntegrity.secret
    (Store.writeFile
       (fst (Integrity.sign Integrity.example_hmac ExIntegrity.secret
               (Integrity.mkDir {[ "state.json" := "{}" ]} None) "state.json"))
       "state.json" "{ }") "state.json" = false.
Proof.
  apply (edit_after_sign_detected Integrity.example_hmac ExIntegrity.secret
           (Integrity.mkDir {[ "state.json" := "{}" ]} None) "state.json"
           "test-secret-key-123" "{}" "{ }").
  - apply example_hmac_ok.
  - reflexivity.
  - reflexivity.
  - vm_compute. discriminate.
Defined.

(** X3. Signing one file leaves the verdict on every other file as it was:
    [sign] rewrites only the tag of the file it is given. *)
Theorem sign_keeps_other_verdicts (hmac : string -> string -> list N)
  (env : option string) (d : Integrity.Dir) (f g : string) :
  f <> g ->
  Integrity.verify hmac env (fst (Integrity.sign hmac env d f)) g =
  Integrity.verify hmac env d g /\
  Integrity.loadSignatures (fst (Integrity.sign hmac env d f)) !! g =
  Integrity.loadSignatures d !! g.
Proof.
  intros Hne. split.
  - apply verify_after_other_sign. exact Hne.
  - apply sign_other_tag. exact Hne.
Qed.

Lemma sign_keeps_other_verdicts_witness :
  snd (Integrity.sign Integrity.example_hmac ExIntegrity.secret
         ExIntegrity.unsigned_config "config.json") <> None /\
  Integrity.loadSignatures ExIntegrity.unsigned_config !! "config.json" = None /\
  Integrity.loadSignatures
    (fst (Integrity.sign Integrity.example_hmac ExIntegrity.secret
            ExIntegrity.unsigned_config "config.json")) !! "config.json" <> None /\
  Integrity.verify Integrity.example_hmac ExIntegrity.secret
    ExIntegrity.unsigned_config "state.json" = false /\
  (Integrity.verify Integrity.example_hmac ExIntegrity.secret
     (fst (Integrity.sign Integrity.example_hmac ExIntegrity.secret
             ExIntegrity.unsigned_config "config.json")) "state.json" =
   Integrity.verify Integrity.example_hmac ExIntegrity.secret
     ExIntegrity.unsigned_config "state.json" /\
   Integrity.loadSignatures
     (fst (Integrity.sign Integrity.example_hmac ExIntegrity.secret
             ExIntegrity.unsigned_config "config.json")) !! "state.json" =
   Integrity.loadSignatures ExIntegrity.unsigned_config !! "state.json").
Proof.
  split; [vm_compute; discriminate |].
  split; [reflexivity |].
  split; [vm_compute; discriminate |].
  split; [reflexivity |].
  apply (sign_keeps_other_verdicts Integrity.example_hmac ExIntegrity.secret
           ExIntegrity.unsigned_config "config.json" "state.json").
  discriminate.
Defined.

(** X4. After [signAll], [verifyAll] reports true for each of the three
    tracked files, whichever of them exist and whether or not a secret is
    set. *)
Theorem signAll_then_verifyAll (hmac : string -> string -> list N)
  (env : option string) (d : Integrity.Dir) :
  Store.hmac_ok hmac ->
  Integrity.verifyAll hmac env (fst (Store.signAll hmac env d)) =
    [("config.json", true); ("allowlist.json", true); ("state.json", true)].
Proof.
  intros Hok. rewrite signAll_unfold.
  unfold Integrity.verifyAll, Integrity.TRACKED_FILES. cbn [map].
  rewrite (verify_after_sign hmac Hok).
  rewrite !(verify_after_other_sign hmac) by discriminate.
  rewrite (verify_after_sign hmac Hok).
  rewrite !(verify_after_other_sign hmac) by discriminate.
  rewrite (verify_after_sign hmac Hok).
  reflexivity.
Qed.

Lemma signAll_then_verifyAll_witness :
  Integrity.verifyAll Integrity.example_hmac ExIntegrity.secret
    (fst (Store.signAll Integrity.example_hmac ExIntegrity.secret ExIntegrity.edited)) =
    [("config.json", true); ("allowlist.json", true); ("state.json", true)].
Proof.
  apply (signAll_then_verifyAll Integrity.example_hmac ExIntegrity.secret
           ExIntegrity.edited).
  apply example_hmac_ok.
Defined.

(** ** Loading and saving the tracked files ([config.mjs], [allowlist.mjs],
       [guard.mjs]) *)

Section SavedFiles.

Import Integrity.

Variable hmac : string -> string -> list N.
Variable env : option string.

(** What every save does: write the text, then sign the file. *)
Lemma saved_file (d : Dir) (f content : string) :
  files (fst (sign hmac env (Store.writeFile d f content) f)) !! f = Some content.
Proof. rewrite sign_files. cbn. apply lookup_insert_eq. Qed.

Lemma saved_other_file (d : Dir) (f g content : string) :
  f <> g ->
  files (fst (sign hmac env (Store.writeFile d f content) f)) !! g = files d !! g.
Proof. intros Hne. rewrite sign_files. cbn. apply lookup_insert_ne. exact Hne. Qed.

Lemma saved_other_tag (d : Dir) (f g content : string) :
  f <> g ->
  loadSignatures (fst (sign hmac env (Store.writeFile d f content) f)) !! g =
  loadSignatures d !! g.
Proof. intros Hne. rewrite sign_other_tag by exact Hne. reflexivity. Qed.

Lemma saved_other_verdict (d : Dir) (f g content : string) :
  f <> g ->
  verify hmac env (fst (sign hmac env (Store.writeFile d f content) f)) g =
  verify hmac env d g.
Proof.
  intros Hne. apply verify_depends.
  - apply saved_other_file. exact Hne.
  - apply saved_other_tag. exact Hne.
Qed.

Variable parse_config : string -> option Store.ConfigPatch.
Variable print_config : Config -> string.
Variable parse_allowlist : string -> option Allowlist.
Variable print_allowlist : Allowlist -> string.
Variable parse_state : string -> option GuardState.
Variable print_state : GuardState -> string.

(** A load looks at its own file and at that file's verdict, nothing else. *)
Lemma loadConfig_depends (d d' : Dir) :
  files d' !! "config.json" = files d !! "config.json" ->
  verify hmac env d' "config.json" = verify hmac env d "config.json" ->
  Store.loadConfig hmac env parse_config d' = Store.loadConfig hmac env parse_config d.
Proof. intros Hf Hv. unfold Store.loadConfig. rewrite Hf, Hv. reflexivity. Qed.

Lemma loadAllowlist_depends (d d' : Dir) :
  files d' !! "allowlist.json" = files d !! "allowlist.json" ->
  verify hmac env d' "allowlist.json" = verify hmac env d "allowlist.json" ->
  Store.loadAllowlist hmac env parse_allowlist d' =
  Store.loadAllowlist hmac env parse_allowlist d.
Proof. intros Hf Hv. unfold Store.loadAllowlist. rewrite Hf, Hv. reflexivity. Qed.

Lemma loadState_depends (d d' : Dir) (now : Z) :
  files d' !! "state.json" = files d !! "state.json" ->
  verify hmac env d' "state.json" = verify hmac env d "state.json" ->
  Store.loadState hmac env parse_state d' now = Store.loadState hmac env parse_state d now.
Proof. intros Hf Hv. unfold Store.loadState. rewrite Hf, Hv. reflexivity. Qed.

Lemma spread_full_patch (c : Config) :
  Store.spread DEFAULT_CONFIG (Store.full_patch c) = c.
Proof. destruct c. reflexivity. Qed.

Hypothesis hmac_32 : Store.hmac_ok hmac.

Lemma loadConfig_saveConfig (d : Dir) (c : Config) :
  parse_config (print_config c) = Some (Store.full_patch c) ->
  Store.loadConfig hmac env parse_config (Store.saveConfig hmac env print_config d c) = Store.Ok c.
Proof.
  intros Hc. unfold Store.loadConfig, Store.saveConfig.
  rewrite saved_file, (verify_after_sign hmac hmac_32), Hc. cbn [negb].
  rewrite spread_full_patch. reflexivity.
Qed.

Lemma loadAllowlist_saveAllowlist (d : Dir) (a : Allowlist) :
  parse_allowlist (print_allowlist a) = Some a ->
  Store.loadAllowlist hmac env parse_allowlist
    (Store.saveAllowlist hmac env print_allowlist d a) = Store.Ok a.
Proof.
  intros Hc. unfold Store.loadAllowlist, Store.saveAllowlist.
  rewrite saved_file, (verify_after_sign hmac hmac_32), Hc. reflexivity.
Qed.

Lemma loadState_saveState (d : Dir) (s : GuardState) (now : Z) :
  parse_state (print_state s) = Some s ->
  Store.loadState hmac env parse_state (Store.saveState hmac env print_state d s) now = Store.Ok s.
Proof.
  intros Hc. unfold Store.loadState, Store.saveState.
  rewrite saved_file, (verify_after_sign hmac hmac_32), Hc. reflexivity.
Qed.

End SavedFiles.

Lemma excodec_bits (p : positive) :
  ExCodec.bits_to_pos (ExCodec.pos_to_bits p) = Some p.
Proof.
  induction p as [q IH | q IH |]; cbn [ExCodec.pos_to_bits ExCodec.bits_to_pos];
    [rewrite IH | rewrite IH |]; reflexivity.
Qed.

Lemma excodec_roundtrip {A : Type} `{Countable A} (a : A) :
  ExCodec.parse (ExCodec.print a) = Some a.
Proof.
  unfold ExCodec.parse, ExCodec.print. rewrite excodec_bits. apply decode_encode.
Qed.

Lemma excodec_config_roundtrip (c : Config) :
  ExCodec.parse_config (ExCodec.print c) = Some (Store.full_patch c).
Proof. unfold ExCodec.parse_config. rewrite excodec_roundtrip. reflexivity. Qed.

(** X5. What is saved is what is loaded next: for the configuration, the
    allowlist and the state, a save followed by a load returns the value
    saved, with or without a secret and whatever was in the directory
    before. *)
Theorem save_then_load (hmac : string -> string -> list N) (env : option string)
  (parse_config : string -> option Store.ConfigPatch) (print_config : Config -> string)
  (parse_allowlist : string -> option Allowlist) (print_allowlist : Allowlist -> string)
  (parse_state : string -> option GuardState) (print_state : GuardState -> string)
  (d : Integrity.Dir) (c : Config) (a : Allowlist) (s : GuardState) (now : Z) :
  Store.hmac_ok hmac ->
  parse_config (print_config c) = Some (Store.full_patch c) ->
  parse_allowlist (print_allowlist a) = Some a ->
  parse_state (print_state s) = Some s ->
  Store.loadConfig hmac env parse_config
    (Store.saveConfig hmac env print_config d c) = Store.Ok c /\
  Store.loadAllowlist hmac env parse_allowlist
    (Store.saveAllowlist hmac env print_allowlist d a) = Store.Ok a /\
  Store.loadState hmac env parse_state
    (Store.saveState hmac env print_state d s) now = Store.Ok s.
Proof.
  intros Hok Hc Ha Hs. split; [| split].
  - apply loadConfig_saveConfig; assumption.
  - apply loadAllowlist_saveAllowlist; assumption.
  - apply loadState_saveState; assumption.
Qed.

Lemma save_then_load_witness :
  Store.loadConfig Integrity.example_hmac ExIntegrity.secret ExCodec.parse_config
    (Store.saveConfig Integrity.example_hmac ExIntegrity.secret ExCodec.print
       ExIntegrity.edited DEFAULT_CONFIG) = Store.Ok DEFAULT_CONFIG /\
  Store.loadAllowlist Integrity.example_hmac ExIntegrity.secret ExCodec.parse
    (Store.saveAllowlist Integrity.example_hmac ExIntegrity.secret ExCodec.print
       ExIntegrity.edited Ex.allow) = Store.Ok Ex.allow /\
  Store.loadState Integrity.example_hmac ExIntegrity.secret ExCodec.parse
    (Store.saveState Integrity.example_hmac ExIntegrity.secret ExCodec.print
       ExIntegrity.edited (Ex.state5 false)) Ex.t0 = Store.Ok (Ex.state5 false).
Proof.
  apply (save_then_load Integrity.example_hmac ExIntegrity.secret
           ExCodec.parse_config ExCodec.print ExCodec.parse ExCodec.print
           ExCodec.parse ExCodec.print).
  - apply example_hmac_ok.
  - apply excodec_config_roundtrip.
  - apply excodec_roundtrip.
  - apply excodec_roundtrip.
Defined.

(** X7. Saving one tracked file leaves what the other two load as: writing
    the state after each operation does not disturb the configuration or
    the allowlist, and likewise for the other two saves. *)
Theorem save_keeps_other_loads (hmac : string -> string -> list N) (env : option string)
  (parse_config : string -> option Store.ConfigPatch) (print_config : Config -> string)
  (parse_allowlist : string -> option Allowlist) (print_allowlist : Allowlist -> string)
  (parse_state : string -> option GuardState) (print_state : GuardState -> string)
  (d : Integrity.Dir) (c : Config) (a : Allowlist) (s : GuardState) (now : Z) :
  Store.loadConfig hmac env parse_config (Store.saveState hmac env print_state d s) =
    Store.loadConfig hmac env parse_config d /\
  Store.loadAllowlist hmac env parse_allowlist (Store.saveState hmac env print_state d s) =
    Store.loadAllowlist hmac env parse_allowlist d /\
  Store.loadConfig hmac env parse_config (Store.saveAllowlist hmac env print_allowlist d a) =
    Store.loadConfig hmac env parse_config d /\
  Store.loadState hmac env parse_state (Store.saveAllowlist hmac env print_allowlist d a) now =
    Store.loadState hmac env parse_state d now /\
  Store.loadAllowlist hmac env parse_allowlist (Store.saveConfig hmac env print_config d c) =
    Store.loadAllowlist hmac env parse_allowlist d /\
  Store.loadState hmac env parse_state (Store.saveConfig hmac env print_config d c) now =
    Store.loadState hmac env parse_state d now.
Proof.
  unfold Store.saveState, Store.saveAllowlist, Store.saveConfig.
  repeat split;
    (apply loadConfig_depends || apply loadAllowlist_depends || apply loadState_depends);
    (apply saved_other_file || apply saved_other_verdict); discriminate.
Qed.

Section TamperedFiles.

Import Integrity.

Variable hmac : string -> string -> list N.
Hypothesis hmac_32 : Store.hmac_ok hmac.
Variable env : option string.

(** A saved text replaced by one with another HMAC no longer verifies. *)
Lemma verify_after_edit (d : Dir) (f secret content content' : string) :
  getSecret env = Some secret ->
  hmac secret content' <> hmac secret content ->
  verify hmac env
    (Store.writeFile (fst (sign hmac env (Store.writeFile d f content) f)) f content')
    f = false.
Proof.
  intros Hs Hne. apply verify_false_iff. exists secret, content'.
  split; [exact Hs |].
  rewrite (sign_result hmac env _ f secret content Hs) by (cbn; apply lookup_insert_eq).
  cbn [fst Store.writeFile files signatures loadSignatures].
  split; [apply lookup_insert_eq |].
  right. right. eexists. split; [apply lookup_insert_eq |].
  rewrite hex_decode_encode by apply hmac_32. congruence.
Qed.

Lemma signAll_files (d : Dir) : files (fst (Store.signAll hmac env d)) = files d.
Proof. rewrite signAll_unfold, !sign_files. reflexivity. Qed.

Lemma signAll_verify (d : Dir) (f : string) :
  In f TRACKED_FILES -> verify hmac env (fst (Store.signAll hmac env d)) f = true.
Proof.
  intros Hin. rewrite signAll_unfold.
  destruct Hin as [<- | [<- | [<- | []]]].
  - rewrite !(verify_after_other_sign hmac) by discriminate.
    apply (verify_after_sign hmac hmac_32).
  - rewrite !(verify_after_other_sign hmac) by discriminate.
    apply (verify_after_sign hmac hmac_32).
  - apply (verify_after_sign hmac hmac_32).
Qed.

(** With a secret set, a file that exists and has no signatures file
    beside it does not verify. *)
Lemma verify_unsigned (d : Dir) (f secret content : string) :
  getSecret env = Some secret ->
  signatures d = None ->
  files d !! f = Some content ->
  verify hmac env d f = false.
Proof.
  intros Hs Hsig Hf. unfold verify, loadSignatures.
  rewrite Hs, Hf, Hsig, lookup_empty. reflexivity.
Qed.

End TamperedFiles.

(** X6. An edit is refused, a deletion is not. With a secret set, once a
    tracked file has been saved, replacing its text by one with a different
    HMAC makes the next load throw the integrity error. Removing the file
    instead makes the next load return the defaults without any error: the
    default configuration, the empty allowlist, and for state.json the
    initial state, unfrozen, with a zero total and nothing pending. *)
Theorem edit_blocks_load_deletion_resets (hmac : string -> string -> list N)
  (env : option string) (secret : string)
  (parse_config : string -> option Store.ConfigPatch) (print_config : Config -> string)
  (parse_allowlist : string -> option Allowlist) (print_allowlist : Allowlist -> string)
  (parse_state : string -> option GuardState) (print_state : GuardState -> string)
  (d : Integrity.Dir) (c : Config) (a : Allowlist) (s : GuardState) (now : Z)
  (rc ra rs : string) :
  Store.hmac_ok hmac ->
  Integrity.getSecret env = Some secret ->
  hmac secret rc <> hmac secret (print_config c) ->
  hmac secret ra <> hmac secret (print_allowlist a) ->
  hmac secret rs <> hmac secret (print_state s) ->
  (Store.loadConfig hmac env parse_config
     (Store.writeFile (Store.saveConfig hmac env print_config d c) "config.json" rc) =
     Store.Err (Store.IntegrityFailed "config.json") /\
   Store.loadAllowlist hmac env parse_allowlist
     (Store.writeFile (Store.saveAllowlist hmac env print_allowlist d a) "allowlist.json" ra) =
     Store.Err (Store.IntegrityFailed "allowlist.json") /\
   Store.loadState hmac env parse_state
     (Store.writeFile (Store.saveState hmac env print_state d s) "state.json" rs) now =
     Store.Err (Store.IntegrityFailed "state.json")) /\
  (Store.loadConfig hmac env parse_config
     (Store.removeFile (Store.saveConfig hmac env print_config d c) "config.json") =
     Store.Ok DEFAULT_CONFIG /\
   Store.loadAllowlist hmac env parse_allowlist
     (Store.removeFile (Store.saveAllowlist hmac env print_allowlist d a) "allowlist.json") =
     Store.Ok [] /\
   Store.loadState hmac env parse_state
     (Store.removeFile (Store.saveState hmac env print_state d s) "state.json") now =
     Store.Ok {| frozen := false; frozenAt := None; frozenReason := None;
                 dailyTotal := 0; dailyDate := Iso.today now; lastTransaction := None;
                 pendingConfirmation := None; recentRequests := [] |}).
Proof.
  intros Hok Hs Hc Ha Hst. split.
  - unfold Store.loadConfig, Store.loadAllowlist, Store.loadState,
      Store.saveConfig, Store.saveAllowlist, Store.saveState.
    rewrite !(verify_after_edit hmac Hok env _ _ secret) by assumption.
    cbn [Store.writeFile Integrity.files]. rewrite !lookup_insert_eq. auto.
  - unfold Store.loadConfig, Store.loadAllowlist, Store.loadState, Store.removeFile.
    cbn [Integrity.files]. rewrite !lookup_delete_eq. auto.
Qed.

Lemma edit_blocks_load_deletion_resets_witness :
  let print_state := fun s : GuardState => pretty (dailyTotal s) in
  Store.loadState Integrity.example_hmac ExIntegrity.secret ExCodec.parse
    (Store.writeFile
       (Store.saveState Integrity.example_hmac ExIntegrity.secret print_state
          (Integrity.mkDir ∅ None) (Ex.state5 true))
       "state.json" "0") Ex.t0 =
    Store.Err (Store.IntegrityFailed "state.json") /\
  Store.loadState Integrity.example_hmac ExIntegrity.secret ExCodec.parse
    (Store.removeFile
       (Store.saveState Integrity.example_hmac ExIntegrity.secret print_state
          (Integrity.mkDir ∅ None) (Ex.state5 true))
       "state.json") Ex.t0 =
    Store.Ok {| frozen := false; frozenAt := None; frozenReason := None;
                dailyTotal := 0; dailyDate := Iso.today Ex.t0; lastTransaction := None;
                pendingConfirmation := None; recentRequests := [] |}.
Proof.
  intros print_state.
  pose proof (edit_blocks_load_deletion_resets Integrity.example_hmac
                ExIntegrity.secret "test-secret-key-123"
                ExCodec.parse_config (fun c : Config => pretty (version c))
                ExCodec.parse (fun a : Allowlist => pretty (length a))
                ExCodec.parse print_state (Integrity.mkDir ∅ None)
                DEFAULT_CONFIG [] (Ex.state5 true) Ex.t0 "2" "1" "0"
                example_hmac_ok eq_refl) as H.
  destruct H as [(_ & _ & He) (_ & _ & Hd)];
    [vm_compute; discriminate .. | split; [exact He | exact Hd]].
Defined.

(** X8. Turning the secret on over files written without one locks the
    guard out until they are signed: with a secret set and no signatures
    file, every load of an existing tracked file throws the integrity
    error; after [signAll] each load returns what it returned with no
    secret at all. *)
Theorem secret_on_unsigned_files_needs_signAll (hmac : string -> string -> list N)
  (env : option string) (secret : string)
  (parse_config : string -> option Store.ConfigPatch)
  (parse_allowlist : string -> option Allowlist)
  (parse_state : string -> option GuardState)
  (d : Integrity.Dir) (now : Z) (rc ra rs : string) :
  Store.hmac_ok hmac ->
  Integrity.getSecret env = Some secret ->
  Integrity.signatures d = None ->
  Integrity.files d !! "config.json" = Some rc ->
  Integrity.files d !! "allowlist.json" = Some ra ->
  Integrity.files d !! "state.json" = Some rs ->
  (Store.loadConfig hmac env parse_config d = Store.Err (Store.IntegrityFailed "config.json") /\
   Store.loadAllowlist hmac env parse_allowlist d =
     Store.Err (Store.IntegrityFailed "allowlist.json") /\
   Store.loadState hmac env parse_state d now =
     Store.Err (Store.IntegrityFailed "state.json")) /\
  (Store.loadConfig hmac env parse_config (fst (Store.signAll hmac env d)) =
     Store.loadConfig hmac None parse_config d /\
   Store.loadAllowlist hmac env parse_allowlist (fst (Store.signAll hmac env d)) =
     Store.loadAllowlist hmac None parse_allowlist d /\
   Store.loadState hmac env parse_state (fst (Store.signAll hmac env d)) now =
     Store.loadState hmac None parse_state d now).
Proof.
  intros Hok Hs Hsig Hc Ha Hst. split.
  - unfold Store.loadConfig, Store.loadAllowlist, Store.loadState.
    rewrite Hc, Ha, Hst.
    rewrite !(verify_unsigned hmac env d _ secret _ Hs Hsig) by eassumption.
    auto.
  - unfold Store.loadConfig, Store.loadAllowlist, Store.loadState.
    rewrite (signAll_files hmac env d).
    rewrite !(signAll_verify hmac Hok env d) by (cbn; tauto).
    rewrite !(verify_no_secret hmac None) by reflexivity.
    auto.
Qed.

Lemma secret_on_unsigned_files_needs_signAll_witness :
  let d := Integrity.mkDir
             (<["config.json" := ExCodec.print DEFAULT_CONFIG]>
                (<["allowlist.json" := ExCodec.print Ex.allow]>
                   {[ "state.json" := ExCodec.print (Ex.state5 false) ]})) None in
  (Store.loadConfig Integrity.example_hmac ExIntegrity.secret ExCodec.parse_config d =
     Store.Err (Store.IntegrityFailed "config.json") /\
   Store.loadAllowlist Integrity.example_hmac ExIntegrity.secret ExCodec.parse d =
     Store.Err (Store.IntegrityFailed "allowlist.json") /\
   Store.loadState Integrity.example_hmac ExIntegrity.secret ExCodec.parse d Ex.t0 =
     Store.Err (Store.IntegrityFailed "state.json")) /\
  (Store.loadConfig Integrity.example_hmac ExIntegrity.secret ExCodec.parse_config
     (fst (Store.signAll Integrity.example_hmac ExIntegrity.secret d)) =
     Store.loadConfig Integrity.example_hmac None ExCodec.parse_config d /\
   Store.loadAllowlist Integrity.example_hmac ExIntegrity.secret ExCodec.parse
     (fst (Store.signAll Integrity.example_hmac ExIntegrity.secret d)) =
     Store.loadAllowlist Integrity.example_hmac None ExCodec.parse d /\
   Store.loadState Integrity.example_hmac ExIntegrity.secret ExCodec.parse
     (fst (Store.signAll Integrity.example_hmac ExIntegrity.secret d)) Ex.t0 =
     Store.loadState Integrity.example_hmac None ExCodec.parse d Ex.t0).
Proof.
  intros d.
  apply (secret_on_unsigned_files_needs_signAll Integrity.example_hmac
           ExIntegrity.secret "test-secret-key-123" ExCodec.parse_config
           ExCodec.parse ExCodec.parse d Ex.t0
           (ExCodec.print DEFAULT_CONFIG) (ExCodec.print Ex.allow)
           (ExCodec.print (Ex.state5 false)));
    [apply example_hmac_ok | reflexivity ..].
Defined.

(** ** The allowlist ([allowlist.mjs]) *)

Lemma lower_char_idem (c : ascii) : Str.lower_char (Str.lower_char c) = Str.lower_char c.
Proof. destruct c as [[] [] [] [] [] [] [] []]; reflexivity. Qed.

Lemma toLowerCase_idem (s : string) :
  Str.toLowerCase (Str.toLowerCase s) = Str.toLowerCase s.
Proof.
  induction s as [| c s IH]; [reflexivity |].
  cbn [Str.toLowerCase]. rewrite lower_char_idem, IH. reflexivity.
Qed.

Lemma isAllowed_existsb (l : Allowlist) (addr : string) :
  Guard.isAllowed l addr = existsb (Store.sameAddress (Str.toLowerCase addr)) l.
Proof. reflexivity. Qed.

Lemma isAllowed_same_case (l : Allowlist) (addr addr' : string) :
  Str.toLowerCase addr' = Str.toLowerCase addr ->
  Guard.isAllowed l addr' = Guard.isAllowed l addr.
Proof. intros H. rewrite !isAllowed_existsb, H. reflexivity. Qed.

Lemma find_sameAddress (l : Allowlist) (addr : string) :
  match List.find (Store.sameAddress (Str.toLowerCase addr)) l with
  | Some _ => Guard.isAllowed l addr = true
  | None => Guard.isAllowed l addr = false
  end.
Proof.
  rewrite isAllowed_existsb.
  induction l as [| a l IH]; [reflexivity |].
  cbn [List.find existsb]. destruct (Store.sameAddress _ a); [reflexivity | exact IH].
Qed.

Lemma filter_length_all {A : Type} (f : A -> bool) (l : list A) :
  length (List.filter f l) = length l <-> forallb f l = true.
Proof.
  induction l as [| a l IH]; [cbn; tauto |].
  cbn [List.filter forallb]. pose proof (List.filter_length_le f l) as Hle.
  destruct (f a); cbn [length andb].
  - rewrite <- IH. lia.
  - split; [lia | discriminate].
Qed.

Lemma isAllowed_forallb (l : Allowlist) (addr : string) :
  Guard.isAllowed l addr =
  negb (forallb (fun a => negb (Store.sameAddress (Str.toLowerCase addr) a)) l).
Proof.
  rewrite isAllowed_existsb. induction l as [| a l IH]; [reflexivity |].
  cbn [existsb forallb]. rewrite IH. destruct (Store.sameAddress _ a); reflexivity.
Qed.

(** What is left after a removal holds no entry with the removed address,
    and keeps the verdict on every other address. *)
Lemma isAllowed_filter_same (l : Allowlist) (addr : string) :
  Guard.isAllowed
    (List.filter (fun a => negb (Store.sameAddress (Str.toLowerCase addr) a)) l) addr = false.
Proof.
  rewrite isAllowed_existsb. induction l as [| a l IH]; [reflexivity |].
  cbn [List.filter]. destruct (Store.sameAddress _ a) eqn:E; cbn [negb]; [exact IH |].
  cbn [existsb]. rewrite E, IH. reflexivity.
Qed.

Lemma isAllowed_filter_other (l : Allowlist) (addr addr2 : string) :
  Str.toLowerCase addr2 <> Str.toLowerCase addr ->
  Guard.isAllowed
    (List.filter (fun a => negb (Store.sameAddress (Str.toLowerCase addr) a)) l) addr2 =
  Guard.isAllowed l addr2.
Proof.
  intros Hne. rewrite !isAllowed_existsb. induction l as [| a l IH]; [reflexivity |].
  cbn [List.filter existsb].
  destruct (Store.sameAddress (Str.toLowerCase addr) a) eqn:E; cbn [negb].
  - rewrite IH. apply bool_decide_eq_true_1 in E.
    assert (Store.sameAddress (Str.toLowerCase addr2) a = false) as ->; [| reflexivity].
    apply bool_decide_eq_false_2. congruence.
  - cbn [existsb]. rewrite IH. reflexivity.
Qed.

Lemma isAllowed_app_new (l : Allowlist) (addr addr2 label_ : string) (now : Z) :
  Guard.isAllowed
    (l ++ [{| address := Str.toLowerCase addr; label := label_; addedAt := now |}])%list addr2 =
  Guard.isAllowed l addr2 ||
  bool_decide (Str.toLowerCase addr = Str.toLowerCase addr2).
Proof.
  rewrite !isAllowed_existsb, existsb_app. cbn [existsb]. unfold Store.sameAddress at 2.
  cbn [address]. rewrite toLowerCase_idem, orb_false_r. reflexivity.
Qed.

Lemma filter_app_new (l : Allowlist) (addr label_ : string) (now : Z) :
  Guard.isAllowed l addr = false ->
  List.filter (fun a => negb (Store.sameAddress (Str.toLowerCase addr) a))
    (l ++ [{| address := Str.toLowerCase addr; label := label_; addedAt := now |}])%list = l.
Proof.
  intros H. rewrite List.filter_app. cbn [List.filter]. unfold Store.sameAddress at 2.
  cbn [address]. rewrite toLowerCase_idem.
  rewrite bool_decide_eq_true_2 by reflexivity. cbn [negb].
  rewrite List.app_nil_r.
  rewrite isAllowed_forallb in H. apply negb_false_iff in H.
  rewrite forallb_forall in H.
  induction l as [| a l IH]; [reflexivity |].
  cbn [List.filter]. rewrite (H a (or_introl eq_refl)). f_equal.
  apply IH. intros x Hx. apply H. right. exact Hx.
Qed.

Lemma uniqueAddresses_filter (f : AllowEntry -> bool) (l : Allowlist) :
  uniqueAddresses l -> uniqueAddresses (List.filter f l).
Proof.
  unfold uniqueAddresses. induction l as [| a l IH]; [intros _; constructor |].
  cbn [map List.filter]. intros Hnd. apply NoDup_cons in Hnd as [Hnin Hnd].
  destruct (f a); [| apply IH; exact Hnd].
  cbn [map]. apply NoDup_cons. split; [| apply IH; exact Hnd].
  intros Hin. apply Hnin.
  apply list_elem_of_In in Hin. apply list_elem_of_In.
  apply in_map_iff in Hin as (x & Hx & Hxin). apply in_map_iff.
  exists x. split; [exact Hx |]. apply List.filter_In in Hxin as [Hxin _]. exact Hxin.
Qed.

Lemma uniqueAddresses_app_new (l : Allowlist) (addr label_ : string) (now : Z) :
  uniqueAddresses l ->
  Guard.isAllowed l addr = false ->
  uniqueAddresses
    (l ++ [{| address := Str.toLowerCase addr; label := label_; addedAt := now |}])%list.
Proof.
  unfold uniqueAddresses. intros Hnd H. rewrite map_app. cbn [map address].
  rewrite toLowerCase_idem. apply NoDup_app. split; [exact Hnd |]. split.
  - intros x Hx Hx'. apply list_elem_of_In in Hx. apply in_map_iff in Hx as (a & Ha & Hin).
    apply list_elem_of_In in Hx'. destruct Hx' as [<- | []].
    rewrite isAllowed_existsb in H.
    assert (existsb (Store.sameAddress (Str.toLowerCase addr)) l = true) as Ht.
    { apply existsb_exists. exists a. split; [exact Hin |].
      unfold Store.sameAddress. apply bool_decide_eq_true_2. congruence. }
    congruence.
  - apply NoDup_singleton.
Qed.

Section AllowlistFile.

Import Integrity.

Variable hmac : string -> string -> list N.
Variable env : option string.
Variable parse_allowlist : string -> option Allowlist.
Variable print_allowlist : Allowlist -> string.

#[local] Abbreviation load := (Store.loadAllowlist hmac env parse_allowlist).
#[local] Abbreviation save := (Store.saveAllowlist hmac env print_allowlist).
#[local] Abbreviation add := (Store.addAddress hmac env parse_allowlist print_allowlist).
#[local] Abbreviation remove := (Store.removeAddress hmac env parse_allowlist print_allowlist).
#[local] Abbreviation allowed := (Store.isAllowed hmac env parse_allowlist).

Lemma addAddress_loaded (d : Dir) (l : Allowlist) (now : Z) (addr label_ : string) :
  load d = Store.Ok l ->
  add d now addr label_ =
    if Guard.isAllowed l addr then Store.Ok (d, false)
    else Store.Ok
           (save d (l ++ [{| address := Str.toLowerCase addr; label := label_;
                             addedAt := now |}])%list, true).
Proof.
  intros Hl. unfold Store.addAddress. rewrite Hl. cbv zeta.
  pose proof (find_sameAddress l addr) as Hf.
  destruct (List.find _ l); rewrite Hf; reflexivity.
Qed.

Lemma removeAddress_loaded (d : Dir) (l : Allowlist) (addr : string) :
  load d = Store.Ok l ->
  remove d addr =
    if Guard.isAllowed l addr then
      Store.Ok
        (save d (List.filter
                   (fun a => negb (Store.sameAddress (Str.toLowerCase addr) a)) l), true)
    else Store.Ok (d, false).
Proof.
  intros Hl. unfold Store.removeAddress. rewrite Hl. cbv zeta.
  rewrite isAllowed_forallb. case_bool_decide as E.
  - apply filter_length_all in E. rewrite E. reflexivity.
  - destruct (forallb _ l) eqn:F; [| reflexivity].
    apply filter_length_all in F. contradiction.
Qed.

Lemma isAllowed_loaded (d : Dir) (l : Allowlist) (addr : string) :
  load d = Store.Ok l -> allowed d addr = Store.Ok (Guard.isAllowed l addr).
Proof. intros Hl. unfold Store.isAllowed. rewrite Hl. reflexivity. Qed.

Lemma addAddress_ok_loaded (d d' : Dir) (b : bool) (now : Z) (addr label_ : string) :
  add d now addr label_ = Store.Ok (d', b) -> exists l, load d = Store.Ok l.
Proof.
  unfold Store.addAddress. destruct (load d) as [l | e]; [eauto | discriminate].
Qed.

Lemma removeAddress_ok_loaded (d d' : Dir) (b : bool) (addr : string) :
  remove d addr = Store.Ok (d', b) -> exists l, load d = Store.Ok l.
Proof.
  unfold Store.removeAddress. destruct (load d) as [l | e]; [eauto | discriminate].
Qed.

Hypothesis hmac_32 : Store.hmac_ok hmac.
Hypothesis codec : forall a, parse_allowlist (print_allowlist a) = Some a.

Lemma load_save (d : Dir) (l : Allowlist) : load (save d l) = Store.Ok l.
Proof. apply loadAllowlist_saveAllowlist; [exact hmac_32 | apply codec]. Qed.

(** The list each operation leaves behind. *)
Lemma addAddress_list (d d' : Dir) (l : Allowlist) (b : bool) (now : Z)
  (addr label_ : string) :
  load d = Store.Ok l ->
  add d now addr label_ = Store.Ok (d', b) ->
  b = negb (Guard.isAllowed l addr) /\
  (b = false -> d' = d) /\
  load d' = Store.Ok
    (if b then (l ++ [{| address := Str.toLowerCase addr; label := label_;
                         addedAt := now |}])%list
     else l).
Proof.
  intros Hl. rewrite (addAddress_loaded d l now addr label_ Hl).
  destruct (Guard.isAllowed l addr); intros [= <- <-].
  - split; [reflexivity |]. split; [reflexivity | exact Hl].
  - split; [reflexivity |]. split; [discriminate | apply load_save].
Qed.

Lemma removeAddress_list (d d' : Dir) (l : Allowlist) (b : bool) (addr : string) :
  load d = Store.Ok l ->
  remove d addr = Store.Ok (d', b) ->
  b = Guard.isAllowed l addr /\
  (b = false -> d' = d) /\
  load d' = Store.Ok
    (List.filter (fun a => negb (Store.sameAddress (Str.toLowerCase addr) a)) l).
Proof.
  intros Hl. rewrite (removeAddress_loaded d l addr Hl).
  destruct (Guard.isAllowed l addr) eqn:E; intros [= <- <-].
  - split; [reflexivity |]. split; [discriminate | apply load_save].
  - split; [reflexivity |]. split; [reflexivity |]. rewrite Hl. f_equal.
    rewrite isAllowed_forallb in E. apply negb_false_iff in E.
    apply filter_length_all in E.
    clear Hl. induction l as [| a l IH]; [reflexivity |].
    cbn [List.filter] in E |- *. pose proof (List.filter_length_le
      (fun a0 => negb (Store.sameAddress (Str.toLowerCase addr) a0)) l) as Hle.
    destruct (negb (Store.sameAddress (Str.toLowerCase addr) a)); cbn [length] in E.
    + f_equal. apply IH. lia.
    + lia.
Qed.

End AllowlistFile.

(** X9. After [addAddress] the address is on the allowlist in every
    spelling of its letters, and the boolean returned tells whether it was
    new: [true] when it was not listed before, [false] when it was, in which
    case nothing is written. *)
Theorem addAddress_makes_allowed (hmac : string -> string -> list N)
  (env : option string) (parse_allowlist : string -> option Allowlist)
  (print_allowlist : Allowlist -> string)
  (d d' : Integrity.Dir) (b : bool) (now : Z) (addr label_ addr' : string) :
  Store.hmac_ok hmac ->
  (forall a, parse_allowlist (print_allowlist a) = Some a) ->
  Store.addAddress hmac env parse_allowlist print_allowlist d now addr label_ =
    Store.Ok (d', b) ->
  Str.toLowerCase addr' = Str.toLowerCase addr ->
  Store.isAllowed hmac env parse_allowlist d' addr' = Store.Ok true /\
  Store.isAllowed hmac env parse_allowlist d addr = Store.Ok (negb b) /\
  (b = false -> d' = d).
Proof.
  intros Hok Hcodec Hadd Hcase.
  destruct (addAddress_ok_loaded _ _ _ _ _ _ _ _ _ _ Hadd) as (l & Hl).
  destruct (addAddress_list hmac env parse_allowlist print_allowlist Hok Hcodec
              d d' l b now addr label_ Hl Hadd) as (Hb & Hsame & Hl').
  rewrite (isAllowed_loaded _ _ _ _ _ _ Hl'), (isAllowed_loaded _ _ _ _ _ _ Hl).
  rewrite (isAllowed_same_case _ addr addr' Hcase).
  split; [| split; [| exact Hsame]].
  - destruct b.
    + rewrite isAllowed_app_new. rewrite bool_decide_eq_true_2 by reflexivity.
      rewrite orb_true_r. reflexivity.
    + f_equal. destruct (Guard.isAllowed l addr); [reflexivity | discriminate].
  - rewrite Hb, negb_involutive. reflexivity.
Qed.

Lemma addAddress_makes_allowed_witness :
  Store.isAllowed Integrity.example_hmac ExIntegrity.secret ExCodec.parse
    (Store.saveAllowlist Integrity.example_hmac ExIntegrity.secret ExCodec.print
       (Integrity.mkDir ∅ None)
       [{| address := "0xabcd"; label := "Test"; addedAt := Ex.t0 |}])
    "0xaBcD" = Store.Ok true /\
  Store.isAllowed Integrity.example_hmac ExIntegrity.secret ExCodec.parse
    (Integrity.mkDir ∅ None) "0xABCD" = Store.Ok (negb true) /\
  (true = false ->
   Store.saveAllowlist Integrity.example_hmac ExIntegrity.secret ExCodec.print
     (Integrity.mkDir ∅ None)
     [{| address := "0xabcd"; label := "Test"; addedAt := Ex.t0 |}] =
   Integrity.mkDir ∅ None).
Proof.
  apply (addAddress_makes_allowed Integrity.example_hmac ExIntegrity.secret
           ExCodec.parse ExCodec.print (Integrity.mkDir ∅ None) _ true Ex.t0
           "0xABCD" "Test" "0xaBcD").
  - apply example_hmac_ok.
  - intros a. apply excodec_roundtrip.
  - reflexivity.
  - reflexivity.
Defined.

(** X10. After [removeAddress] the address is off the allowlist in every
    spelling of its letters, and the boolean returned tells whether it was
    listed before; when it was not, nothing is written. *)
Theorem removeAddress_makes_not_allowed (hmac : string -> string -> list N)
  (env : option string) (parse_allowlist : string -> option Allowlist)
  (print_allowlist : Allowlist -> string)
  (d d' : Integrity.Dir) (b : bool) (addr addr' : string) :
  Store.hmac_ok hmac ->
  (forall a, parse_allowlist (print_allowlist a) = Some a) ->
  Store.removeAddress hmac env parse_allowlist print_allowlist d addr = Store.Ok (d', b) ->
  Str.toLowerCase addr' = Str.toLowerCase addr ->
  Store.isAllowed hmac env parse_allowlist d' addr' = Store.Ok false /\
  Store.isAllowed hmac env parse_allowlist d addr = Store.Ok b /\
  (b = false -> d' = d).
Proof.
  intros Hok Hcodec Hrem Hcase.
  destruct (removeAddress_ok_loaded _ _ _ _ _ _ _ _ Hrem) as (l & Hl).
  destruct (removeAddress_list hmac env parse_allowlist print_allowlist Hok Hcodec
              d d' l b addr Hl Hrem) as (Hb & Hsame & Hl').
  rewrite (isAllowed_loaded _ _ _ _ _ _ Hl'), (isAllowed_loaded _ _ _ _ _ _ Hl).
  rewrite (isAllowed_same_case _ addr addr' Hcase), isAllowed_filter_same.
  split; [reflexivity |]. split; [congruence | exact Hsame].
Qed.

Lemma removeAddress_makes_not_allowed_witness :
  let d := Store.saveAllowlist Integrity.example_hmac ExIntegrity.secret ExCodec.print
             (Integrity.mkDir ∅ None)
             [{| address := "0xabcd"; label := "Test"; addedAt := Ex.t0 |}] in
  let d' := Store.saveAllowlist Integrity.example_hmac ExIntegrity.secret ExCodec.print
              d [] in
  Store.isAllowed Integrity.example_hmac ExIntegrity.secret ExCodec.parse d' "0xabcd" =
    Store.Ok false /\
  Store.isAllowed Integrity.example_hmac ExIntegrity.secret ExCodec.parse d "0xABCD" =
    Store.Ok true /\
  (true = false -> d' = d).
Proof.
  intros d d'.
  apply (removeAddress_makes_not_allowed Integrity.example_hmac ExIntegrity.secret
           ExCodec.parse ExCodec.print d d' true "0xABCD" "0xabcd").
  - apply example_hmac_ok.
  - intros a. apply excodec_roundtrip.
  - unfold d'. rewrite (removeAddress_loaded _ _ _ _ d _ "0xABCD"
                          (load_save _ _ _ _ example_hmac_ok
                             (fun a => excodec_roundtrip a) _ _)).
    reflexivity.
  - reflexivity.
Defined.

(** X11. Adding or removing one address changes the verdict on no other:
    for an address that differs from it beyond letter case, [isAllowed]
    answers after the operation what it answered before. *)
Theorem allowlist_change_keeps_other_addresses (hmac : string -> string -> list N)
  (env : option string) (parse_allowlist : string -> option Allowlist)
  (print_allowlist : Allowlist -> string)
  (d d' : Integrity.Dir) (b : bool) (now : Z) (addr label_ addr2 : string) :
  Store.hmac_ok hmac ->
  (forall a, parse_allowlist (print_allowlist a) = Some a) ->
  Store.addAddress hmac env parse_allowlist print_allowlist d now addr label_ =
    Store.Ok (d', b) \/
  Store.removeAddress hmac env parse_allowlist print_allowlist d addr = Store.Ok (d', b) ->
  Str.toLowerCase addr2 <> Str.toLowerCase addr ->
  Store.isAllowed hmac env parse_allowlist d' addr2 =
  Store.isAllowed hmac env parse_allowlist d addr2.
Proof.
  intros Hok Hcodec [Hadd | Hrem] Hne.
  - destruct (addAddress_ok_loaded _ _ _ _ _ _ _ _ _ _ Hadd) as (l & Hl).
    destruct (addAddress_list hmac env parse_allowlist print_allowlist Hok Hcodec
                d d' l b now addr label_ Hl Hadd) as (_ & _ & Hl').
    rewrite (isAllowed_loaded _ _ _ _ _ _ Hl'), (isAllowed_loaded _ _ _ _ _ _ Hl).
    destruct b; [| reflexivity].
    rewrite isAllowed_app_new. rewrite bool_decide_eq_false_2 by congruence.
    rewrite orb_false_r. reflexivity.
  - destruct (removeAddress_ok_loaded _ _ _ _ _ _ _ _ Hrem) as (l & Hl).
    destruct (removeAddress_list hmac env parse_allowlist print_allowlist Hok Hcodec
                d d' l b addr Hl Hrem) as (_ & _ & Hl').
    rewrite (isAllowed_loaded _ _ _ _ _ _ Hl'), (isAllowed_loaded _ _ _ _ _ _ Hl).
    rewrite isAllowed_filter_other by exact Hne. reflexivity.
Qed.

Lemma allowlist_change_keeps_other_addresses_witness :
  Store.isAllowed Integrity.example_hmac ExIntegrity.secret ExCodec.parse
    (Store.saveAllowlist Integrity.example_hmac ExIntegrity.secret ExCodec.print
       (Integrity.mkDir ∅ None)
       [{| address := "0xabcd"; label := "Test"; addedAt := Ex.t0 |}])
    "0xdead" =
  Store.isAllowed Integrity.example_hmac ExIntegrity.secret ExCodec.parse
    (Integrity.mkDir ∅ None) "0xdead".
Proof.
  apply (allowlist_change_keeps_other_addresses Integrity.example_hmac
           ExIntegrity.secret ExCodec.parse ExCodec.print (Integrity.mkDir ∅ None) _
           true Ex.t0 "0xABCD" "Test" "0xdead").
  - apply example_hmac_ok.
  - intros a. apply excodec_roundtrip.
  - left. reflexivity.
  - discriminate.
Defined.

(** X12. The allowlist stays free of duplicates: if no two entries share an
    address up to letter case before [addAddress] or [removeAddress], none
    do after it. *)
Theorem allowlist_stays_unique (hmac : string -> string -> list N)
  (env : option string) (parse_allowlist : string -> option Allowlist)
  (print_allowlist : Allowlist -> string)
  (d d' : Integrity.Dir) (l : Allowlist) (b : bool) (now : Z) (addr label_ : string) :
  Store.hmac_ok hmac ->
  (forall a, parse_allowlist (print_allowlist a) = Some a) ->
  Store.loadAllowlist hmac env parse_allowlist d = Store.Ok l ->
  uniqueAddresses l ->
  Store.addAddress hmac env parse_allowlist print_allowlist d now addr label_ =
    Store.Ok (d', b) \/
  Store.removeAddress hmac env parse_allowlist print_allowlist d addr = Store.Ok (d', b) ->
  exists l', Store.loadAllowlist hmac env parse_allowlist d' = Store.Ok l' /\
             uniqueAddresses l'.
Proof.
  intros Hok Hcodec Hl Hu [Hadd | Hrem].
  - destruct (addAddress_list hmac env parse_allowlist print_allowlist Hok Hcodec
                d d' l b now addr label_ Hl Hadd) as (Hb & _ & Hl').
    eexists. split; [exact Hl' |]. destruct b; [| exact Hu].
    apply uniqueAddresses_app_new; [exact Hu |].
    destruct (Guard.isAllowed l addr); [discriminate | reflexivity].
  - destruct (removeAddress_list hmac env parse_allowlist print_allowlist Hok Hcodec
                d d' l b addr Hl Hrem) as (_ & _ & Hl').
    eexists. split; [exact Hl' |]. apply uniqueAddresses_filter. exact Hu.
Qed.

Lemma allowlist_stays_unique_witness :
  let d := Store.saveAllowlist Integrity.example_hmac ExIntegrity.secret ExCodec.print
             (Integrity.mkDir ∅ None) Ex.allow2 in
  let load := Store.loadAllowlist Integrity.example_hmac ExIntegrity.secret
                ExCodec.parse in
  let save := Store.saveAllowlist Integrity.example_hmac ExIntegrity.secret
                ExCodec.print in
  (* an address already listed, spelled in capitals: nothing is added *)
  (exists l', load d = Store.Ok l' /\ uniqueAddresses l') /\
  (* a new address: appended in lower case *)
  (exists l',
      load (save d (Ex.allow2 ++ [mkAllowEntry "0xdead" "New" Ex.t0])%list) =
        Store.Ok l' /\
      uniqueAddresses l') /\
  (* a listed address removed, spelled in capitals *)
  (exists l', load (save d [mkAllowEntry "0xabcd" "Test" 0]) = Store.Ok l' /\
              uniqueAddresses l').
Proof.
  intros d load save.
  assert (Hl : load d = Store.Ok Ex.allow2)
    by apply (load_save _ _ _ _ example_hmac_ok (fun a => excodec_roundtrip a)).
  assert (Hu : uniqueAddresses Ex.allow2)
    by (apply (bool_decide_unpack _); vm_compute; reflexivity).
  split; [| split].
  - apply (allowlist_stays_unique Integrity.example_hmac ExIntegrity.secret
             ExCodec.parse ExCodec.print d d Ex.allow2 false Ex.t0 "0xABCD" "Again").
    + apply example_hmac_ok.
    + intros a. apply excodec_roundtrip.
    + exact Hl.
    + exact Hu.
    + left. rewrite (addAddress_loaded _ _ _ _ d _ Ex.t0 "0xABCD" "Again" Hl).
      reflexivity.
  - apply (allowlist_stays_unique Integrity.example_hmac ExIntegrity.secret
             ExCodec.parse ExCodec.print d _ Ex.allow2 true Ex.t0 "0xDEAD" "New").
    + apply example_hmac_ok.
    + intros a. apply excodec_roundtrip.
    + exact Hl.
    + exact Hu.
    + left. rewrite (addAddress_loaded _ _ _ _ d _ Ex.t0 "0xDEAD" "New" Hl).
      reflexivity.
  - apply (allowlist_stays_unique Integrity.example_hmac ExIntegrity.secret
             ExCodec.parse ExCodec.print d _ Ex.allow2 true Ex.t0 "0xBEEF" "").
    + apply example_hmac_ok.
    + intros a. apply excodec_roundtrip.
    + exact Hl.
    + exact Hu.
    + right. rewrite (removeAddress_loaded _ _ _ _ d _ "0xBEEF" Hl).
      reflexivity.
Defined.

(** X13. Adding an address that was not listed and then removing it gives
    back the allowlist as it was, entry for entry. *)
Theorem add_then_remove_restores (hmac : string -> string -> list N)
  (env : option string) (parse_allowlist : string -> option Allowlist)
  (print_allowlist : Allowlist -> string)
  (d d1 d2 : Integrity.Dir) (l : Allowlist) (b1 b2 : bool) (now : Z)
  (addr label_ addr' : string) :
  Store.hmac_ok hmac ->
  (forall a, parse_allowlist (print_allowlist a) = Some a) ->
  Store.loadAllowlist hmac env parse_allowlist d = Store.Ok l ->
  Guard.isAllowed l addr = false ->
  Str.toLowerCase addr' = Str.toLowerCase addr ->
  Store.addAddress hmac env parse_allowlist print_allowlist d now addr label_ =
    Store.Ok (d1, b1) ->
  Store.removeAddress hmac env parse_allowlist print_allowlist d1 addr' =
    Store.Ok (d2, b2) ->
  b1 = true /\ b2 = true /\
  Store.loadAllowlist hmac env parse_allowlist d2 = Store.Ok l.
Proof.
  intros Hok Hcodec Hl Hnot Hcase Hadd Hrem.
  destruct (addAddress_list hmac env parse_allowlist print_allowlist Hok Hcodec
              d d1 l b1 now addr label_ Hl Hadd) as (Hb1 & _ & Hl1).
  rewrite Hnot in Hb1. cbn in Hb1. subst b1.
  destruct (removeAddress_list hmac env parse_allowlist print_allowlist Hok Hcodec
              d1 d2 _ b2 addr' Hl1 Hrem) as (Hb2 & _ & Hl2).
  split; [reflexivity |]. split.
  - rewrite Hb2, (isAllowed_same_case _ addr addr' Hcase), isAllowed_app_new.
    rewrite bool_decide_eq_true_2 by reflexivity. apply orb_true_r.
  - rewrite Hl2, Hcase. f_equal. apply filter_app_new. exact Hnot.
Qed.

Lemma add_then_remove_restores_witness :
  let load := Store.loadAllowlist Integrity.example_hmac ExIntegrity.secret
                ExCodec.parse in
  let save := Store.saveAllowlist Integrity.example_hmac ExIntegrity.secret
                ExCodec.print in
  let d := save (Integrity.mkDir ∅ None) Ex.allow2 in
  let d1 := save d (Ex.allow2 ++ [mkAllowEntry "0xdead" "New" Ex.t0])%list in
  let d2 := save d1 Ex.allow2 in
  Store.addAddress Integrity.example_hmac ExIntegrity.secret ExCodec.parse
    ExCodec.print d Ex.t0 "0xDEAD" "New" = Store.Ok (d1, true) /\
  Store.removeAddress Integrity.example_hmac ExIntegrity.secret ExCodec.parse
    ExCodec.print d1 "0xdEaD" = Store.Ok (d2, true) /\
  load d1 =
    Store.Ok [mkAllowEntry "0xabcd" "Test" 0; mkAllowEntry "0xbeef" "Cold" 0;
              mkAllowEntry "0xdead" "New" Ex.t0] /\
  (true = true /\ true = true /\
   load d2 = Store.Ok [mkAllowEntry "0xabcd" "Test" 0; mkAllowEntry "0xbeef" "Cold" 0]).
Proof.
  intros load save d d1 d2.
  assert (Hl : load d = Store.Ok Ex.allow2)
    by apply (load_save _ _ _ _ example_hmac_ok (fun a => excodec_roundtrip a)).
  assert (Hl1 : load d1 =
                Store.Ok (Ex.allow2 ++ [mkAllowEntry "0xdead" "New" Ex.t0])%list)
    by apply (load_save _ _ _ _ example_hmac_ok (fun a => excodec_roundtrip a)).
  assert (Hadd : Store.addAddress Integrity.example_hmac ExIntegrity.secret
                   ExCodec.parse ExCodec.print d Ex.t0 "0xDEAD" "New" =
                 Store.Ok (d1, true)).
  { rewrite (addAddress_loaded _ _ _ _ d _ Ex.t0 "0xDEAD" "New" Hl). reflexivity. }
  assert (Hrem : Store.removeAddress Integrity.example_hmac ExIntegrity.secret
                   ExCodec.parse ExCodec.print d1 "0xdEaD" = Store.Ok (d2, true)).
  { rewrite (removeAddress_loaded _ _ _ _ d1 _ "0xdEaD" Hl1). reflexivity. }
  split; [exact Hadd |]. split; [exact Hrem |]. split; [exact Hl1 |].
  apply (add_then_remove_restores Integrity.example_hmac ExIntegrity.secret
           ExCodec.parse ExCodec.print d d1 d2 Ex.allow2 true true
           Ex.t0 "0xDEAD" "New" "0xdEaD").
  - apply example_hmac_ok.
  - intros a. apply excodec_roundtrip.
  - exact Hl.
  - reflexivity.
  - reflexivity.
  - exact Hadd.
  - exact Hrem.
Defined.

(** X14. A tampered allowlist answers nothing: with a secret set, once
    allowlist.json has been edited behind the guard's back, [isAllowed],
    [addAddress], [removeAddress] and [listAddresses] all throw the
    integrity error, and none of them writes. *)
Theorem tampered_allowlist_fails_closed (hmac : string -> string -> list N)
  (env : option string) (secret : string)
  (parse_allowlist : string -> option Allowlist)
  (print_allowlist : Allowlist -> string)
  (d : Integrity.Dir) (a : Allowlist) (raw : string) (now : Z)
  (addr label_ : string) :
  Store.hmac_ok hmac ->
  Integrity.getSecret env = Some secret ->
  hmac secret raw <> hmac secret (print_allowlist a) ->
  let d' := Store.writeFile (Store.saveAllowlist hmac env print_allowlist d a)
              "allowlist.json" raw in
  Store.isAllowed hmac env parse_allowlist d' addr =
    Store.Err (Store.IntegrityFailed "allowlist.json") /\
  Store.addAddress hmac env parse_allowlist print_allowlist d' now addr label_ =
    Store.Err (Store.IntegrityFailed "allowlist.json") /\
  Store.removeAddress hmac env parse_allowlist print_allowlist d' addr =
    Store.Err (Store.IntegrityFailed "allowlist.json") /\
  Store.listAddresses hmac env parse_allowlist d' =
    Store.Err (Store.IntegrityFailed "allowlist.json").
Proof.
  intros Hok Hs Hne d'.
  assert (Hl : Store.loadAllowlist hmac env parse_allowlist d' =
               Store.Err (Store.IntegrityFailed "allowlist.json")).
  { unfold d', Store.loadAllowlist, Store.saveAllowlist.
    rewrite (verify_after_edit hmac Hok env _ _ secret) by assumption.
    cbn [Store.writeFile Integrity.files]. rewrite lookup_insert_eq. reflexivity. }
  unfold Store.isAllowed, Store.addAddress, Store.removeAddress, Store.listAddresses.
  rewrite Hl. auto.
Qed.

Lemma tampered_allowlist_fails_closed_witness :
  let print_allowlist := fun a : Allowlist => pretty (length a) in
  let d' := Store.writeFile
              (Store.saveAllowlist Integrity.example_hmac ExIntegrity.secret
                 print_allowlist (Integrity.mkDir ∅ None) [])
              "allowlist.json" "1" in
  Store.isAllowed Integrity.example_hmac ExIntegrity.secret ExCodec.parse d' "0xdead" =
    Store.Err (Store.IntegrityFailed "allowlist.json") /\
  Store.addAddress Integrity.example_hmac ExIntegrity.secret ExCodec.parse
    print_allowlist d' Ex.t0 "0xdead" "Mallory" =
    Store.Err (Store.IntegrityFailed "allowlist.json") /\
  Store.removeAddress Integrity.example_hmac ExIntegrity.secret ExCodec.parse
    print_allowlist d' "0xdead" =
    Store.Err (Store.IntegrityFailed "allowlist.json") /\
  Store.listAddresses Integrity.example_hmac ExIntegrity.secret ExCodec.parse d' =
    Store.Err (Store.IntegrityFailed "allowlist.json").
Proof.
  intros print_allowlist.
  apply (tampered_allowlist_fails_closed Integrity.example_hmac ExIntegrity.secret
           "test-secret-key-123" ExCodec.parse print_allowlist
           (Integrity.mkDir ∅ None) [] "1" Ex.t0 "0xdead" "Mallory").
  - apply example_hmac_ok.
  - reflexivity.
  - vm_compute. discriminate.
Defined.

(** ** The configuration file ([config.mjs]) *)

(** X15. [initConfig] writes the defaults once and never overwrites: in a
    directory without config.json it saves the default configuration, which
    the next [loadConfig] returns, and a second [initConfig] leaves that
    directory as it is; in a directory that has a config.json it returns
    what [loadConfig] returns and writes nothing. *)
Theorem initConfig_writes_defaults_once (hmac : string -> string -> list N)
  (env : option string)
  (parse_config : string -> option Store.ConfigPatch) (print_config : Config -> string)
  (d : Integrity.Dir) :
  Store.hmac_ok hmac ->
  parse_config (print_config DEFAULT_CONFIG) = Some (Store.full_patch DEFAULT_CONFIG) ->
  (Integrity.files d !! "config.json" = None ->
   exists d1,
     Store.initConfig hmac env parse_config print_config d = Store.Ok (d1, DEFAULT_CONFIG) /\
     Store.loadConfig hmac env parse_config d1 = Store.Ok DEFAULT_CONFIG /\
     Store.initConfig hmac env parse_config print_config d1 = Store.Ok (d1, DEFAULT_CONFIG)) /\
  (forall d' c,
     Integrity.files d !! "config.json" <> None ->
     Store.initConfig hmac env parse_config print_config d = Store.Ok (d', c) ->
     d' = d /\ Store.loadConfig hmac env parse_config d = Store.Ok c).
Proof.
  intros Hok Hcodec. split.
  - intros Hnone. exists (Store.saveConfig hmac env print_config d DEFAULT_CONFIG).
    assert (Hload : Store.loadConfig hmac env parse_config
                      (Store.saveConfig hmac env print_config d DEFAULT_CONFIG) =
                    Store.Ok DEFAULT_CONFIG)
      by (apply loadConfig_saveConfig; assumption).
    split; [unfold Store.initConfig; rewrite Hnone; reflexivity |].
    split; [exact Hload |].
    unfold Store.initConfig. rewrite Hload.
    unfold Store.saveConfig. rewrite saved_file. reflexivity.
  - intros d' c Hsome. unfold Store.initConfig.
    destruct (Integrity.files d !! "config.json"); [| congruence].
    destruct (Store.loadConfig hmac env parse_config d); [| discriminate].
    intros [= <- <-]. auto.
Qed.

Lemma initConfig_writes_defaults_once_witness :
  (Integrity.files (Integrity.mkDir ∅ None) !! "config.json" = None ->
   exists d1,
     Store.initConfig Integrity.example_hmac ExIntegrity.secret ExCodec.parse_config
       ExCodec.print (Integrity.mkDir ∅ None) = Store.Ok (d1, DEFAULT_CONFIG) /\
     Store.loadConfig Integrity.example_hmac ExIntegrity.secret ExCodec.parse_config d1 =
       Store.Ok DEFAULT_CONFIG /\
     Store.initConfig Integrity.example_hmac ExIntegrity.secret ExCodec.parse_config
       ExCodec.print d1 = Store.Ok (d1, DEFAULT_CONFIG)) /\
  (forall d' c,
     Integrity.files (Integrity.mkDir ∅ None) !! "config.json" <> None ->
     Store.initConfig Integrity.example_hmac ExIntegrity.secret ExCodec.parse_config
       ExCodec.print (Integrity.mkDir ∅ None) = Store.Ok (d', c) ->
     d' = Integrity.mkDir ∅ None /\
     Store.loadConfig Integrity.example_hmac ExIntegrity.secret ExCodec.parse_config
       (Integrity.mkDir ∅ None) = Store.Ok c).
Proof.
  apply (initConfig_writes_defaults_once Integrity.example_hmac ExIntegrity.secret
           ExCodec.parse_config ExCodec.print (Integrity.mkDir ∅ None)).
  - apply example_hmac_ok.
  - apply excodec_config_roundtrip.
Defined.

(** ** state.json and the engine's view of it ([guard.mjs]) *)

(** The state the engine works on is the decoded state.json: whenever
    the file-level [loadState] returns, it returns what the engine reads
    from a world whose persisted state is the decoded file (the default
    state when the file is absent); and after the file-level [saveState]
    the decoded file is the state saved and the next load returns it. *)
Theorem loadState_agrees_with_world (hmac : string -> string -> list N)
  (env : option string)
  (parse_state : string -> option GuardState) (print_state : GuardState -> string)
  (d : Integrity.Dir) (now : Z) (lg : list string) :
  (forall s,
     Store.loadState hmac env parse_state d now = Store.Ok s ->
     s = Guard.loadState (mkWorld (Store.persistedState parse_state d) lg) now) /\
  (forall s,
     Store.hmac_ok hmac ->
     parse_state (print_state s) = Some s ->
     Store.persistedState parse_state (Store.saveState hmac env print_state d s) =
       persisted (Guard.saveState (mkWorld (Store.persistedState parse_state d) lg) s) /\
     Store.loadState hmac env parse_state (Store.saveState hmac env print_state d s) now =
       Store.Ok s).
Proof.
  split.
  - intros s. unfold Store.loadState, Store.persistedState, Guard.loadState.
    cbn [persisted].
    destruct (Integrity.files d !! "state.json") as [raw |]; [| congruence].
    destruct (negb _); [discriminate |].
    destruct (parse_state raw); [congruence | discriminate].
  - intros s Hok Hcodec. split.
    + unfold Store.persistedState, Store.saveState. rewrite saved_file.
      cbn [Guard.saveState persisted]. exact Hcodec.
    + apply loadState_saveState; assumption.
Qed.

(** ** The engine: how requests, confirmations and the kill switch compose
       ([guard.mjs]) *)

Lemma rollover_lastTransaction (now : Z) (s : GuardState) :
  lastTransaction (rollover now s) = lastTransaction s.
Proof. unfold rollover. case_bool_decide; reflexivity. Qed.

Lemma rollover_recentRequests (now : Z) (s : GuardState) :
  recentRequests (rollover now s) = recentRequests s.
Proof. unfold rollover. case_bool_decide; reflexivity. Qed.

(** The state a granted request leaves behind. *)
Lemma requestSend_granted (config : Config) (allowlist : Allowlist) (now r : Z)
  (w : World) (req : Request) (amt : Z) (tok addr c : string) (e : Z) :
  snd (requestSend config allowlist now r w req) = NeedsConfirmation amt tok addr c e ->
  let st := rollover now (loadState w now) in
  persisted (fst (requestSend config allowlist now r w req)) =
    Some (mkGuardState false (frozenAt st) (frozenReason st) (dailyTotal st)
            (dailyDate st) (lastTransaction st)
            (Some {| code := c; to := req_to req; amount := req_amount req;
                     token := default "USDC" (req_token req);
                     sender := req_sender req; attempts := 0; createdAt := now;
                     expiresAt := now + codeExpiry (confirmation config) * 1000 |})
            (pruneRecent config now (recentRequests st) ++ [now])%list) /\
  cooldownWait config st now = None /\
  dailyTotal st + req_amount req <= dailyMax (limits config) /\
  req_amount req <= perTransaction (limits config).
Proof.
  unfold requestSend. cbv zeta.
  destruct (frozen _) eqn:Hf; [discriminate |].
  destruct (senderRejected _ _); [discriminate |].
  destruct (negb _); [discriminate |].
  destruct (Z.ltb_spec (perTransaction (limits config)) (req_amount req));
    [discriminate |].
  destruct (Z.ltb_spec (dailyMax (limits config))
              (dailyTotal (rollover now (loadState w now)) + req_amount req));
    [discriminate |].
  destruct (cooldownWait _ _ _); [discriminate |].
  destruct (_ <=? _); [discriminate |].
  cbn [fst snd logTransaction saveState persisted]. intros [= _ _ _ <- _].
  unfold set_pendingConfirmation, set_recentRequests.
  cbn [frozen frozenAt frozenReason dailyTotal dailyDate lastTransaction
       pendingConfirmation recentRequests].
  rewrite Hf. auto.
Qed.

(** A rejection by policy writes nothing to the state. *)
Lemma requestSend_rejected_persisted (config : Config) (allowlist : Allowlist)
  (now r : Z) (w : World) (req : Request) (reason : Reason) :
  snd (requestSend config allowlist now r w req) = Rejected reason ->
  reason <> AutoFrozen ->
  persisted (fst (requestSend config allowlist now r w req)) = persisted w.
Proof.
  unfold requestSend. cbv zeta.
  destruct (frozen _); [reflexivity |].
  destruct (senderRejected _ _); [reflexivity |].
  destruct (negb _); [reflexivity |].
  destruct (_ <? _); [reflexivity |].
  destruct (_ <? _); [reflexivity |].
  destruct (cooldownWait _ _ _); [reflexivity |].
  destruct (_ <=? _); cbn [snd]; [| discriminate].
  intros [= <-] H. congruence.
Qed.

Lemma requestSend_frozen (config : Config) (allowlist : Allowlist) (now r : Z)
  (w : World) (req : Request) :
  frozen (loadState w now) = true ->
  snd (requestSend config allowlist now r w req) = Rejected WalletFrozen.
Proof.
  intros Hf. unfold requestSend. cbv zeta. rewrite rollover_frozen, Hf. reflexivity.
Qed.



(** X17. A code is dead after its expiry time: a confirmation attempted
    later than [expiresAt] is refused as expired whatever the code and the
    sender, the pending transfer is dropped with the day's total untouched,
    and the right code presented afterwards finds nothing pending. *)
Theorem expired_code_is_dead (now now2 : Z) (w : World) (s : GuardState)
  (p : PendingTx) (c : string) (sd sd2 : option Sender) :
  persisted w = Some s ->
  pendingConfirmation s = Some p ->
  expiresAt p < now ->
  let w1 := fst (confirmSend now w c sd) in
  snd (confirmSend now w c sd) = Rejected CodeExpired /\
  persisted w1 = Some (set_pendingConfirmation None s) /\
  dailyTotal (loadState w1 now) = dailyTotal s /\
  confirmSend now2 w1 (code p) sd2 = (w1, Rejected NoPending).
Proof.
  intros Hs Hp Hexp w1. unfold w1.
  rewrite (confirmSend_expired now w s p Hs Hp c sd Hexp). cbn [fst snd persisted].
  split; [reflexivity |]. split; [reflexivity |]. split; [reflexivity |].
  apply confirmSend_nothing_pending. reflexivity.
Qed.

Lemma expired_code_is_dead_witness :
  let w1 := fst (confirmSend (Ex.t0 + 300001) (Ex.world5 false) "483920" None) in
  snd (confirmSend (Ex.t0 + 300001) (Ex.world5 false) "483920" None) =
    Rejected CodeExpired /\
  persisted w1 = Some (set_pendingConfirmation None (Ex.state5 false)) /\
  dailyTotal (loadState w1 (Ex.t0 + 300001)) = 40 /\
  confirmSend (Ex.t0 + 300002) w1 "483920" None = (w1, Rejected NoPending).
Proof.
  apply (expired_code_is_dead (Ex.t0 + 300001) (Ex.t0 + 300002) (Ex.world5 false)
           (Ex.state5 false) Ex.pending5 "483920" None None);
    [reflexivity | reflexivity | vm_compute; reflexivity].
Defined.

(** X18. A code works once: after a confirmation ends in approval, expiry
    or auto-cancellation nothing is pending, so every later [confirmSend],
    with the same code or any other, is refused with "no pending
    transaction" and changes neither the state nor the log. *)
Theorem terminal_outcome_leaves_nothing_pending (now now2 : Z) (w : World)
  (c c2 : string) (sd sd2 : option Sender) :
  approved (snd (confirmSend now w c sd)) = true \/
  snd (confirmSend now w c sd) = Rejected CodeExpired \/
  snd (confirmSend now w c sd) = Rejected AutoCancelled ->
  confirmSend now2 (fst (confirmSend now w c sd)) c2 sd2 =
    (fst (confirmSend now w c sd), Rejected NoPending).
Proof.
  intros H. apply confirmSend_nothing_pending. revert H.
  unfold confirmSend. cbv zeta.
  destruct (pendingConfirmation (loadState w now)) as [p |] eqn:Hp.
  2:{ cbn. intros [H | [H | H]]; discriminate. }
  destruct (_ <? _); [reflexivity |].
  destruct (senderMismatch _ _).
  { cbn. intros [H | [H | H]]; discriminate. }
  destruct (bool_decide _).
  - cbn [attempts set_attempts]. destruct (_ <=? _); [reflexivity |].
    cbn. intros [H | [H | H]]; discriminate.
  - reflexivity.
Qed.

Lemma terminal_outcome_leaves_nothing_pending_witness :
  confirmSend (Ex.t0 + 2) (fst (confirmSend (Ex.t0 + 1) (Ex.world5 false) "483920" None))
    "483920" None =
    (fst (confirmSend (Ex.t0 + 1) (Ex.world5 false) "483920" None), Rejected NoPending).
Proof.
  apply (terminal_outcome_leaves_nothing_pending (Ex.t0 + 1) (Ex.t0 + 2)
           (Ex.world5 false) "483920" "483920" None None).
  left. reflexivity.
Defined.

(** X19. A new request replaces the pending one: when [requestSend] issues
    a code while another transfer is pending, the pending confirmation
    becomes the new request's, and the earlier code, if it differs from the
    new one, is from then on a wrong code. *)
Theorem new_request_replaces_pending (config : Config) (allowlist : Allowlist)
  (now r now' : Z) (w : World) (s : GuardState) (p0 : PendingTx) (req : Request)
  (c : string) (sd : option Sender) :
  persisted w = Some s ->
  pendingConfirmation s = Some p0 ->
  issuedCode (snd (requestSend config allowlist now r w req)) = Some c ->
  code p0 <> c ->
  now' <= now + codeExpiry (confirmation config) * 1000 ->
  senderMismatch (req_sender req) sd = false ->
  let w1 := fst (requestSend config allowlist now r w req) in
  (exists s1 p1,
      persisted w1 = Some s1 /\ pendingConfirmation s1 = Some p1 /\
      code p1 = c /\ to p1 = req_to req /\ amount p1 = req_amount req /\
      attempts p1 = 0) /\
  snd (confirmSend now' w1 (code p0) sd) = Rejected (WrongCode 2).
Proof.
  intros Hs Hp0 Hc Hne Ht Hm w1.
  destruct (snd (requestSend config allowlist now r w req)) as [| amt tok addr c0 e |] eqn:Ho;
    try discriminate.
  cbn [issuedCode] in Hc. injection Hc as ->.
  destruct (requestSend_granted _ _ _ _ _ _ _ _ _ _ _ Ho) as (Hp & _).
  cbv zeta in Hp. fold w1 in Hp. split.
  - eexists; eexists. split; [exact Hp |]. cbn [pendingConfirmation].
    split; [reflexivity |]. cbn. auto.
  - rewrite (confirmSend_wrong now' w1 _ _ Hp eq_refl (code p0) sd Ht Hm Hne).
    reflexivity.
Qed.

Lemma new_request_replaces_pending_witness :
  let w1 := fst (requestSend DEFAULT_CONFIG Ex.allow (Ex.t0 + 1000) 7 (Ex.world5 false)
                   (mkRequest "0xABCD" 9 None None)) in
  (exists s1 p1,
      persisted w1 = Some s1 /\ pendingConfirmation s1 = Some p1 /\
      code p1 = "100007" /\ to p1 = "0xABCD" /\ amount p1 = 9 /\ attempts p1 = 0) /\
  snd (confirmSend (Ex.t0 + 2000) w1 "483920" None) = Rejected (WrongCode 2).
Proof.
  apply (new_request_replaces_pending DEFAULT_CONFIG Ex.allow (Ex.t0 + 1000) 7
           (Ex.t0 + 2000) (Ex.world5 false) (Ex.state5 false) Ex.pending5
           (mkRequest "0xABCD" 9 None None) "100007" None);
    try reflexivity; vm_compute; discriminate.
Defined.



Section DailyCap.

Variable config : Config.
Hypothesis max_nonneg : 0 <= dailyMax (limits config).
Hypothesis perTx_le_max : perTransaction (limits config) <= dailyMax (limits config).

Lemma rollover_withinMax (now : Z) (s : GuardState) :
  stateWithinMax config s -> stateWithinMax config (rollover now s).
Proof.
  intros [Ht Hp]. unfold rollover. case_bool_decide; [| split; assumption].
  split; cbn [dailyTotal set_daily pendingConfirmation]; [exact max_nonneg |].
  intros p Hpp. destruct (Hp p Hpp) as [Ha _]. lia.
Qed.

Lemma loadState_withinMax (w : World) (now : Z) :
  withinDailyMax config w -> stateWithinMax config (loadState w now).
Proof.
  intros Hw. unfold loadState. destruct (persisted w) as [s |] eqn:Hs.
  - apply Hw. exact Hs.
  - split; cbn; [exact max_nonneg | discriminate].
Qed.

Lemma requestSend_withinMax (allowlist : Allowlist) (now r : Z) (w : World)
  (req : Request) :
  withinDailyMax config w ->
  withinDailyMax config (fst (requestSend config allowlist now r w req)).
Proof.
  intros Hw.
  pose proof (rollover_withinMax now _ (loadState_withinMax w now Hw)) as [Ht Hp].
  unfold requestSend. cbv zeta.
  destruct (frozen _); [exact Hw |].
  destruct (senderRejected _ _); [exact Hw |].
  destruct (negb _); [exact Hw |].
  destruct (Z.ltb_spec (perTransaction (limits config)) (req_amount req)); [exact Hw |].
  destruct (Z.ltb_spec (dailyMax (limits config))
              (dailyTotal (rollover now (loadState w now)) + req_amount req));
    [exact Hw |].
  destruct (cooldownWait _ _ _); [exact Hw |].
  destruct (_ <=? _); cbn [fst logTransaction saveState persisted];
    intros s [= <-]; split;
    cbn [dailyTotal pendingConfirmation set_frozen set_recentRequests
         set_pendingConfirmation]; try assumption.
  intros p [= <-]. cbn [amount]. lia.
Qed.

Lemma confirmSend_withinMax (now : Z) (w : World) (c : string) (sd : option Sender) :
  withinDailyMax config w -> withinDailyMax config (fst (confirmSend now w c sd)).
Proof.
  intros Hw. pose proof (loadState_withinMax w now Hw) as [Ht Hp].
  unfold confirmSend. cbv zeta.
  destruct (pendingConfirmation (loadState w now)) as [p |] eqn:Hpp; [| exact Hw].
  destruct (Hp p eq_refl) as [Ha Hsum].
  destruct (_ <? _).
  { intros s [= <-]. split; cbn; [exact Ht | discriminate]. }
  destruct (senderMismatch _ _); [exact Hw |].
  destruct (bool_decide _).
  - cbn [attempts set_attempts]. destruct (_ <=? _).
    + intros s [= <-]. split; cbn; [exact Ht | discriminate].
    + intros s [= <-]. split; cbn [dailyTotal set_pendingConfirmation pendingConfirmation];
        [exact Ht |].
      intros q [= <-]. cbn [amount set_attempts]. lia.
  - intros s [= <-]. split; cbn; [exact Hsum | discriminate].
Qed.

Lemma step_withinMax (allowlist : Allowlist) (now : Z) (op : Op) (w : World) :
  withinDailyMax config w ->
  withinDailyMax config (fst (step config allowlist now op w)).
Proof.
  intros Hw. destruct op as [req r | c sd | reason | |]; cbn [step].
  - pose proof (requestSend_withinMax allowlist now r w req Hw) as H.
    destruct (requestSend config allowlist now r w req). exact H.
  - pose proof (confirmSend_withinMax now w c sd Hw) as H.
    destruct (confirmSend now w c sd). exact H.
  - cbn. intros s [= <-]. exact (loadState_withinMax w now Hw).
  - cbn. intros s [= <-]. exact (loadState_withinMax w now Hw).
  - unfold getStatus. cbv zeta. case_bool_decide as Hd; cbn [fst]; [| exact Hw].
    intros s [= <-].
    pose proof (rollover_withinMax now _ (loadState_withinMax w now Hw)) as H.
    unfold rollover in H. rewrite bool_decide_eq_true_2 in H by exact Hd. exact H.
Qed.

Lemma reachableWith_withinMax (w : World) :
  reachableWith config w -> withinDailyMax config w.
Proof.
  induction 1 as [| allowlist now op w _ IH].
  - intros s [=].
  - apply step_withinMax. exact IH.
Qed.

End DailyCap.

(** X21. The daily maximum holds: under a configuration whose daily maximum
    is not negative and not below the per-transaction limit, in every world
    reached from an empty wallet directory by any sequence of requests,
    confirmations, freezes, unfreezes and status queries, at any clock
    readings and with any allowlists, the day's total is at most the daily
    maximum. *)
Theorem dailyTotal_never_exceeds_dailyMax (config : Config) (w : World) (now : Z) :
  0 <= dailyMax (limits config) ->
  perTransaction (limits config) <= dailyMax (limits config) ->
  reachableWith config w ->
  dailyTotal (loadState w now) <= dailyMax (limits config).
Proof.
  intros Hmax Hper Hreach.
  pose proof (reachableWith_withinMax config Hmax Hper w Hreach) as Hw.
  destruct (loadState_withinMax config Hmax w now Hw) as [Ht _]. exact Ht.
Qed.

Lemma dailyTotal_never_exceeds_dailyMax_witness :
  dailyTotal
    (loadState
       (fst (step DEFAULT_CONFIG Ex.allow (Ex.t0 + 1) (OpConfirmSend "100042" None)
               (fst (step DEFAULT_CONFIG Ex.allow Ex.t0
                       (OpRequestSend (mkRequest "0xABCD" 50 None None) 42)
                       (mkWorld None [])))))
       (Ex.t0 + 2)) <= 200.
Proof.
  apply (dailyTotal_never_exceeds_dailyMax DEFAULT_CONFIG _ (Ex.t0 + 2)).
  - vm_compute. discriminate.
  - vm_compute. discriminate.
  - apply reachW_step. apply reachW_step. apply reachW_empty.
Defined.


(** X23. An automatic freeze sticks: when [requestSend] answers that the
    wallet was auto-frozen, the state saved is frozen with the reason
    anomaly_rapid_requests, no confirmation code was issued, the transfer
    that was pending, if any, is still pending, and every later request is
    refused as frozen. *)
Theorem auto_freeze_sticks (config config' : Config) (allowlist allowlist' : Allowlist)
  (now r now' r' : Z) (w : World) (req req' : Request) :
  snd (requestSend config allowlist now r w req) = Rejected AutoFrozen ->
  let w1 := fst (requestSend config allowlist now r w req) in
  frozen (loadState w1 now') = true /\
  frozenReason (loadState w1 now') = Some "anomaly_rapid_requests" /\
  pendingConfirmation (loadState w1 now') = pendingConfirmation (loadState w now) /\
  dailyTotal (loadState w1 now') = SpecGate.rolled_total now (loadState w now) /\
  snd (requestSend config' allowlist' now' r' w1 req') = Rejected WalletFrozen.
Proof.
  intros Ho w1.
  assert (Hp : persisted w1 =
               Some (set_frozen true (Some now) (Some "anomaly_rapid_requests")
                       (set_recentRequests
                          (pruneRecent config now
                             (recentRequests (rollover now (loadState w now))) ++ [now])%list
                          (rollover now (loadState w now))))).
  { revert Ho. unfold w1, requestSend. cbv zeta.
    destruct (frozen _); [discriminate |].
    destruct (senderRejected _ _); [discriminate |].
    destruct (negb _); [discriminate |].
    destruct (_ <? _); [discriminate |].
    destruct (_ <? _); [discriminate |].
    destruct (cooldownWait _ _ _); [discriminate |].
    destruct (_ <=? _); [reflexivity | discriminate]. }
  assert (Hl : forall t, loadState w1 t = set_frozen true (Some now)
                 (Some "anomaly_rapid_requests")
                 (set_recentRequests
                    (pruneRecent config now
                       (recentRequests (rollover now (loadState w now))) ++ [now])%list
                    (rollover now (loadState w now)))).
  { intros t. unfold loadState at 1. rewrite Hp. reflexivity. }
  rewrite !Hl. cbn [frozen frozenReason pendingConfirmation dailyTotal set_frozen
                    set_recentRequests].
  rewrite rollover_pending, rollover_rolled_total.
  repeat (split; [reflexivity |]).
  apply requestSend_frozen. rewrite Hl. reflexivity.
Qed.

Lemma auto_freeze_sticks_witness :
  let cfg := mkConfig 1 (mkLimits 50 200 100) (mkCooldown 30 300)
               (mkConfirmation 300 6 true) (mkFreezeOnAnomalies 2 60) [] in
  let w1 := fst (requestSend cfg Ex.allow (Ex.t0 + 1000) 7 (Ex.world5 false)
                   (mkRequest "0xABCD" 5 None None)) in
  frozen (loadState w1 (Ex.t0 + 2000)) = true /\
  frozenReason (loadState w1 (Ex.t0 + 2000)) = Some "anomaly_rapid_requests" /\
  pendingConfirmation (loadState w1 (Ex.t0 + 2000)) =
    pendingConfirmation (loadState (Ex.world5 false) (Ex.t0 + 1000)) /\
  dailyTotal (loadState w1 (Ex.t0 + 2000)) =
    SpecGate.rolled_total (Ex.t0 + 1000) (loadState (Ex.world5 false) (Ex.t0 + 1000)) /\
  snd (requestSend DEFAULT_CONFIG Ex.allow (Ex.t0 + 2000) 8 w1
         (mkRequest "0xABCD" 1 None None)) = Rejected WalletFrozen.
Proof.
  intros cfg.
  apply (auto_freeze_sticks cfg DEFAULT_CONFIG Ex.allow Ex.allow (Ex.t0 + 1000) 7
           (Ex.t0 + 2000) 8 (Ex.world5 false) (mkRequest "0xABCD" 5 None None)
           (mkRequest "0xABCD" 1 None None)).
  vm_compute. reflexivity.
Defined.

(** X24. The limits bound amounts from above only: a request for zero or
    for a negative amount is never refused by the per-transaction limit or
    by the daily limit, provided the per-transaction limit itself is not
    negative and the day's total is within the daily maximum. *)
Theorem limits_never_stop_nonpositive_amounts (config : Config)
  (allowlist : Allowlist) (now r : Z) (w : World) (req : Request) (a b : Z) :
  req_amount req <= 0 ->
  0 <= perTransaction (limits config) ->
  SpecGate.rolled_total now (loadState w now) <= dailyMax (limits config) ->
  snd (requestSend config allowlist now r w req) <> Rejected (OverPerTxLimit a b) /\
  snd (requestSend config allowlist now r w req) <> Rejected (OverDailyLimit a b).
Proof.
  intros Ha Hp Ht. rewrite <- rollover_rolled_total in Ht.
  unfold requestSend. cbv zeta.
  destruct (frozen _); [split; discriminate |].
  destruct (senderRejected _ _); [split; discriminate |].
  destruct (negb _); [split; discriminate |].
  destruct (Z.ltb_spec (perTransaction (limits config)) (req_amount req)); [lia |].
  destruct (Z.ltb_spec (dailyMax (limits config))
              (dailyTotal (rollover now (loadState w now)) + req_amount req)); [lia |].
  destruct (cooldownWait _ _ _); [split; discriminate |].
  destruct (_ <=? _); split; discriminate.
Qed.

Lemma limits_never_stop_nonpositive_amounts_witness :
  snd (requestSend DEFAULT_CONFIG Ex.allow (Ex.t0 + 1000) 7 (Ex.world5 false)
         (mkRequest "0xABCD" (-500) None None)) <> Rejected (OverPerTxLimit (-500) 50) /\
  snd (requestSend DEFAULT_CONFIG Ex.allow (Ex.t0 + 1000) 7 (Ex.world5 false)
         (mkRequest "0xABCD" (-500) None None)) <> Rejected (OverDailyLimit (-500) 50).
Proof.
  apply (limits_never_stop_nonpositive_amounts DEFAULT_CONFIG Ex.allow (Ex.t0 + 1000) 7
           (Ex.world5 false) (mkRequest "0xABCD" (-500) None None) (-500) 50);
    vm_compute; discriminate.
Defined.

(** A request for minus 500 is granted a code, and confirming it takes 500
    off the day's total. *)
Example negative_amount_lowers_total :
  let r1 := requestSend DEFAULT_CONFIG Ex.allow Ex.t0 42 (mkWorld None [])
              (mkRequest "0xABCD" (-500) None None) in
  let r2 := confirmSend (Ex.t0 + 1) (fst r1) "100042" None in
  issuedCode (snd r1) = Some "100042" /\
  snd r2 = Approved "0xABCD" (-500) "USDC" /\
  dailyTotal (loadState (fst r2) (Ex.t0 + 1)) = -500.
Proof. vm_compute. auto. Qed.

Lemma rollover_dailyDate (now : Z) (s : GuardState) :
  dailyDate (rollover now s) = Iso.today now.
Proof.
  unfold rollover. case_bool_decide as Hd; [reflexivity |].
  destruct (decide (dailyDate s = Iso.today now)); [assumption | contradiction].
Qed.

Lemma rollover_today (now : Z) (s : GuardState) :
  dailyDate s = Iso.today now -> rollover now s = s.
Proof.
  intros H. unfold rollover. rewrite bool_decide_eq_false_2; [reflexivity |].
  intros Hne. apply Hne. exact H.
Qed.

Lemma getStatus_unfold (config : Config) (now : Z) (w : World) :
  getStatus config now w =
    let st := rollover now (loadState w now) in
    (if bool_decide (dailyDate (loadState w now) <> Iso.today now) then saveState w st
     else w,
     {| st_frozen := frozen st;
        st_frozenReason := frozenReason st;
        st_dailyTotal := dailyTotal st;
        st_dailyMax := dailyMax (limits config);
        st_dailyRemaining := dailyMax (limits config) - dailyTotal st;
        st_pendingConfirmation :=
          match pendingConfirmation st with Some _ => true | None => false end |}).
Proof.
  unfold getStatus, rollover. cbv zeta. case_bool_decide; reflexivity.
Qed.

Lemma getStatus_loadState (config : Config) (now : Z) (w : World) :
  loadState (fst (getStatus config now w)) now = rollover now (loadState w now).
Proof.
  rewrite getStatus_unfold. cbv zeta. cbn [fst].
  case_bool_decide as Hd; [reflexivity |].
  symmetry. apply rollover_today.
  destruct (decide (dailyDate (loadState w now) = Iso.today now)); [assumption | contradiction].
Qed.

(** X25. [getStatus] is idempotent: asked again at the same time it returns
    the same report and leaves the world as the first call left it; the
    report shows the total and the frozen flag of the state it leaves, and
    the remaining allowance is the maximum less that total. *)
Theorem getStatus_idempotent (config : Config) (now : Z) (w : World) :
  let w1 := fst (getStatus config now w) in
  let st := snd (getStatus config now w) in
  getStatus config now w1 = (w1, st) /\
  st_dailyTotal st = dailyTotal (loadState w1 now) /\
  st_frozen st = frozen (loadState w1 now) /\
  st_dailyRemaining st = dailyMax (limits config) - dailyTotal (loadState w1 now) /\
  dailyDate (loadState w1 now) = Iso.today now.
Proof.
  intros w1 st.
  assert (Hl : loadState w1 now = rollover now (loadState w now))
    by apply getStatus_loadState.
  assert (Hst : st = snd (getStatus config now w)) by reflexivity.
  rewrite getStatus_unfold in Hst. cbv zeta in Hst. cbn [snd] in Hst.
  split.
  - rewrite (getStatus_unfold config now w1). cbv zeta. rewrite Hl.
    rewrite bool_decide_eq_false_2
      by (intros H; apply H; apply rollover_dailyDate).
    rewrite (rollover_today now (rollover now (loadState w now)))
      by apply rollover_dailyDate.
    rewrite Hst. reflexivity.
  - rewrite Hl, Hst. cbn [st_dailyTotal st_frozen st_dailyRemaining].
    repeat split. apply rollover_dailyDate.
Qed.

Lemma confirmSend_approved_lastTransaction (now : Z) (w : World) (c : string)
  (sd : option Sender) :
  approved (snd (confirmSend now w c sd)) = true ->
  lastTransaction (loadState (fst (confirmSend now w c sd)) now) = Some now /\
  frozen (loadState (fst (confirmSend now w c sd)) now) = frozen (loadState w now).
Proof.
  unfold confirmSend. cbv zeta.
  destruct (pendingConfirmation (loadState w now)) as [p |]; [| discriminate].
  destruct (_ <? _); [discriminate |].
  destruct (senderMismatch _ _); [discriminate |].
  destruct (bool_decide _).
  - cbn [attempts set_attempts]. destruct (_ <=? _); discriminate.
  - intros _. split; reflexivity.
Qed.

(** X26. The cooldown follows every approval: a request that arrives less
    than the configured number of seconds after an approved transfer is
    never granted a code, whatever it asks for, and it leaves the state as
    the approval left it. *)
Theorem no_code_within_cooldown_after_approval (config : Config)
  (allowlist : Allowlist) (t now' r : Z) (w : World) (c : string)
  (sd : option Sender) (req : Request) :
  approved (snd (confirmSend t w c sd)) = true ->
  now' - t < 1000 * betweenTransactions (cooldown config) ->
  let w1 := fst (confirmSend t w c sd) in
  issuedCode (snd (requestSend config allowlist now' r w1 req)) = None /\
  persisted (fst (requestSend config allowlist now' r w1 req)) = persisted w1.
Proof.
  intros Hap Hcd w1.
  destruct (confirmSend_approved_lastTransaction t w c sd Hap) as [Hl _].
  fold w1 in Hl.
  assert (Hl' : lastTransaction (rollover now' (loadState w1 now')) = Some t).
  { rewrite rollover_lastTransaction. revert Hl. unfold loadState.
    destruct (persisted w1); [auto | discriminate]. }
  assert (Hw : exists wait, cooldownWait config (rollover now' (loadState w1 now')) now' =
                            Some wait).
  { unfold cooldownWait. rewrite Hl'.
    destruct (Z.ltb_spec (now' - t) (1000 * betweenTransactions (cooldown config)));
      [eauto | lia]. }
  destruct Hw as (wait & Hw).
  unfold requestSend. cbv zeta.
  destruct (frozen _); [split; reflexivity |].
  destruct (senderRejected _ _); [split; reflexivity |].
  destruct (negb _); [split; reflexivity |].
  destruct (_ <? _); [split; reflexivity |].
  destruct (_ <? _); [split; reflexivity |].
  rewrite Hw. split; reflexivity.
Qed.

Lemma no_code_within_cooldown_after_approval_witness :
  let w1 := fst (confirmSend (Ex.t0 + 1000) (Ex.world5 false) "483920" None) in
  issuedCode (snd (requestSend DEFAULT_CONFIG Ex.allow (Ex.t0 + 30999) 7 w1
                     (mkRequest "0xABCD" 1 None None))) = None /\
  persisted (fst (requestSend DEFAULT_CONFIG Ex.allow (Ex.t0 + 30999) 7 w1
                    (mkRequest "0xABCD" 1 None None))) = persisted w1.
Proof.
  apply (no_code_within_cooldown_after_approval DEFAULT_CONFIG Ex.allow (Ex.t0 + 1000)
           (Ex.t0 + 30999) 7 (Ex.world5 false) "483920" None
           (mkRequest "0xABCD" 1 None None));
    vm_compute; reflexivity.
Defined.

(** X27. A request refused by policy leaves no trace in the state: when
    [requestSend] rejects for any reason but the automatic freeze, state.json
    is not written, so the request is not counted in the anomaly window and
    a date rollover it computed is not stored. *)
Theorem policy_rejection_writes_no_state (config : Config) (allowlist : Allowlist)
  (now r : Z) (w : World) (req : Request) (reason : Reason) :
  snd (requestSend config allowlist now r w req) = Rejected reason ->
  reason <> AutoFrozen ->
  persisted (fst (requestSend config allowlist now r w req)) = persisted w /\
  recentRequests (loadState (fst (requestSend config allowlist now r w req)) now) =
    recentRequests (loadState w now) /\
  dailyDate (loadState (fst (requestSend config allowlist now r w req)) now) =
    dailyDate (loadState w now).
Proof.
  intros Ho Hne.
  pose proof (requestSend_rejected_persisted config allowlist now r w req reason Ho Hne)
    as Hp.
  split; [exact Hp |]. unfold loadState. rewrite Hp. split; reflexivity.
Qed.

Lemma policy_rejection_writes_no_state_witness :
  let w := mkWorld (Some (set_daily 40 "2023-11-13" (Ex.state5 false))) [] in
  persisted (fst (requestSend DEFAULT_CONFIG Ex.allow Ex.t0 7 w
                    (mkRequest "0xdead" 5 None None))) = persisted w /\
  recentRequests (loadState (fst (requestSend DEFAULT_CONFIG Ex.allow Ex.t0 7 w
                                    (mkRequest "0xdead" 5 None None))) Ex.t0) =
    recentRequests (loadState w Ex.t0) /\
  dailyDate (loadState (fst (requestSend DEFAULT_CONFIG Ex.allow Ex.t0 7 w
                               (mkRequest "0xdead" 5 None None))) Ex.t0) =
    dailyDate (loadState w Ex.t0).
Proof.
  intros w.
  apply (policy_rejection_writes_no_state DEFAULT_CONFIG Ex.allow Ex.t0 7 w
           (mkRequest "0xdead" 5 None None) (NotAllowlisted "0xdead")).
  - vm_compute. reflexivity.
  - discriminate.
Defined.

(** X28. Identity checks apply only to identities that are given: a request
    that carries no sender, or any request when no authorized senders are
    configured, is never refused as unauthorized; and a confirmation that
    carries no sender, or that confirms a request made without one, is
    never refused for a sender mismatch. *)
Theorem absent_identity_is_never_refused (config : Config) (allowlist : Allowlist)
  (now r : Z) (w : World) (req : Request) (c : string) (sd : option Sender) :
  (req_sender req = None \/ authorizedSenders config = [] ->
   snd (requestSend config allowlist now r w req) <> Rejected UnauthorizedSender) /\
  (sd = None \/
   (forall p, pendingConfirmation (loadState w now) = Some p -> sender p = None) ->
   snd (confirmSend now w c sd) <> Rejected SenderMismatch).
Proof.
  split.
  - intros H.
    assert (Hs : senderRejected config (req_sender req) = false).
    { unfold senderRejected. destruct H as [-> | H]; [reflexivity |].
      destruct (req_sender req); [| reflexivity]. rewrite H. reflexivity. }
    unfold requestSend. cbv zeta. rewrite Hs.
    destruct (frozen _); [discriminate |].
    destruct (negb _); [discriminate |].
    destruct (_ <? _); [discriminate |].
    destruct (_ <? _); [discriminate |].
    destruct (cooldownWait _ _ _); [discriminate |].
    destruct (_ <=? _); discriminate.
  - intros H. unfold confirmSend. cbv zeta.
    destruct (pendingConfirmation (loadState w now)) as [p |] eqn:Hp; [| discriminate].
    assert (Hm : senderMismatch (sender p) sd = false).
    { destruct H as [-> | H].
      - destruct (sender p); reflexivity.
      - rewrite (H p eq_refl). reflexivity. }
    rewrite Hm.
    destruct (_ <? _); [discriminate |].
    destruct (bool_decide _).
    + cbn [attempts set_attempts]. destruct (_ <=? _); discriminate.
    + discriminate.
Qed.

(** With an authorized list that does not hold her, a request tagged with
    the sender is refused; the same request without the tag is granted a
    code. *)
Example untagged_request_passes_sender_check :
  let cfg := mkConfig 1 (mkLimits 50 200 100) (mkCooldown 30 300)
               (mkConfirmation 300 6 true) (mkFreezeOnAnomalies 3 60) [Ex.alice] in
  snd (requestSend cfg Ex.allow Ex.t0 42 (mkWorld None [])
         (mkRequest "0xABCD" 5 None (Some Ex.bob))) = Rejected UnauthorizedSender /\
  issuedCode (snd (requestSend cfg Ex.allow Ex.t0 42 (mkWorld None [])
                     (mkRequest "0xABCD" 5 None None))) = Some "100042".
Proof. vm_compute. auto. Qed.
